(** * LINE Login OAuth broker: CSRF guard, state store, session binder,
      approval cache and the three HTTP entry points.

    Shallow embedding of [src/workers-oauth-utils.ts] (which also holds the
    entry point and the Hono router of the LINE handler), [src/utils.ts] and
    the Supabase sign-in helper.

    - A JavaScript string is modelled by its UTF-8 bytes, a Rocq [string];
      strings with a lone surrogate have no counterpart.  The operations the
      source applies by position ([split], [lastIndexOf], [slice]) cut at
      ASCII characters, where bytes and code units agree.
    - A thrown exception is the [Throw] of a result type; an [async]
      function that reads or writes the store, draws a random UUID or calls
      a service is a function of the world that returns a result and the
      next world.
    - Web Crypto, JSON, base64 and the iteration of [Headers] are the fields
      of a class [Platform]; the properties hold for every platform, and a
      reference platform runs the model on sample requests. *)

From Stdlib Require Import ZArith NArith Ascii String List Bool Lia.
From Stdlib Require Import Strings.Byte DecimalString.
From stdpp Require Import base option list strings gmap.

Open Scope list_scope.
Open Scope string_scope.

(* ===================================================================== *)
(** ** JavaScript string primitives used by the source *)
(* ===================================================================== *)

Module Js.

Definition chars (s : string) : list ascii := list_ascii_of_string s.
Definition str (l : list ascii) : string := string_of_list_ascii l.

(** [!s] on a string: only the empty string is falsy. *)
Definition falsy (s : string) : bool :=
  match s with EmptyString => true | String _ _ => false end.

(** [s.split(sep)] for a one-character separator: never the empty list. *)
Fixpoint split (sep : ascii) (s : string) : list string :=
  match s with
  | EmptyString => [EmptyString]
  | String c r =>
      if Ascii.eqb c sep then EmptyString :: split sep r
      else match split sep r with
           | h :: t => String c h :: t
           | [] => [String c EmptyString]
           end
  end.

(** [parts.join(sep)]. *)
Definition join (sep : string) (parts : list string) : string :=
  String.concat sep parts.

(** White space and line terminators of ECMAScript ([String.prototype.trim]),
    as UTF-8 byte sequences: U+0009..U+000D, U+0020, U+00A0, U+1680,
    U+2000..U+200A, U+2028, U+2029, U+202F, U+205F, U+3000, U+FEFF. *)
Definition ws1 (a : ascii) : bool :=
  let n := N_of_ascii a in ((9 <=? n) && (n <=? 13) || (n =? 32))%N.

Definition ws2 (a b : ascii) : bool :=
  ((N_of_ascii a =? 194) && (N_of_ascii b =? 160))%N.

Definition ws3 (a b c : ascii) : bool :=
  let x := N_of_ascii a in
  let y := N_of_ascii b in
  let z := N_of_ascii c in
  ((x =? 225) && (y =? 154) && (z =? 128)
   || (x =? 226) && (y =? 128)
      && ((128 <=? z) && (z <=? 138) || (z =? 168) || (z =? 169) || (z =? 175))
   || (x =? 226) && (y =? 129) && (z =? 159)
   || (x =? 227) && (y =? 128) && (z =? 128)
   || (x =? 239) && (y =? 187) && (z =? 191))%N.

(** Drops leading white space, given the recognisers of one, two and three
    byte sequences (read in the direction of travel). *)
Fixpoint strip (w1 : ascii -> bool) (w2 : ascii -> ascii -> bool)
    (w3 : ascii -> ascii -> ascii -> bool) (s : list ascii) : list ascii :=
  match s with
  | [] => []
  | a :: r =>
      if w1 a then strip w1 w2 w3 r
      else match r with
           | [] => s
           | b :: r2 =>
               if w2 a b then strip w1 w2 w3 r2
               else match r2 with
                    | [] => s
                    | c :: r3 => if w3 a b c then strip w1 w2 w3 r3 else s
                    end
           end
  end.

Definition trimStart (s : list ascii) : list ascii := strip ws1 ws2 ws3 s.

Definition trimEnd (s : list ascii) : list ascii :=
  rev (strip ws1 (fun a b => ws2 b a) (fun a b c => ws3 c b a) (rev s)).

(** [s.trim()]. *)
Definition trim (s : string) : string := str (trimEnd (trimStart (chars s))).

(** [s.lastIndexOf(c)] for a one-character needle: [None] is JavaScript's -1. *)
Fixpoint lastIndexOf (c : ascii) (s : string) : option nat :=
  match s with
  | EmptyString => None
  | String a r =>
      match lastIndexOf c r with
      | Some i => Some (S i)
      | None => if Ascii.eqb a c then Some 0 else None
      end
  end.

(** [s.slice(0, n)] and [s.slice(n)] for in-range, non-negative [n]. *)
Definition slice_to (n : nat) (s : string) : string := String.substring 0 n s.
Definition slice_from (n : nat) (s : string) : string :=
  String.substring n (String.length s - n) s.

(** [s.replace(/c/g, by)]. *)
Fixpoint replaceAll (c : ascii) (by_ : string) (s : string) : string :=
  match s with
  | EmptyString => EmptyString
  | String a r =>
      if Ascii.eqb a c then by_ ++ replaceAll c by_ r
      else String a (replaceAll c by_ r)
  end.

(** [s.includes(t)] on strings. *)
Fixpoint includes (t s : string) : bool :=
  String.prefix t s
  || match s with
     | EmptyString => false
     | String _ r => includes t r
     end.

End Js.

(* ===================================================================== *)
(** ** Results and errors *)
(* ===================================================================== *)

(** Exceptions other than [OAuthError] that the platform can raise in the
    modelled code. *)
Inductive PlatformError : Type :=
  | URIError            (* decodeURIComponent on a malformed sequence *)
  | SyntaxError         (* JSON.parse on text that is not JSON *)
  | TypeError           (* property of null, call of a non-function, ... *)
  | InvalidCharacterError  (* atob / btoa on a string they refuse *)
  | DataError.            (* crypto.subtle.importKey on an empty HMAC key *)

(** [class OAuthError extends Error] with its [statusCode] and [message]. *)
Inductive Exn : Type :=
  | OAuthError (statusCode : Z) (message : string)
  | Raised (e : PlatformError).

Inductive Result (A : Type) : Type :=
  | Ok (a : A)
  | Throw (e : Exn).
Arguments Ok {A} a.
Arguments Throw {A} e.

Definition Result_bind {A B : Type} (r : Result A) (k : A -> Result B) : Result B :=
  match r with
  | Ok a => k a
  | Throw e => Throw e
  end.

(** [let? x := r in k]: evaluate [r]; an exception propagates. *)
Notation "'let?' x := r 'in' k" := (Result_bind r (fun x => k))
  (at level 10, x name, r at level 100, k at level 200).

(** A platform call that either returns or raises the given error. *)
Definition orRaise {A : Type} (e : PlatformError) (o : option A) : Result A :=
  match o with
  | Some a => Ok a
  | None => Throw (Raised e)
  end.

(* ===================================================================== *)
(** ** HTTP requests and responses *)
(* ===================================================================== *)

(** [FormDataEntryValue]: a string or a [File]. *)
Inductive FormDataEntryValue : Type :=
  | FormString (s : string)
  | FormFile.

Definition FormData : Type := list (string * FormDataEntryValue).

(** [formData.get(name)]: the first entry of that name. *)
Fixpoint formData_get (name : string) (fd : FormData) : option FormDataEntryValue :=
  match fd with
  | [] => None
  | (k, v) :: rest => if String.eqb k name then Some v else formData_get name rest
  end.

(** The parts of [request.url] the handlers read. *)
Record URL : Type := {
  protocol : string;            (* with its colon, as [url.protocol] *)
  hostname : string;
  port : string;                (* empty for the scheme's default port *)
  pathname : string;
  searchParams : list (string * string)  (* decoded, in order *)
}.

Record Request : Type := {
  url : URL;
  cookieHeader : option string; (* [headers.get("Cookie")], none when absent *)
  body : option FormData        (* none when [formData()] rejects *)
}.

(** [searchParams.get(name)]: the first value of that name. *)
Fixpoint searchParams_get (name : string) (ps : list (string * string)) : option string :=
  match ps with
  | [] => None
  | (k, v) :: rest => if String.eqb k name then Some v else searchParams_get name rest
  end.

(* ===================================================================== *)
(** ** Cookies *)
(* ===================================================================== *)

(** One [pair] of the loop in [parseCookies]: [cookies[key.trim()] = ...]
    when [key] is not empty.  Assigning a string to ["__proto__"] on an
    object literal changes nothing. *)
Definition parseCookies_step (cookies : gmap string string) (pair : string)
    : gmap string string :=
  match Js.split "=" (Js.trim pair) with
  | [] => cookies
  | key :: vals =>
      if Js.falsy key then cookies
      else
        let k := Js.trim key in
        if String.eqb k "__proto__" then cookies
        else <[ k := Js.trim (Js.join "=" vals) ]> cookies
  end.

Definition parseCookies (cookieHeader : string) : gmap string string :=
  fold_left parseCookies_step (Js.split ";" cookieHeader) ∅.

(** [parseCookies(request.headers.get("Cookie") || "")]. *)
Definition request_cookies (request : Request) : gmap string string :=
  parseCookies (default "" (cookieHeader request)).

(** The [name=value] pair a user agent keeps of a [Set-Cookie] directive
    and sends back in its [Cookie] header. *)
Definition cookiePair (setCookie : string) : string :=
  hd "" (Js.split ";" setCookie).

(** [cookies[name]] followed by a truthiness test: absent and empty are
    both falsy. *)
Definition truthy_cookie (cookies : gmap string string) (name : string) : option string :=
  match cookies !! name with
  | Some v => if Js.falsy v then None else Some v
  | None => None
  end.

(* ===================================================================== *)
(** ** CSRF protection *)
(* ===================================================================== *)

Definition validateCSRFToken (formData : FormData) (request : Request) : Result unit :=
  match formData_get "csrf_token" formData with
  | Some (FormString csrfToken) =>
      if Js.falsy csrfToken then Throw (OAuthError 400 "Missing CSRF token")
      else
        let cookies := request_cookies request in
        match truthy_cookie cookies "__Host-csrf" with
        | Some cookieToken =>
            if String.eqb cookieToken csrfToken then Ok tt
            else Throw (OAuthError 403 "CSRF token mismatch")
        | None => Throw (OAuthError 403 "CSRF token mismatch")
        end
  | _ => Throw (OAuthError 400 "Missing CSRF token")
  end.

(* ===================================================================== *)
(** ** Hexadecimal, percent-encoding and UUIDs *)
(* ===================================================================== *)

(** One digit of [Number.prototype.toString(16)]: lower case. *)
Definition hexDigit (n : N) : ascii :=
  ascii_of_N (if (n <? 10)%N then 48 + n else 87 + n).

(** [b.toString(16)] for a byte. *)
Definition toString16 (b : byte) : string :=
  let n := Byte.to_N b in
  if (n <? 16)%N then String (hexDigit n) EmptyString
  else String (hexDigit (n / 16)) (String (hexDigit (n mod 16)) EmptyString).

(** [s.padStart(2, "0")]. *)
Definition padStart2 (s : string) : string :=
  match String.length s with
  | 0 => "00"
  | 1 => "0" ++ s
  | _ => s
  end.

(** [Array.from(bytes).map(b => b.toString(16).padStart(2, "0")).join("")]. *)
Definition hex (bytes : list byte) : string :=
  Js.join "" (map (fun b => padStart2 (toString16 b)) bytes).

(** The value of a hexadecimal digit, either case. *)
Definition hexVal (a : ascii) : option N :=
  let n := N_of_ascii a in
  if ((48 <=? n) && (n <=? 57))%N then Some (n - 48)%N
  else if ((65 <=? n) && (n <=? 70))%N then Some (n - 55)%N
  else if ((97 <=? n) && (n <=? 102))%N then Some (n - 87)%N
  else None.

(** Upper-case digit, as [encodeURIComponent] writes escapes. *)
Definition hexDigitUpper (n : N) : ascii :=
  ascii_of_N (if (n <? 10)%N then 48 + n else 55 + n).

(** Characters [encodeURIComponent] leaves alone: letters, digits and
    [- _ . ! ~ * ' ( )]. *)
Definition uriUnreserved (a : ascii) : bool :=
  let n := N_of_ascii a in
  ((48 <=? n) && (n <=? 57) || (65 <=? n) && (n <=? 90) || (97 <=? n) && (n <=? 122)
   || (n =? 45) || (n =? 95) || (n =? 46) || (n =? 33) || (n =? 126)
   || (n =? 42) || (n =? 39) || (n =? 40) || (n =? 41))%N.

Definition percent (a : ascii) : list ascii :=
  let n := N_of_ascii a in
  ["%"%char; hexDigitUpper (n / 16); hexDigitUpper (n mod 16)].

(** [encodeURIComponent(s)]: every byte of the UTF-8 form that is not
    unreserved becomes [%XX].  (It throws only on a lone surrogate, which a
    UTF-8 string cannot hold.) *)
Definition encodeURIComponent (s : string) : string :=
  Js.str (flat_map (fun a => if uriUnreserved a then [a] else percent a) (Js.chars s)).

(** The input of [decodeURIComponent] cut into literal characters and
    [%XX] escapes; none when a [%] is not followed by two hex digits. *)
Inductive UriToken : Type :=
  | Lit (a : ascii)
  | Esc (b : N).

Fixpoint uriTokens (s : list ascii) : option (list UriToken) :=
  match s with
  | [] => Some []
  | a :: r =>
      if Ascii.eqb a "%" then
        match r with
        | h :: l :: r2 =>
            match hexVal h, hexVal l with
            | Some x, Some y => cons (Esc (16 * x + y)) <$> uriTokens r2
            | _, _ => None
            end
        | _ => None
        end
      else cons (Lit a) <$> uriTokens r
  end.

Definition utf8Cont (b : N) : bool := ((128 <=? b) && (b <=? 191))%N.

(** Second byte of a well-formed UTF-8 sequence, by its lead byte: no
    overlong form, no surrogate, nothing above U+10FFFF. *)
Definition utf8Second (lead b : N) : bool :=
  (if lead =? 224 then (160 <=? b) && (b <=? 191)
   else if lead =? 237 then (128 <=? b) && (b <=? 159)
   else if lead =? 240 then (144 <=? b) && (b <=? 191)
   else if lead =? 244 then (128 <=? b) && (b <=? 143)
   else utf8Cont b)%N.

(** The escapes must spell well-formed UTF-8; a lead byte takes its
    continuation bytes from the escapes that follow it. *)
Fixpoint uriDecodeTokens (ts : list UriToken) : option (list ascii) :=
  match ts with
  | [] => Some []
  | Lit a :: r => cons a <$> uriDecodeTokens r
  | Esc b :: r =>
      if (b <? 128)%N then cons (ascii_of_N b) <$> uriDecodeTokens r
      else if ((194 <=? b) && (b <=? 223))%N then
        match r with
        | Esc c :: r2 =>
            if utf8Cont c
            then app [ascii_of_N b; ascii_of_N c] <$> uriDecodeTokens r2
            else None
        | _ => None
        end
      else if ((224 <=? b) && (b <=? 239))%N then
        match r with
        | Esc c :: Esc d :: r3 =>
            if utf8Second b c && utf8Cont d
            then app [ascii_of_N b; ascii_of_N c; ascii_of_N d] <$> uriDecodeTokens r3
            else None
        | _ => None
        end
      else if ((240 <=? b) && (b <=? 244))%N then
        match r with
        | Esc c :: Esc d :: Esc e :: r4 =>
            if utf8Second b c && utf8Cont d && utf8Cont e
            then app [ascii_of_N b; ascii_of_N c; ascii_of_N d; ascii_of_N e]
                   <$> uriDecodeTokens r4
            else None
        | _ => None
        end
      else None
  end.

(** [decodeURIComponent(s)]; none stands for its [URIError]. *)
Definition decodeURIComponent (s : string) : option string :=
  match uriTokens (Js.chars s) with
  | Some ts => Js.str <$> uriDecodeTokens ts
  | None => None
  end.

(** [application/x-www-form-urlencoded] serialisation of one name or value,
    as [URLSearchParams] writes it into [url.href]. *)
Definition formUrlSafe (a : ascii) : bool :=
  let n := N_of_ascii a in
  ((48 <=? n) && (n <=? 57) || (65 <=? n) && (n <=? 90) || (97 <=? n) && (n <=? 122)
   || (n =? 42) || (n =? 45) || (n =? 46) || (n =? 95))%N.

Definition formUrlEncode (s : string) : string :=
  Js.str (flat_map (fun a => if formUrlSafe a then [a]
                             else if Ascii.eqb a " " then ["+"%char]
                             else percent a) (Js.chars s)).

(** [crypto.randomUUID()] from sixteen random bytes: version 4, variant 1,
    written 8-4-4-4-12 in lower-case hexadecimal. *)
Definition byte_of_N (n : N) : byte := byte_of_ascii (ascii_of_N n).

Definition uuidBytes (random : nat -> byte) : list byte :=
  map (fun i =>
         let b := Byte.to_N (random i) in
         if Nat.eqb i 6 then byte_of_N (N.lor (N.land b 15) 64)
         else if Nat.eqb i 8 then byte_of_N (N.lor (N.land b 63) 128)
         else random i)
      (seq 0 16).

Definition uuidFormat (bytes : list byte) : string :=
  hex (take 4 bytes) ++ "-" ++ hex (take 2 (drop 4 bytes)) ++ "-"
  ++ hex (take 2 (drop 6 bytes)) ++ "-" ++ hex (take 2 (drop 8 bytes)) ++ "-"
  ++ hex (drop 10 bytes).

(* ===================================================================== *)
(** ** JSON values with the JavaScript operations the source applies *)
(* ===================================================================== *)

(** What [JSON.parse] can return.  [number] is the host's number type. *)
#[warnings="-register-all"]
Inductive json (number : Type) : Type :=
  | JNull
  | JBool (b : bool)
  | JNum (n : number)
  | JStr (s : string)
  | JArr (items : list (json number))
  | JObj (fields : list (string * json number)).
Arguments JNull {number}.
Arguments JBool {number} b.
Arguments JNum {number} n.
Arguments JStr {number} s.
Arguments JArr {number} items.
Arguments JObj {number} fields.

(** The own property [key] of a parsed object: with a repeated key,
    [JSON.parse] keeps the last value. *)
Fixpoint field {number : Type} (key : string) (fields : list (string * json number))
    : option (json number) :=
  match fields with
  | [] => None
  | (k, v) :: rest =>
      match field key rest with
      | Some later => Some later
      | None => if String.eqb k key then Some v else None
      end
  end.

(* ===================================================================== *)
(** ** The world a request runs in *)
(* ===================================================================== *)

(** [Props]: the context stored in the issued token. *)
Record Props : Type := {
  lineUserId : string;
  supabaseUserId : string;
  displayName : string
}.

(** What [OAUTH_PROVIDER.lookupClient] returns of a client. *)
Record ClientInfo : Type := {
  clientName : option string;
  clientId : option string
}.

(** An HTTP reply as the source reads it: [ok], [text()] and [json()]
    typed as the source casts it. *)
Record HttpReply (A : Type) : Type := {
  reply_ok : bool;
  reply_text : string;
  reply_json : Result A
}.
Arguments reply_ok {A} _.
Arguments reply_text {A} _.
Arguments reply_json {A} _.

Record LineProfileBody : Type := {
  profile_userId : string;
  profile_displayName : string;
  pictureUrl : option string
}.

(** [{ data, error }] of [client.auth.signInWithPassword]. *)
Inductive SignInResult : Type :=
  | SignInError (message : string)
  | SignInData (user_id : string).

Section World.

Variable number : Type.

(** The argument of [OAUTH_PROVIDER.completeAuthorization]. *)
Record CompleteAuthorizationOptionsOf : Type := {
  auth_request : json number;
  userId : string;
  label : string;               (* [metadata.label] *)
  scope : option (json number);
  props : Props
}.

(** What a request does to the outside, in order. *)
Inductive EventOf : Type :=
  | KvPut (key value : string) (expirationTtl : Z)
  | KvGet (key : string)
  | KvDelete (key : string)
  | LineToken (form : list (string * string))
  | LineProfile (accessToken : string)
  | SupabaseSignIn (email password : string)
  | CompleteAuthorization (options : CompleteAuthorizationOptionsOf).

(** The key value namespace [OAUTH_KV] (each value with the time it
    expires), the clock in seconds, the random source and the trace. *)
Record WorldOf : Type := {
  kv : gmap string (string * Z);
  now : Z;
  random : nat -> nat -> byte;  (* call number, byte index *)
  randomCalls : nat;
  trace : list EventOf
}.

(** The bindings of [Env] and the services behind them. *)
Record EnvOf : Type := {
  SUPABASE_URL : string;
  SUPABASE_ANON_KEY : string;
  LINE_CHANNEL_ID : string;
  LINE_CHANNEL_SECRET : string;
  COMMON_PASSWORD_PREFIX : string;
  COOKIE_ENCRYPTION_KEY : string;
  (* OAUTH_PROVIDER *)
  parseAuthRequest : Request -> Result (json number);
  lookupClient : json number -> Result (option ClientInfo);
  completeAuthorization : CompleteAuthorizationOptionsOf -> Result string;
  (* fetch("https://api.line.me/oauth2/v2.1/token"), [access_token] of the body *)
  line_token : list (string * string) -> Result (HttpReply (option string));
  (* fetch("https://api.line.me/v2/profile") *)
  line_profile : string -> Result (HttpReply LineProfileBody);
  (* createClient(url, key).auth.signInWithPassword({ email, password }) *)
  signInWithPassword : string -> string -> string -> string -> Result SignInResult
}.

End World.

Arguments auth_request {number} _.
Arguments userId {number} _.
Arguments label {number} _.
Arguments scope {number} _.
Arguments props {number} _.
Arguments KvPut {number} key value expirationTtl.
Arguments KvGet {number} key.
Arguments KvDelete {number} key.
Arguments LineToken {number} form.
Arguments LineProfile {number} accessToken.
Arguments SupabaseSignIn {number} email password.
Arguments CompleteAuthorization {number} options.
Arguments kv {number} _.
Arguments now {number} _.
Arguments random {number} _ _ _.
Arguments randomCalls {number} _.
Arguments trace {number} _.
Arguments SUPABASE_URL {number} _.
Arguments SUPABASE_ANON_KEY {number} _.
Arguments LINE_CHANNEL_ID {number} _.
Arguments LINE_CHANNEL_SECRET {number} _.
Arguments COMMON_PASSWORD_PREFIX {number} _.
Arguments COOKIE_ENCRYPTION_KEY {number} _.
Arguments parseAuthRequest {number} _ _.
Arguments lookupClient {number} _ _.
Arguments completeAuthorization {number} _ _.
Arguments line_token {number} _ _.
Arguments line_profile {number} _ _.
Arguments signInWithPassword {number} _ _ _ _ _.

(** The platform under the source: Web Crypto, JSON, base64 and the
    iteration of [Headers].  Nothing is assumed of the digests beyond their
    length, and of JSON beyond the rejection of the empty text. *)
Class Platform : Type := {
  number : Type;
  number_truthy : number -> bool;                  (* not 0, -0 or NaN *)
  number_sameValueZero : number -> number -> bool;
  number_toString : number -> string;
  JSON_parse : string -> option (json number);     (* none: SyntaxError *)
  JSON_stringify : json number -> string;
  JSON_parse_empty : JSON_parse "" = None;
  digest_SHA256 : string -> list byte;             (* crypto.subtle.digest *)
  digest_SHA256_length : forall data, length (digest_SHA256 data) = 32;
  sign_HMAC_SHA256 : string -> string -> list byte; (* key, data *)
  btoa : string -> option string;                  (* none: InvalidCharacterError *)
  atob : string -> option string;
  (** [new URL(s)] as far as [sanitizeUrl] reads it: protocol and href. *)
  URL_parse : string -> option (string * string);
  (** Whether iterating a [Headers] object yields each [Set-Cookie] value
      on its own (the Fetch standard) or all of them joined by [", "]. *)
  headers_getsetcookie : bool;
  (** [error.message] of a platform exception. *)
  error_message : PlatformError -> string
}.

(** The values and the world over the platform's numbers. *)
Abbreviation Json := (json number).
Abbreviation CompleteAuthorizationOptions := (CompleteAuthorizationOptionsOf number).
Abbreviation Event := (EventOf number).
Abbreviation World := (WorldOf number).
Abbreviation Env := (EnvOf number).

Section Broker.

Context {P : Platform}.

(** Truthiness of a value read from an object: [undefined] is [None]. *)
Definition truthy (v : option Json) : bool :=
  match v with
  | None | Some JNull => false
  | Some (JBool b) => b
  | Some (JNum n) => number_truthy n
  | Some (JStr s) => negb (Js.falsy s)
  | Some (JArr _) | Some (JObj _) => true
  end.

(** [v.key] for a key that no prototype defines ([clientId], [oauthReqInfo],
    [scope]): a [TypeError] on [null], the own property on an object,
    [undefined] on any other value. *)
Definition get (v : Json) (key : string) : Result (option Json) :=
  match v with
  | JNull => Throw (Raised TypeError)
  | JObj fields => Ok (field key fields)
  | _ => Ok None
  end.

(** SameValueZero between two values that come from different calls of
    [JSON.parse]: primitives by value, arrays and objects never. *)
Definition sameValueZero (x y : Json) : bool :=
  match x, y with
  | JNull, JNull => true
  | JBool a, JBool b => Bool.eqb a b
  | JNum a, JNum b => number_sameValueZero a b
  | JStr a, JStr b => String.eqb a b
  | _, _ => false
  end.

(** [ToString(v)]: arrays join their elements, an object prints
    ["[object Object]"] unless an own [toString] property, which JSON cannot
    make callable, hides the inherited one. *)
Fixpoint ToString (v : Json) : Result string :=
  match v with
  | JNull => Ok "null"
  | JBool b => Ok (if b then "true" else "false")
  | JNum n => Ok (number_toString n)
  | JStr s => Ok s
  | JArr items =>
      let fix each (l : list Json) : Result (list string) :=
        match l with
        | [] => Ok []
        | x :: r =>
            let? s := match x with JNull => Ok "" | _ => ToString x end in
            let? rest := each r in
            Ok (s :: rest)
        end in
      let? parts := each items in Ok (Js.join "," parts)
  | JObj fields =>
      match field "toString" fields with
      | Some _ => Throw (Raised TypeError)
      | None => Ok "[object Object]"
      end
  end.

(** [approved.includes(x)]: the array method, the string method, or the
    call of something that is not a function. *)
Definition includes (approved x : Json) : Result bool :=
  match approved with
  | JArr items => Ok (existsb (sameValueZero x) items)
  | JStr s => let? t := ToString x in Ok (Js.includes t s)
  | _ => Throw (Raised TypeError)
  end.

(** [approved.push(x)]. *)
Definition push (approved x : Json) : Result Json :=
  match approved with
  | JArr items => Ok (JArr (items ++ [x]))
  | _ => Throw (Raised TypeError)
  end.

(* --------------------------------------------------------------------- *)
(** *** Helpers of [workers-oauth-utils.ts] *)
(* --------------------------------------------------------------------- *)

Definition sha256 (data : string) : string := hex (digest_SHA256 data).

(** [importKey]: an HMAC key of length zero is refused. *)
Definition importKey (secret : string) : Result string :=
  if Js.falsy secret then Throw (Raised DataError) else Ok secret.

Definition signData (data secret : string) : Result string :=
  let? key := importKey secret in
  Ok (hex (sign_HMAC_SHA256 key data)).

Definition verifySignature (data signature secret : string) : Result bool :=
  let? expected := signData data secret in
  Ok (String.eqb expected signature).

(* --------------------------------------------------------------------- *)
(** *** Client approval (cookie-based) *)
(* --------------------------------------------------------------------- *)

Definition getApprovedClientsFromCookie (request : Request) (secret : string)
    : Result Json :=
  let cookies := request_cookies request in
  match truthy_cookie cookies "__Host-approved" with
  | None => Ok (JArr [])
  | Some raw =>
      let? decoded := orRaise URIError (decodeURIComponent raw) in
      match Js.lastIndexOf "|" decoded with
      | None => Ok (JArr [])
      | Some pipeIdx =>
          let data := Js.slice_to pipeIdx decoded in
          let signature := Js.slice_from (pipeIdx + 1) decoded in
          let? verified := verifySignature data signature secret in
          if verified then
            match JSON_parse data with
            | Some v => Ok v
            | None => Ok (JArr [])
            end
          else Ok (JArr [])
      end
  end.

Definition isClientApproved (request : Request) (clientId : Json) (secret : string)
    : Result bool :=
  let? approved := getApprovedClientsFromCookie request secret in
  includes approved clientId.

Definition addApprovedClient (request : Request) (clientId : Json) (secret : string)
    : Result string :=
  let? approved := getApprovedClientsFromCookie request secret in
  let? present := includes approved clientId in
  let? approved := (if present then Ok approved else push approved clientId) in
  let data := JSON_stringify approved in
  let? signature := signData data secret in
  let value := data ++ "|" ++ signature in
  Ok ("__Host-approved=" ++ encodeURIComponent value
      ++ "; HttpOnly; Secure; SameSite=Lax; Path=/; Max-Age=31536000").

(* --------------------------------------------------------------------- *)
(** *** Awaited calls: state passing with exceptions *)
(* --------------------------------------------------------------------- *)

Definition M (A : Type) : Type := World -> Result A * World.

Definition ret {A : Type} (a : A) : M A := fun w => (Ok a, w).
Definition throw {A : Type} (e : Exn) : M A := fun w => (Throw e, w).
Definition lift {A : Type} (r : Result A) : M A := fun w => (r, w).

Definition bind {A B : Type} (m : M A) (k : A -> M B) : M B :=
  fun w =>
    match m w with
    | (Ok a, w') => k a w'
    | (Throw e, w') => (Throw e, w')
    end.

(** [try { m } catch (error) { handler }]. *)
Definition try_catch {A : Type} (m : M A) (handler : Exn -> M A) : M A :=
  fun w =>
    match m w with
    | (Ok a, w') => (Ok a, w')
    | (Throw e, w') => handler e w'
    end.

(** [let* x := m in k]: an awaited call followed by the rest of the body. *)
Notation "'let*' x := m 'in' k" := (bind m (fun x => k))
  (at level 10, x name, m at level 100, k at level 200).
Notation "m ;; k" := (bind m (fun _ => k))
  (at level 100, k at level 200, right associativity).

Definition emit (e : Event) : M unit :=
  fun w => (Ok tt, {| kv := kv w; now := now w; random := random w;
                     randomCalls := randomCalls w; trace := trace w ++ [e] |}).

Definition set_kv (f : gmap string (string * Z) -> gmap string (string * Z)) : M unit :=
  fun w => (Ok tt, {| kv := f (kv w); now := now w; random := random w;
                     randomCalls := randomCalls w; trace := trace w |}).

(** Time passing between two requests. *)
Definition later (seconds : Z) (w : World) : World :=
  {| kv := kv w; now := now w + seconds; random := random w;
     randomCalls := randomCalls w; trace := trace w |}.

(** [kv.put(key, value, { expirationTtl })]. *)
Definition kv_put (key value : string) (expirationTtl : Z) : M unit :=
  emit (KvPut key value expirationTtl);;
  fun w => set_kv (insert key (value, now w + expirationTtl)%Z) w.

(** What [kv.get] would return, without the read being recorded. *)
Definition kv_peek (key : string) (w : World) : option string :=
  match kv w !! key with
  | Some (value, expires) => if (now w <? expires)%Z then Some value else None
  | None => None
  end.

(** [kv.get(key)]: null when the key is absent or has expired. *)
Definition kv_get (key : string) : M (option string) :=
  emit (KvGet key);;
  fun w => (Ok (kv_peek key w), w).

(** [kv.delete(key)]. *)
Definition kv_delete (key : string) : M unit :=
  emit (KvDelete key);;
  set_kv (delete key).

(** [crypto.randomUUID()]. *)
Definition randomUUID : M string :=
  fun w => (Ok (uuidFormat (uuidBytes (random w (randomCalls w)))),
            {| kv := kv w; now := now w; random := random w;
               randomCalls := S (randomCalls w); trace := trace w |}).

(* --------------------------------------------------------------------- *)
(** *** CSRF token and OAuth state (KV-based) *)
(* --------------------------------------------------------------------- *)

Definition generateCSRFProtection : M (string * string) :=
  let* token := randomUUID in
  let setCookie :=
    "__Host-csrf=" ++ token ++ "; HttpOnly; Secure; SameSite=Strict; Path=/" in
  ret (token, setCookie).

Definition createOAuthState (oauthReqInfo : Json) (ttl : Z) : M string :=
  let* stateToken := randomUUID in
  kv_put ("oauth_state:" ++ stateToken) (JSON_stringify oauthReqInfo) ttl;;
  ret stateToken.

Definition bindStateToSession (stateToken : string) : string :=
  let hash := sha256 stateToken in
  "__Host-session=" ++ hash ++ "; HttpOnly; Secure; SameSite=Lax; Path=/; Max-Age=600".

Definition clearCookie : string :=
  "__Host-session=; HttpOnly; Secure; SameSite=Lax; Path=/; Max-Age=0".

(** A string read with a truthiness test: null and empty are both falsy. *)
Definition truthy_string (o : option string) : option string :=
  match o with
  | Some s => if Js.falsy s then None else Some s
  | None => None
  end.

Definition validateOAuthState (request : Request) : M (Json * string) :=
  match truthy_string (searchParams_get "state" (searchParams (url request))) with
  | None => throw (OAuthError 400 "Missing state parameter")
  | Some stateToken =>
      (* Verify session binding *)
      let cookies := request_cookies request in
      match truthy_cookie cookies "__Host-session" with
      | None => throw (OAuthError 400 "Missing session cookie")
      | Some sessionHash =>
          let expectedHash := sha256 stateToken in
          if negb (String.eqb sessionHash expectedHash)
          then throw (OAuthError 403 "Session binding mismatch")
          else
            (* Retrieve and delete state from KV *)
            let* stored := kv_get ("oauth_state:" ++ stateToken) in
            match truthy_string stored with
            | None => throw (OAuthError 400 "Invalid or expired state")
            | Some stored =>
                kv_delete ("oauth_state:" ++ stateToken);;
                let* oauthReqInfo := lift (orRaise SyntaxError (JSON_parse stored)) in
                ret (oauthReqInfo, clearCookie)
            end
      end
  end.

(* --------------------------------------------------------------------- *)
(** *** Responses *)
(* --------------------------------------------------------------------- *)

(** The holes of the HTML template of [renderApprovalDialog]; the fixed
    markup around them is not spelled out. *)
Record ApprovalDialog : Type := {
  dialog_logo : option string;  (* [src] of the logo, when there is one *)
  dialog_name : string;
  dialog_description : string;
  dialog_client : string;
  dialog_csrf_token : string;   (* hidden field [csrf_token] *)
  dialog_state : string         (* hidden field [state] *)
}.

Inductive Body : Type :=
  | NoBody
  | Text (s : string)
  | Html (page : ApprovalDialog).

(** A response: its status, the headers the handler gave it (names in
    lower case, as [Headers] keeps them) and its body. *)
Record Response : Type := {
  status : Z;
  headers : list (string * string);
  content : Body
}.

(** [c.text(message, status)] and [new Response(message, { status })]. *)
Definition text_response (message : string) (status : Z) : Response :=
  {| status := status; headers := []; content := Text message |}.

(** [OAuthError.toResponse()]. *)
Definition toResponse (statusCode : Z) (message : string) : Response :=
  text_response message statusCode.

(** [response.headers.getSetCookie()]. *)
Definition getSetCookie (r : Response) : list string :=
  map snd (List.filter (fun h => String.eqb (fst h) "set-cookie") (headers r)).

(** [response.headers.get("Location")]. *)
Definition location (r : Response) : option string :=
  snd <$> find (fun h => String.eqb (fst h) "location") (headers r).

(** [obj[key] = value] on an object used as a map. *)
Fixpoint assign (key value : string) (obj : list (string * string))
    : list (string * string) :=
  match obj with
  | [] => [(key, value)]
  | (k, v) :: rest =>
      if String.eqb k key then (k, value) :: rest else (k, v) :: assign key value rest
  end.

(** The entries a [Headers] object yields when iterated, given what was
    appended to it: values of one name are joined by [", "], except those
    of [set-cookie] where the platform keeps them apart. *)
Fixpoint Headers_entries (appended : list (string * string)) (acc : list (string * string))
    : list (string * string) :=
  match appended with
  | [] => acc
  | (name, value) :: rest =>
      let acc' :=
        if String.eqb name "set-cookie" && headers_getsetcookie
        then (acc ++ [(name, value)])%list
        else match find (fun h => String.eqb (fst h) name) acc with
             | Some (_, old) => assign name (old ++ ", " ++ value) acc
             | None => (acc ++ [(name, value)])%list
             end in
      Headers_entries rest acc'
  end.

(** [Object.fromEntries(entries)]: a later entry of a key replaces the value. *)
Definition Object_fromEntries (entries : list (string * string)) : list (string * string) :=
  fold_left (fun obj e => assign (fst e) (snd e) obj) entries [].

Definition sanitizeText (text : string) : string :=
  Js.replaceAll "'" "&#x27;"
    (Js.replaceAll "034" "&quot;"
       (Js.replaceAll ">" "&gt;"
          (Js.replaceAll "<" "&lt;"
             (Js.replaceAll "&" "&amp;" text)))).

Definition sanitizeUrl (u : string) : string :=
  match URL_parse u with
  | Some (protocol, href) =>
      if String.eqb protocol "https:" || String.eqb protocol "http:" then href else ""
  | None => ""
  end.

Record ServerInfo : Type := {
  server_name : string;
  server_description : string;
  server_logo : option string
}.

(** [a || b] on optional strings. *)
Definition or_else (a : option string) (b : string) : string :=
  match truthy_string a with
  | Some s => s
  | None => b
  end.

Definition renderApprovalDialog (client : option ClientInfo) (csrfToken : string)
    (server : ServerInfo) (setCookie : string) (oauthReqInfo : Json) : Result Response :=
  let clientName :=
    or_else (client ≫= clientName) (or_else (client ≫= clientId) "Unknown Client") in
  let? encodedState :=
    orRaise InvalidCharacterError (btoa (JSON_stringify (JObj [("oauthReqInfo", oauthReqInfo)]))) in
  let html :=
    {| dialog_logo := sanitizeUrl <$> truthy_string (server_logo server);
       dialog_name := sanitizeText (server_name server);
       dialog_description := sanitizeText (server_description server);
       dialog_client := sanitizeText clientName;
       dialog_csrf_token := csrfToken;
       dialog_state := encodedState |} in
  Ok {| status := 200;
        headers := [("content-type", "text/html; charset=utf-8"); ("set-cookie", setCookie)];
        content := Html html |}.

(* --------------------------------------------------------------------- *)
(** *** LINE Login and Supabase ([utils.ts], [supabase-client.ts]) *)
(* --------------------------------------------------------------------- *)

(** [url.href] after the five [searchParams.set] calls. *)
Definition getLineAuthorizeUrl (channelId redirectUri state : string) : string :=
  "https://access.line.me/oauth2/v2.1/authorize"
  ++ "?response_type=code"
  ++ "&client_id=" ++ formUrlEncode channelId
  ++ "&redirect_uri=" ++ formUrlEncode redirectUri
  ++ "&state=" ++ formUrlEncode state
  ++ "&scope=" ++ formUrlEncode "profile openid".

Context (env : Env).

Definition fetchLineToken (code channelId channelSecret redirectUri : string)
    : M (string + Response) :=
  let form := [("grant_type", "authorization_code"); ("code", code);
               ("redirect_uri", redirectUri); ("client_id", channelId);
               ("client_secret", channelSecret)] in
  emit (LineToken form);;
  let* resp := lift (line_token env form) in
  if negb (reply_ok resp) then
    ret (inr (text_response "Failed to exchange LINE authorization code" 500))
  else
    let* access_token := lift (reply_json resp) in
    match truthy_string access_token with
    | None => ret (inr (text_response "Missing access token from LINE" 500))
    | Some token => ret (inl token)
    end.

Definition fetchLineProfile (accessToken : string) : M (option LineProfileBody) :=
  emit (LineProfile accessToken);;
  let* resp := lift (line_profile env accessToken) in
  if negb (reply_ok resp) then ret None
  else let* profile := lift (reply_json resp) in ret (Some profile).

(** [lineUserId.slice(0, 6)] takes six code units; LINE user ids are ASCII,
    where these are six bytes. *)
Definition signInWithLineId (supabaseUrl supabaseAnonKey lineUserId passwordPrefix : string)
    : M (option string) :=
  let email := lineUserId ++ "@line.com" in
  let password := passwordPrefix ++ Js.slice_to 6 lineUserId in
  emit (SupabaseSignIn email password);;
  let* result := lift (signInWithPassword env supabaseUrl supabaseAnonKey email password) in
  match result with
  | SignInError _ => ret None
  | SignInData user_id => ret (Some user_id)
  end.

(* --------------------------------------------------------------------- *)
(** *** The LINE handler: [GET /authorize], [POST /authorize], [GET /callback] *)
(* --------------------------------------------------------------------- *)

(** A value read with a truthiness test. *)
Definition truthy_value (v : option Json) : option Json :=
  if truthy v then v else None.

(** [new URL("/callback", request.url)], forced to https unless the host is
    local.  Setting the protocol drops a port that is the new scheme's
    default. *)
Definition getCallbackUrl (request : Request) : string :=
  let u := url request in
  let local := String.eqb (hostname u) "localhost" || String.eqb (hostname u) "127.0.0.1" in
  let protocol' := if local then protocol u else "https:" in
  let port' := if local then port u
               else if String.eqb (port u) "443" then "" else port u in
  protocol' ++ "//" ++ hostname u
  ++ (if Js.falsy port' then "" else ":" ++ port') ++ "/callback".

Definition redirectToLine (request : Request) (stateToken channelId : string)
    (headers : list (string * string)) : Response :=
  {| status := 302;
     headers := assign "location"
                  (getLineAuthorizeUrl channelId (getCallbackUrl request) stateToken)
                  headers;
     content := NoBody |}.

Definition get_authorize (request : Request) : M Response :=
  let* oauthReqInfo := lift (parseAuthRequest env request) in
  let* clientId := lift (get oauthReqInfo "clientId") in
  match truthy_value clientId with
  | None => ret (text_response "Invalid request" 400)
  | Some clientId =>
      (* If client is already approved, skip dialog and go straight to LINE *)
      let* approved := lift (isClientApproved request clientId (COOKIE_ENCRYPTION_KEY env)) in
      if approved then
        let* stateToken := createOAuthState oauthReqInfo 600 in
        let sessionBindingCookie := bindStateToSession stateToken in
        ret (redirectToLine request stateToken (LINE_CHANNEL_ID env)
               [("set-cookie", sessionBindingCookie)])
      else
        (* Show approval dialog *)
        let* csrf := generateCSRFProtection in
        let* client := lift (lookupClient env clientId) in
        lift (renderApprovalDialog client (fst csrf)
                {| server_name := "My MCP Server";
                   server_description := "Your service description here";
                   server_logo := None |}
                (snd csrf) oauthReqInfo)
  end.

Definition post_authorize (request : Request) : M Response :=
  try_catch
    (let* formData := lift (orRaise TypeError (body request)) in
     lift (validateCSRFToken formData request);;
     match formData_get "state" formData with
     | Some (FormString encodedState) =>
         if Js.falsy encodedState then ret (text_response "Missing state in form data" 400)
         else
           match atob encodedState ≫= JSON_parse with
           | None => ret (text_response "Invalid state data" 400)
           | Some state =>
               let* oauthReqInfo := lift (get state "oauthReqInfo") in
               match truthy_value oauthReqInfo with
               | None => ret (text_response "Invalid request" 400)
               | Some oauthReqInfo =>
                   let* clientId := lift (get oauthReqInfo "clientId") in
                   match truthy_value clientId with
                   | None => ret (text_response "Invalid request" 400)
                   | Some clientId =>
                       let* approvedClientCookie :=
                         lift (addApprovedClient request clientId (COOKIE_ENCRYPTION_KEY env)) in
                       let* stateToken := createOAuthState oauthReqInfo 600 in
                       let sessionBindingCookie := bindStateToSession stateToken in
                       let headers :=
                         Headers_entries [("set-cookie", approvedClientCookie);
                                          ("set-cookie", sessionBindingCookie)] [] in
                       ret (redirectToLine request stateToken (LINE_CHANNEL_ID env)
                              (Object_fromEntries headers))
                   end
               end
           end
     | _ => ret (text_response "Missing state in form data" 400)
     end)
    (fun error =>
       match error with
       | OAuthError statusCode message => ret (toResponse statusCode message)
       | Raised e => ret (text_response ("Internal server error: " ++ error_message e) 500)
       end).

Definition callback (request : Request) : M Response :=
  (* 1. Validate OAuth state *)
  let* validated :=
    try_catch
      (let* result := validateOAuthState request in ret (inl result))
      (fun error =>
         match error with
         | OAuthError statusCode message => ret (inr (toResponse statusCode message))
         | Raised _ => ret (inr (text_response "Internal server error" 500))
         end) in
  match validated with
  | inr response => ret response
  | inl (oauthReqInfo, clearSessionCookie) =>
      let* clientId := lift (get oauthReqInfo "clientId") in
      if negb (truthy clientId) then ret (text_response "Invalid OAuth request data" 400)
      else
        (* 2. Exchange LINE authorization code for access token *)
        match truthy_string (searchParams_get "code" (searchParams (url request))) with
        | None => ret (text_response "Missing authorization code" 400)
        | Some code =>
            let* exchanged :=
              fetchLineToken code (LINE_CHANNEL_ID env) (LINE_CHANNEL_SECRET env)
                (getCallbackUrl request) in
            match exchanged with
            | inr errResponse => ret errResponse
            | inl lineAccessToken =>
                (* 3. Fetch LINE user profile *)
                let* profile := fetchLineProfile lineAccessToken in
                match profile with
                | None => ret (text_response "Failed to fetch LINE profile" 500)
                | Some profile =>
                    (* 4. Sign in to Supabase using LINE user ID *)
                    let* supabaseResult :=
                      signInWithLineId (SUPABASE_URL env) (SUPABASE_ANON_KEY env)
                        (profile_userId profile) (COMMON_PASSWORD_PREFIX env) in
                    match supabaseResult with
                    | None =>
                        ret (text_response
                               "Account not found. Please register via the app first." 403)
                    | Some supabaseUserId =>
                        (* 5. Issue MCP token with user context in props *)
                        let* scope := lift (get oauthReqInfo "scope") in
                        let options :=
                          {| auth_request := oauthReqInfo;
                             userId := profile_userId profile;
                             label := profile_displayName profile;
                             scope := scope;
                             props := {| lineUserId := profile_userId profile;
                                         supabaseUserId := supabaseUserId;
                                         displayName := profile_displayName profile |} |} in
                        emit (CompleteAuthorization options);;
                        let* redirectTo := lift (completeAuthorization env options) in
                        let headers := [("location", redirectTo)] in
                        let headers :=
                          if Js.falsy clearSessionCookie then headers
                          else assign "set-cookie" clearSessionCookie headers in
                        ret {| status := 302; headers := headers; content := NoBody |}
                    end
                end
            end
        end
  end.

End Broker.

Notation "'let*' x := m 'in' k" := (bind m (fun x => k))
  (at level 10, x name, m at level 100, k at level 200).
Notation "m ;; k" := (bind m (fun _ => k))
  (at level 100, k at level 200, right associativity).


(* ===================================================================== *)
(** ** A reference platform, to run the model on concrete requests *)
(* ===================================================================== *)

Module Reference.

Local Open Scope N_scope.

(** *** SHA-256 (FIPS 180-4) on 32-bit words held in [N] *)

Definition word (x : N) : N := N.land x 4294967295.
Definition plus (x y : N) : N := word (x + y).
Definition rotr (n x : N) : N := N.lor (N.shiftr x n) (word (N.shiftl x (32 - n))).

Definition choose (x y z : N) : N :=
  N.lxor (N.land x y) (N.land (N.lxor x 4294967295) z).
Definition majority (x y z : N) : N :=
  N.lxor (N.lxor (N.land x y) (N.land x z)) (N.land y z).
Definition bigSigma0 (x : N) : N := N.lxor (N.lxor (rotr 2 x) (rotr 13 x)) (rotr 22 x).
Definition bigSigma1 (x : N) : N := N.lxor (N.lxor (rotr 6 x) (rotr 11 x)) (rotr 25 x).
Definition smallSigma0 (x : N) : N := N.lxor (N.lxor (rotr 7 x) (rotr 18 x)) (N.shiftr x 3).
Definition smallSigma1 (x : N) : N := N.lxor (N.lxor (rotr 17 x) (rotr 19 x)) (N.shiftr x 10).

(** The first sixty-four primes. *)
Definition isPrime (n : N) : bool :=
  (2 <=? n) && forallb (fun d => negb (n mod d =? 0)) (map N.of_nat (seq 2 (N.to_nat n - 2))).
Definition primes : list N :=
  Eval vm_compute in List.filter isPrime (map N.of_nat (seq 0 312)).

(** Integer cube root, one bit at a time. *)
Definition cubeRoot (n : N) : N :=
  fold_left (fun r i => let c := r + N.shiftl 1 i in if c * c * c <=? n then c else r)
    (map N.of_nat (rev (seq 0 40))) 0.

(** The round constants: the first 32 bits of the fractional parts of
    the cube roots of the primes; the initial hash value likewise from the
    square roots of the first eight. *)
Definition roundConstants : list N :=
  Eval vm_compute in map (fun p => word (cubeRoot (N.shiftl p 96))) primes.
Definition initialHash : list N :=
  Eval vm_compute in map (fun p => word (N.sqrt (N.shiftl p 64))) (firstn 8 primes).

Definition bigEndian (bytes : list N) : N :=
  fold_left (fun acc b => acc * 256 + b) bytes 0.

Definition toBigEndian (width : nat) (x : N) : list N :=
  map (fun i => N.land (N.shiftr x (8 * N.of_nat i)) 255) (rev (seq 0 width)).

(** Padding: the bit 1, zeros up to 56 modulo 64, the length in bits. *)
Definition pad (message : list N) : list N :=
  let len := N.of_nat (length message) in
  let zeros := N.to_nat ((64 + 55 - len mod 64) mod 64) in
  (message ++ [128] ++ repeat 0 zeros ++ toBigEndian 8 (8 * len))%list.

Fixpoint chunks (fuel size : nat) (l : list N) : list (list N) :=
  match fuel, l with
  | O, _ | _, [] => []
  | S fuel', _ => firstn size l :: chunks fuel' size (skipn size l)
  end.

Definition schedule (block : list N) : list N :=
  fold_left
    (fun w t =>
       let at_ k := nth (t - k) w 0 in
       (w ++ [plus (plus (smallSigma1 (at_ 2%nat)) (at_ 7%nat))
                   (plus (smallSigma0 (at_ 15%nat)) (at_ 16%nat))])%list)
    (seq 16 48) (map bigEndian (chunks 16 4 block)).

Definition State : Type := N * N * N * N * N * N * N * N.

Definition round (s : State) (kw : N * N) : State :=
  let '(a, b, c, d, e, f, g, h) := s in
  let t1 := plus (plus (plus h (bigSigma1 e)) (plus (choose e f g) (fst kw))) (snd kw) in
  let t2 := plus (bigSigma0 a) (majority a b c) in
  (plus t1 t2, a, b, c, plus d t1, e, f, g).

Definition compress (s : State) (block : list N) : State :=
  let '(a, b, c, d, e, f, g, h) := s in
  let '(a', b', c', d', e', f', g', h') :=
    fold_left round (combine roundConstants (schedule block)) s in
  (plus a a', plus b b', plus c c', plus d d', plus e e', plus f f', plus g g', plus h h').

Definition initialState : State :=
  let h i := nth i initialHash 0 in
  (h 0%nat, h 1%nat, h 2%nat, h 3%nat, h 4%nat, h 5%nat, h 6%nat, h 7%nat).

(** The digest: the eight words of the final state, big-endian. *)
Definition digestBytes (s : State) : list byte :=
let '(a, b, c, d, e, f, g, h) := s in
map byte_of_N
  (toBigEndian 4 a ++ toBigEndian 4 b ++ toBigEndian 4 c ++ toBigEndian 4 d
   ++ toBigEndian 4 e ++ toBigEndian 4 f ++ toBigEndian 4 g ++ toBigEndian 4 h)%list.

Definition digestBytes_length (s : State) : length (digestBytes s) = 32%nat :=
let '(a, b, c, d, e, f, g, h) as t := s return length (digestBytes t) = 32%nat in eq_refl.

Definition sha256_bytes (message : list N) : list byte :=
let padded := pad message in
digestBytes (fold_left compress (chunks (length padded) 64 padded) initialState).

(** [new TextEncoder().encode(s)]. *)
Definition encode (s : string) : list N := map N_of_ascii (Js.chars s).

Definition digest (data : string) : list byte := sha256_bytes (encode data).

(** *** HMAC-SHA-256 (RFC 2104) *)

Definition hmac (key data : string) : list byte :=
  let k := encode key in
  let k := if (64 <? length k)%nat then map Byte.to_N (sha256_bytes k) else k in
  let k := (k ++ repeat 0 (64 - length k))%list in
  let inner := sha256_bytes (map (N.lxor 54) k ++ encode data)%list in
  sha256_bytes (map (N.lxor 92) k ++ map Byte.to_N inner)%list.

(** *** Base64: [btoa] and [atob] *)

(** The Latin-1 bytes of a string given in UTF-8; none when a character
    is above U+00FF, where [btoa] throws. *)
Fixpoint latin1 (s : list N) : option (list N) :=
  match s with
  | [] => Some []
  | b :: r =>
      if b <? 128 then cons b <$> latin1 r
      else match r with
           | c :: r2 =>
               if (b =? 194) || (b =? 195)
               then cons (c + 64 * (b - 194)) <$> latin1 r2
               else None
           | [] => None
           end
  end.

Definition utf8 (latin : list N) : list N :=
  flat_map (fun b => if b <? 128 then [b] else [192 + b / 64; 128 + b mod 64]) latin.

Definition alphabet : list ascii :=
  Js.chars "ABCDEFGHIJKLMNOPQRSTUVWXYZabcdefghijklmnopqrstuvwxyz0123456789+/".

Definition sextet (n : N) : ascii := nth (N.to_nat n) alphabet "="%char.

Fixpoint sextetValue_from (a : ascii) (l : list ascii) (i : N) : option N :=
  match l with
  | [] => None
  | c :: r => if Ascii.eqb a c then Some i else sextetValue_from a r (i + 1)
  end.
Definition sextetValue (a : ascii) : option N := sextetValue_from a alphabet 0.

Fixpoint base64 (l : list N) : list ascii :=
  match l with
  | a :: b :: c :: r =>
      [sextet (a / 4); sextet (a mod 4 * 16 + b / 16);
       sextet (b mod 16 * 4 + c / 64); sextet (c mod 64)] ++ base64 r
  | [a; b] =>
      [sextet (a / 4); sextet (a mod 4 * 16 + b / 16); sextet (b mod 16 * 4); "="%char]
  | [a] => [sextet (a / 4); sextet (a mod 4 * 16); "="%char; "="%char]
  | [] => []
  end%list.

Fixpoint unbase64 (l : list N) : list N :=
  match l with
  | a :: b :: c :: d :: r =>
      [a * 4 + b / 16; b mod 16 * 16 + c / 4; c mod 4 * 64 + d] ++ unbase64 r
  | [a; b; c] => [a * 4 + b / 16; b mod 16 * 16 + c / 4]
  | [a; b] => [a * 4 + b / 16]
  | _ => []
  end%list.

Definition toBase64 (s : string) : option string :=
  (fun l => Js.str (base64 l)) <$> latin1 (encode s).

Definition asciiWhitespace (a : ascii) : bool :=
  let n := N_of_ascii a in (n =? 9) || (n =? 10) || (n =? 12) || (n =? 13) || (n =? 32).

(** Forgiving base64 decoding. *)
Definition fromBase64 (s : string) : option string :=
  let l := List.filter (fun a => negb (asciiWhitespace a)) (Js.chars s) in
  let l :=
    if (length l mod 4 =? 0)%nat then
      match rev l with
      | "="%char :: "="%char :: r => rev r
      | "="%char :: r => rev r
      | _ => l
      end
    else l in
  if (length l mod 4 =? 1)%nat then None
  else
    (fun values => Js.str (map ascii_of_N (utf8 (unbase64 values))))
      <$> mapM sextetValue l.

(** *** JSON with integer numbers *)

Definition quote : ascii := "034"%char.
Definition backslash : ascii := "092"%char.

Definition escapeChar (a : ascii) : list ascii :=
  let n := N_of_ascii a in
  if Ascii.eqb a quote then [backslash; quote]
  else if Ascii.eqb a backslash then [backslash; backslash]
  else if n =? 8 then [backslash; "b"%char]
  else if n =? 9 then [backslash; "t"%char]
  else if n =? 10 then [backslash; "n"%char]
  else if n =? 12 then [backslash; "f"%char]
  else if n =? 13 then [backslash; "r"%char]
  else if n <? 32
       then [backslash; "u"%char; "0"%char; "0"%char; hexDigit (n / 16); hexDigit (n mod 16)]
  else [a].

Definition quoted (s : string) : string :=
  Js.str ([quote] ++ flat_map escapeChar (Js.chars s) ++ [quote])%list.

Definition decimal (z : Z) : string := NilZero.string_of_int (Z.to_int z).

Fixpoint stringify (v : json Z) : string :=
  match v with
  | JNull => "null"
  | JBool b => if b then "true" else "false"
  | JNum z => decimal z
  | JStr s => quoted s
  | JArr items => "[" ++ Js.join "," (map stringify items) ++ "]"
  | JObj fields =>
      "{" ++ Js.join "," (map (fun kv => quoted (fst kv) ++ ":" ++ stringify (snd kv)) fields)
      ++ "}"
  end%string.

Definition jsonWhitespace (a : ascii) : bool :=
  let n := N_of_ascii a in (n =? 9) || (n =? 10) || (n =? 13) || (n =? 32).

Fixpoint skip (s : list ascii) : list ascii :=
  match s with
  | a :: r => if jsonWhitespace a then skip r else s
  | [] => []
  end.

Fixpoint expect (word rest : list ascii) : option (list ascii) :=
  match word, rest with
  | [], _ => Some rest
  | w :: word', a :: rest' => if Ascii.eqb w a then expect word' rest' else None
  | _ :: _, [] => None
  end.

(** The UTF-8 bytes of a code point that is no surrogate. *)
Definition utf8CodePoint (c : N) : option (list ascii) :=
  if c <? 128 then Some [ascii_of_N c]
  else if c <? 2048 then Some [ascii_of_N (192 + c / 64); ascii_of_N (128 + c mod 64)]
  else if (55296 <=? c) && (c <=? 57343) then None
  else Some [ascii_of_N (224 + c / 4096); ascii_of_N (128 + c / 64 mod 64);
             ascii_of_N (128 + c mod 64)].

Definition hex4 (a b c d : ascii) : option N :=
  match hexVal a, hexVal b, hexVal c, hexVal d with
  | Some w, Some x, Some y, Some z => Some (((w * 16 + x) * 16 + y) * 16 + z)
  | _, _, _, _ => None
  end.

(** The characters of a string literal after its opening quote. *)
Fixpoint stringBody (s : list ascii) : option (list ascii * list ascii) :=
  match s with
  | [] => None
  | a :: r =>
      if Ascii.eqb a quote then Some ([], r)
      else if Ascii.eqb a backslash then
        match r with
        | e :: r2 =>
            let plain (c : ascii) :=
              match stringBody r2 with
              | Some (body, rest) => Some (c :: body, rest)
              | None => None
              end in
            if Ascii.eqb e "u" then
              match r2 with
              | h1 :: h2 :: h3 :: h4 :: r6 =>
                  match hex4 h1 h2 h3 h4 ≫= utf8CodePoint, stringBody r6 with
                  | Some bytes, Some (body, rest) => Some ((bytes ++ body)%list, rest)
                  | _, _ => None
                  end
              | _ => None
              end
            else if Ascii.eqb e quote then plain quote
            else if Ascii.eqb e backslash then plain backslash
            else if Ascii.eqb e "/" then plain "/"%char
            else if Ascii.eqb e "b" then plain (ascii_of_N 8)
            else if Ascii.eqb e "f" then plain (ascii_of_N 12)
            else if Ascii.eqb e "n" then plain (ascii_of_N 10)
            else if Ascii.eqb e "r" then plain (ascii_of_N 13)
            else if Ascii.eqb e "t" then plain (ascii_of_N 9)
            else None
        | [] => None
        end
      else if N_of_ascii a <? 32 then None
      else match stringBody r with
           | Some (body, rest) => Some (a :: body, rest)
           | None => None
           end
  end.

Definition isDigit (a : ascii) : bool :=
  let n := N_of_ascii a in (48 <=? n) && (n <=? 57).

Fixpoint digits (acc : N) (s : list ascii) : N * list ascii :=
  match s with
  | a :: r => if isDigit a then digits (acc * 10 + (N_of_ascii a - 48)) r else (acc, s)
  | [] => (acc, [])
  end.

(** An integer literal: no leading zero, no fraction, no exponent. *)
Definition integer (s : list ascii) : option (N * list ascii) :=
  match s with
  | a :: r =>
      if Ascii.eqb a "0" then Some (0, r)
      else if isDigit a then Some (digits 0 s)
      else None
  | [] => None
  end.

Fixpoint value (fuel : nat) (s : list ascii) : option (json Z * list ascii) :=
  match fuel with
  | O => None
  | S fuel =>
      match skip s with
      | [] => None
      | a :: r =>
          if Ascii.eqb a "n" then pair JNull <$> expect (Js.chars "ull") r
          else if Ascii.eqb a "t" then pair (JBool true) <$> expect (Js.chars "rue") r
          else if Ascii.eqb a "f" then pair (JBool false) <$> expect (Js.chars "alse") r
          else if Ascii.eqb a quote then
            match stringBody r with
            | Some (body, rest) => Some (JStr (Js.str body), rest)
            | None => None
            end
          else if Ascii.eqb a "[" then
            match skip r with
            | c :: r2 =>
                if Ascii.eqb c "]" then Some (JArr [], r2)
                else match elements fuel r with
                     | Some (items, rest) => Some (JArr items, rest)
                     | None => None
                     end
            | [] => None
            end
          else if Ascii.eqb a "{" then
            match skip r with
            | c :: r2 =>
                if Ascii.eqb c "}" then Some (JObj [], r2)
                else match members fuel r with
                     | Some (fields, rest) => Some (JObj fields, rest)
                     | None => None
                     end
            | [] => None
            end
          else if Ascii.eqb a "-" then
            match integer r with
            | Some (n, rest) => Some (JNum (- Z.of_N n)%Z, rest)
            | None => None
            end
          else match integer (a :: r) with
               | Some (n, rest) => Some (JNum (Z.of_N n), rest)
               | None => None
               end
      end
  end
with elements (fuel : nat) (s : list ascii) : option (list (json Z) * list ascii) :=
  match fuel with
  | O => None
  | S fuel =>
      match value fuel s with
      | Some (v, rest) =>
          match skip rest with
          | c :: r =>
              if Ascii.eqb c "]" then Some ([v], r)
              else if Ascii.eqb c "," then
                match elements fuel r with
                | Some (vs, rest') => Some (v :: vs, rest')
                | None => None
                end
              else None
          | [] => None
          end
      | None => None
      end
  end
with members (fuel : nat) (s : list ascii)
    : option (list (string * json Z) * list ascii) :=
  match fuel with
  | O => None
  | S fuel =>
      match skip s with
      | q :: r =>
          if Ascii.eqb q quote then
            match stringBody r with
            | Some (key, rest) =>
                match skip rest with
                | colon :: r2 =>
                    if Ascii.eqb colon ":" then
                      match value fuel r2 with
                      | Some (v, rest2) =>
                          match skip rest2 with
                          | c :: r3 =>
                              if Ascii.eqb c "}" then Some ([(Js.str key, v)], r3)
                              else if Ascii.eqb c "," then
                                match members fuel r3 with
                                | Some (fs, rest3) => Some ((Js.str key, v) :: fs, rest3)
                                | None => None
                                end
                              else None
                          | [] => None
                          end
                      | None => None
                      end
                    else None
                | [] => None
                end
            | None => None
            end
          else None
      | [] => None
      end
  end.

Definition parse (text : string) : option (json Z) :=
  let s := Js.chars text in
  match value (S (length s)) s with
  | Some (v, rest) => match skip rest with [] => Some v | _ :: _ => None end
  | None => None
  end.

(** *** The platform *)

(** [new URL(s)] reduced to the scheme test: text before the first colon
    that starts with a letter. *)
Definition parseURL (s : string) : option (string * string) :=
  match Js.split ":" s with
  | scheme :: _ :: _ =>
      match Js.chars scheme with
      | a :: _ =>
          let n := N_of_ascii a in
          if (65 <=? n) && (n <=? 90) || (97 <=? n) && (n <=? 122)
          then Some (scheme ++ ":", s)%string else None
      | [] => None
      end
  | _ => None
  end.

Definition platform : Platform := {|
  number := Z;
  number_truthy := fun z => negb (z =? 0)%Z;
  number_sameValueZero := Z.eqb;
  number_toString := decimal;
  JSON_parse := parse;
  JSON_stringify := stringify;
  JSON_parse_empty := eq_refl;
  digest_SHA256 := digest;
  digest_SHA256_length := fun data => digestBytes_length _;
  sign_HMAC_SHA256 := hmac;
  btoa := toBase64;
  atob := fromBase64;
  URL_parse := parseURL;
  headers_getsetcookie := true;
  error_message := fun e =>
    match e with
    | URIError => "URI malformed"
    | SyntaxError => "Unexpected token in JSON"
    | TypeError => "Cannot read properties of null"
    | InvalidCharacterError => "Invalid character"
    | DataError => "Zero-length key is not supported"
    end%string
|}.

End Reference.

(* ===================================================================== *)
(** ** The MCP agent and its tools
       ([supabase-client.ts], [tools/hello.ts], [index.ts], [index.dev.ts]) *)
(* ===================================================================== *)

(** The client [createClient(url, key)] returns, once [signInWithPassword]
    has given it a session: where it points and whose session it holds. *)
Record SupabaseClient : Type := {
  client_url : string;
  client_key : string;
  session_user : string
}.

(** One item of a tool result: [{ type, text }]. *)
Record ToolContent : Type := {
  content_type : string;
  content_text : string
}.

(** The line feed [JSON.stringify] breaks lines with. *)
Definition lineFeed : string := String (ascii_of_N 10) EmptyString.

(** [JSON.stringify(object, null, 2)] for an object whose properties are
    all strings: one property per line, indented by two spaces, a space
    after the colon.  Strings are quoted as by [JSON.stringify(s)]. *)
Definition stringifyIndented (fields : list (string * string)) : string :=
  match fields with
  | [] => "{}"
  | _ :: _ =>
      "{" ++ lineFeed
      ++ Js.join ("," ++ lineFeed)
           (map (fun kv => "  " ++ Reference.quoted (fst kv) ++ ": "
                           ++ Reference.quoted (snd kv)) fields)
      ++ lineFeed ++ "}"
  end.

Section Tools.

Context {P : Platform} (env : Env).

(** [result?.client ?? null] of [signInWithLineId]. *)
Definition createAuthenticatedClient
    (supabaseUrl supabaseAnonKey lineUserId passwordPrefix : string)
    : M (option SupabaseClient) :=
  let* result := signInWithLineId env supabaseUrl supabaseAnonKey lineUserId passwordPrefix in
  ret (match result with
       | Some supabaseUserId =>
           Some {| client_url := supabaseUrl; client_key := supabaseAnonKey;
                   session_user := supabaseUserId |}
       | None => None
       end).

(** What [server.tool(name, description, {}, handler)] registers. *)
Record Tool : Type := {
  tool_name : string;
  tool_description : string;
  tool_handler : M (list ToolContent)
}.

(** The handler of the [hello] tool. *)
Definition hello (getClient : M (option SupabaseClient)) (getUserId : unit -> string)
    : M (list ToolContent) :=
  let* client := getClient in
  match client with
  | None =>
      ret [{| content_type := "text";
              content_text := "Auth error: Failed to sign in to Supabase" |}]
  | Some _ =>
      let userId := getUserId tt in
      ret [{| content_type := "text";
              content_text :=
                stringifyIndented
                  [("message", "Hello from your MCP server!");
                   ("supabase_user_id", userId);
                   ("hint", "Replace this tool with your own in src/tools/")] |}]
  end.

Definition registerHello (getClient : M (option SupabaseClient)) (getUserId : unit -> string)
    : Tool :=
  {| tool_name := "hello";
     tool_description :=
       "Returns a greeting with the authenticated user's info. Replace this with your own tools.";
     tool_handler := hello getClient getUserId |}.

(** [MyMCP.init()]: the tools of the agent, for the [props] of the token. *)
Definition MyMCP_init (props : Props) : list Tool :=
  let getClient :=
    createAuthenticatedClient (SUPABASE_URL env) (SUPABASE_ANON_KEY env)
      (lineUserId props) (COMMON_PASSWORD_PREFIX env) in
  let getUserId := fun _ : unit => supabaseUserId props in
  [registerHello getClient getUserId].

(** [MyMCPDev.init()]: signs in as [DEV_LINE_USER_ID] and registers the
    same tools, or a lone [error] tool when the sign-in fails. *)
Definition MyMCPDev_init (DEV_LINE_USER_ID : string) : M (list Tool) :=
  let* result :=
    signInWithLineId env (SUPABASE_URL env) (SUPABASE_ANON_KEY env)
      DEV_LINE_USER_ID (COMMON_PASSWORD_PREFIX env) in
  match result with
  | None =>
      ret [{| tool_name := "error";
              tool_description := "Auth failed";
              tool_handler :=
                ret [{| content_type := "text";
                        content_text := "Auth failed: check DEV_LINE_USER_ID in .dev.vars" |}] |}]
  | Some supabaseUserId =>
      let lineUserId := DEV_LINE_USER_ID in
      let getClient :=
        createAuthenticatedClient (SUPABASE_URL env) (SUPABASE_ANON_KEY env)
          lineUserId (COMMON_PASSWORD_PREFIX env) in
      let getUserId := fun _ : unit => supabaseUserId in
      ret [registerHello getClient getUserId]
  end.

End Tools.

(* ===================================================================== *)
(** ** Sample requests on the reference platform *)
(* ===================================================================== *)

Module Sample.

#[local] Existing Instance Reference.platform.

(** A deployment: the bindings, an OAuth provider that reads the client
    id off the query string, and services that answer as given. *)
Definition deployment (token : Result (HttpReply (option string)))
    (profile : Result (HttpReply LineProfileBody)) (signIn : Result SignInResult) : Env := {|
  SUPABASE_URL := "https://project.supabase.co";
  SUPABASE_ANON_KEY := "anon-key";
  LINE_CHANNEL_ID := "1650000000";
  LINE_CHANNEL_SECRET := "channel-secret";
  COMMON_PASSWORD_PREFIX := "prefix-";
  COOKIE_ENCRYPTION_KEY := "0123456789abcdef";
  parseAuthRequest := fun request =>
    Ok (JObj [("clientId",
               JStr (default "" (searchParams_get "client_id" (searchParams (url request)))));
              ("scope", JArr [JStr "profile"])]);
  lookupClient := fun _ => Ok (Some {| clientName := Some "Claude Desktop"; clientId := Some "abc" |});
  completeAuthorization := fun _ => Ok "https://client.example/cb?code=issued";
  line_token := fun _ => token;
  line_profile := fun _ => profile;
  signInWithPassword := fun _ _ _ _ => signIn
|}.

Definition tokenOk : Result (HttpReply (option string)) :=
  Ok {| reply_ok := true; reply_text := ""; reply_json := Ok (Some "line-access-token") |}.

Definition profileOk : Result (HttpReply LineProfileBody) :=
  Ok {| reply_ok := true; reply_text := "";
        reply_json := Ok {| profile_userId := "U4af4980629";
                            profile_displayName := "Yongtae";
                            pictureUrl := None |} |}.

(** Every service answers; the account is linked. *)
Definition env : Env := deployment tokenOk profileOk (Ok (SignInData "supabase-user-1")).

(** The same, but Supabase knows no such account. *)
Definition envNotLinked : Env :=
  deployment tokenOk profileOk (Ok (SignInError "Invalid login credentials")).

(** An empty store at time 1000 and a fixed random source. *)
Definition world : World := {|
  kv := ∅;
  now := 1000;
  random := fun call i => byte_of_N (N.of_nat (17 * i + call));
  randomCalls := 0;
  trace := []
|}.

(** The state token the first [randomUUID] of [world] yields. *)
Definition token : string := "00112233-4455-4677-8899-aabbccddeeff".

Definition at_ (path : string) (query : list (string * string)) : URL :=
  {| protocol := "https:"; hostname := "mcp.example.com"; port := "";
     pathname := path; searchParams := query |}.

Definition pending : Json := JObj [("clientId", JStr "abc"); ("scope", JArr [JStr "profile"])].

(** [world] after [createOAuthState pending 600]. *)
Definition worldPending : World := snd (createOAuthState pending 600 world).

(** The callback the identity provider redirects the same browser to. *)
Definition callbackRequest : Request := {|
  url := at_ "/callback" [("code", "line-code"); ("state", token)];
  cookieHeader := Some (cookiePair (bindStateToSession token));
  body := None
|}.

(** The same callback from a browser whose cookie was bound to another token. *)
Definition callbackOtherSession : Request := {|
  url := at_ "/callback" [("code", "line-code"); ("state", token)];
  cookieHeader := Some (cookiePair (bindStateToSession "11111111-2222-4333-8444-555555555555"));
  body := None
|}.

(** The consent form as the approval page posts it. *)
Definition consentPost : Request := {|
  url := at_ "/authorize" [];
  cookieHeader := Some "__Host-csrf=csrf-token-1";
  body := Some [("csrf_token", FormString "csrf-token-1");
                ("state", FormString "eyJvYXV0aFJlcUluZm8iOnsiY2xpZW50SWQiOiJhYmMifX0=")]
|}.

(** The same form from a browser that sends no cookie. *)
Definition consentPostNoCookie : Request := {|
  url := at_ "/authorize" [];
  cookieHeader := None;
  body := Some [("csrf_token", FormString "csrf-token-1");
                ("state", FormString "eyJvYXV0aFJlcUluZm8iOnsiY2xpZW50SWQiOiJhYmMifX0=")]
|}.

(** What the [state] field above decodes to. *)
Definition consentState : Json := JObj [("oauthReqInfo", JObj [("clientId", JStr "abc")])].

(** The approval cookie [addApprovedClient] signs for client [abc]. *)
Definition approvalCookie : string :=
  Eval vm_compute in
    match addApprovedClient consentPost (JStr "abc") "0123456789abcdef" with
    | Ok directive => directive
    | Throw _ => ""
    end.


Definition authorizeRequest (cookie : option string) : Request := {|
  url := at_ "/authorize" [("client_id", "abc")];
  cookieHeader := cookie;
  body := None
|}.

End Sample.

(* ===================================================================== *)
(** ** Vocabulary of the statements *)
(* ===================================================================== *)

(** Printable ASCII apart from the space, and the same apart from [;] and
    [=]: what a cookie name or value is made of when [parseCookies] reads
    it back unchanged. *)
Definition solidChar (a : ascii) : bool :=
  let n := N_of_ascii a in ((33 <=? n) && (n <=? 126))%N.

Definition plainChar (a : ascii) : bool :=
  solidChar a && negb (Ascii.eqb a ";") && negb (Ascii.eqb a "=").

Definition plain (s : string) : Prop := Forall (fun a => plainChar a = true) (Js.chars s).

(** The first and the last character of a string, when it has any, are solid. *)
Definition solidEnds (s : string) : Prop :=
  match Js.chars s with
  | [] => True
  | a :: _ => solidChar a = true
  end
  /\ match rev (Js.chars s) with
     | [] => True
     | a :: _ => solidChar a = true
     end.

(** Lower-case hexadecimal digits. *)
Definition lowerHex (a : ascii) : bool :=
  let n := N_of_ascii a in ((48 <=? n) && (n <=? 57) || (97 <=? n) && (n <=? 102))%N.

Definition hexText (s : string) : Prop := Forall (fun a => lowerHex a = true) (Js.chars s).

(** Lower-case hexadecimal digits and dashes. *)
Definition uuidChar (a : ascii) : bool := lowerHex a || Ascii.eqb a "-".

Definition uuidText (s : string) : Prop := Forall (fun a => uuidChar a = true) (Js.chars s).

(** Well-formed UTF-8, as [decodeURIComponent] demands of the escapes. *)
Fixpoint utf8Valid (s : list ascii) : bool :=
  match s with
  | [] => true
  | a :: r =>
      let b := N_of_ascii a in
      if (b <? 128)%N then utf8Valid r
      else if ((194 <=? b) && (b <=? 223))%N then
        match r with
        | c :: r2 => utf8Cont (N_of_ascii c) && utf8Valid r2
        | _ => false
        end
      else if ((224 <=? b) && (b <=? 239))%N then
        match r with
        | c :: d :: r3 =>
            utf8Second b (N_of_ascii c) && utf8Cont (N_of_ascii d) && utf8Valid r3
        | _ => false
        end
      else if ((240 <=? b) && (b <=? 244))%N then
        match r with
        | c :: d :: e :: r4 =>
            utf8Second b (N_of_ascii c) && utf8Cont (N_of_ascii d)
            && utf8Cont (N_of_ascii e) && utf8Valid r4
        | _ => false
        end
      else false
  end.

(** The token [encodeURIComponent] writes for one byte. *)
Definition uriTokenOf (a : ascii) : UriToken :=
  if uriUnreserved a then Lit a else Esc (N_of_ascii a).

(** The events that stand for a call of [completeAuthorization]. *)
Definition isIssuance {number : Type} (e : EventOf number) : bool :=
  match e with
  | CompleteAuthorization _ => true
  | _ => false
  end.

(** No token issuance among the events. *)
Definition noIssuance {number : Type} (events : list (EventOf number)) : bool :=
  forallb (fun e => negb (isIssuance e)) events.

(** The part of [validateOAuthState] that touches the store. *)
Definition consume {P : Platform} (stateToken : string) : M (Json * string) :=
  let* stored := kv_get ("oauth_state:" ++ stateToken) in
  match truthy_string stored with
  | None => throw (OAuthError 400 "Invalid or expired state")
  | Some stored =>
      kv_delete ("oauth_state:" ++ stateToken);;
      let* oauthReqInfo := lift (orRaise SyntaxError (JSON_parse stored)) in
      ret (oauthReqInfo, clearCookie)
  end.

(** Unfolds the monad and the awaited helpers of the handlers. *)
Ltac run :=
  unfold fetchLineToken, fetchLineProfile, signInWithLineId, createOAuthState,
    generateCSRFProtection, randomUUID, kv_put, kv_get, kv_delete, set_kv,
    try_catch, bind, emit, throw, lift, ret, orRaise in *;
  cbn in *.


(** *** Text *)

(** No character of [s] is [c]. *)
Definition without (c : ascii) (s : string) : Prop :=
  Forall (fun a => a <> c) (Js.chars s).

(** The characters that open or close a tag or an attribute value. *)
Definition markup (a : ascii) : bool :=
  Ascii.eqb a "<" || Ascii.eqb a ">" || Ascii.eqb a "034" || Ascii.eqb a "'".

(** Text that holds none of them. *)
Definition escaped (s : string) : Prop :=
  Forall (fun c => markup c = false) (Js.chars s).

(** What the five replacements of [sanitizeText] make of one character. *)
Definition htmlEscape (a : ascii) : string :=
  if Ascii.eqb a "&" then "&amp;"
  else if Ascii.eqb a "<" then "&lt;"
  else if Ascii.eqb a ">" then "&gt;"
  else if Ascii.eqb a "034" then "&quot;"
  else if Ascii.eqb a "'" then "&#x27;"
  else String a EmptyString.

(** [s] without its prefix [p], when it has that prefix. *)
Fixpoint dropPrefix (p s : string) : option string :=
  match p, s with
  | EmptyString, _ => Some s
  | String a p', String b s' => if Ascii.eqb a b then dropPrefix p' s' else None
  | String _ _, EmptyString => None
  end.

(** Reads one character or one of the five entities off the front. *)
Definition htmlUnescapeHead (s : string) : option (ascii * string) :=
  match s with
  | EmptyString => None
  | String a r =>
      if Ascii.eqb a "&" then
        match dropPrefix "amp;" r, dropPrefix "lt;" r, dropPrefix "gt;" r,
              dropPrefix "quot;" r, dropPrefix "#x27;" r with
        | Some t, _, _, _, _ => Some ("&"%char, t)
        | _, Some t, _, _, _ => Some ("<"%char, t)
        | _, _, Some t, _, _ => Some (">"%char, t)
        | _, _, _, Some t, _ => Some ("034"%char, t)
        | _, _, _, _, Some t => Some ("'"%char, t)
        | _, _, _, _, _ => None
        end
      else Some (a, r)
  end.

(** Reads back the byte that two hexadecimal digits stand for. *)
Definition unhexHead (s : string) : option (byte * string) :=
  match s with
  | String h (String l r) =>
      match hexVal h, hexVal l with
      | Some x, Some y => Some (byte_of_N (16 * x + y), r)
      | _, _ => None
      end
  | _ => None
  end.

(** The characters a form-encoded name or value is written with. *)
Definition formUrlChar (a : ascii) : bool :=
  formUrlSafe a || Ascii.eqb a "+" || Ascii.eqb a "%".

(** *** Results *)

(** The result is no [OAuthError]: a value or an exception of the platform. *)
Definition raised {A : Type} (r : Result A) : Prop :=
  match r with
  | Throw (OAuthError _ _) => False
  | _ => True
  end.

Section Vocabulary.

Context {P : Platform} (env : Env).

(** *** The calls of [GET /callback] *)

(** The form [fetchLineToken] posts for the code of a callback. *)
Definition tokenForm (request : Request) (code : string) : list (string * string) :=
  [("grant_type", "authorization_code"); ("code", code);
   ("redirect_uri", getCallbackUrl request);
   ("client_id", LINE_CHANNEL_ID env);
   ("client_secret", LINE_CHANNEL_SECRET env)].

(** The credentials [signInWithLineId] derives from a LINE user id. *)
Definition lineEmail (lineUserId : string) : string := lineUserId ++ "@line.com".

Definition linePassword (lineUserId : string) : string :=
  COMMON_PASSWORD_PREFIX env ++ Js.slice_to 6 lineUserId.

(** The argument [GET /callback] builds for [completeAuthorization]. *)
Definition issuance (oauthReqInfo : Json) (scope : option Json) (profile : LineProfileBody)
    (supabaseUserId : string) : CompleteAuthorizationOptions :=
  {| auth_request := oauthReqInfo;
     userId := profile_userId profile;
     label := profile_displayName profile;
     scope := scope;
     props := {| lineUserId := profile_userId profile;
                 supabaseUserId := supabaseUserId;
                 displayName := profile_displayName profile |} |}.

(** Every service answers the callback: LINE exchanges the code for a
    token and returns the profile, Supabase signs the user in, the provider
    completes the authorization. *)
Record servicesAnswer (request : Request) (code : string) (oauthReqInfo : Json)
    (scope : option Json) (profile : LineProfileBody)
    (lineAccessToken supabaseUserId redirectTo : string) : Prop := {
  answer_token :
    exists reply, line_token env (tokenForm request code) = Ok reply
                  /\ reply_ok reply = true /\ reply_json reply = Ok (Some lineAccessToken);
  answer_token_nonempty : lineAccessToken <> "";
  answer_profile :
    exists reply, line_profile env lineAccessToken = Ok reply
                  /\ reply_ok reply = true /\ reply_json reply = Ok profile;
  answer_signIn :
    signInWithPassword env (SUPABASE_URL env) (SUPABASE_ANON_KEY env)
      (lineEmail (profile_userId profile)) (linePassword (profile_userId profile))
    = Ok (SignInData supabaseUserId);
  answer_complete :
    completeAuthorization env (issuance oauthReqInfo scope profile supabaseUserId)
    = Ok redirectTo
}.

(** *** [POST /authorize] *)

(** What [POST /authorize] can end in, from the world [w]: a response of
    one of four statuses, and the world as it was unless that is the 302. *)
Definition post_outcome (w : World) (out : Result Response * World) : Prop :=
  match fst out with
  | Ok response =>
      (status response = 302%Z \/ status response = 400%Z
       \/ status response = 403%Z \/ status response = 500%Z)
      /\ (status response <> 302%Z -> snd out = w)
  | Throw _ => False
  end.

End Vocabulary.

(** *** The [hello] tool *)

(** Its two answers. *)
Definition greeting (supabaseUserId : string) : list ToolContent :=
  [{| content_type := "text";
      content_text :=
        stringifyIndented
          [("message", "Hello from your MCP server!");
           ("supabase_user_id", supabaseUserId);
           ("hint", "Replace this tool with your own in src/tools/")] |}].

Definition authError : list ToolContent :=
  [{| content_type := "text"; content_text := "Auth error: Failed to sign in to Supabase" |}].

(* ===================================================================== *)
(** ** More requests on the reference platform *)
(* ===================================================================== *)

Module Scenario.

#[local] Existing Instance Reference.platform.

(** The deployment when the token endpoint of LINE cannot be reached. *)
Definition envLineDown : Env :=
  Sample.deployment (Throw (Raised TypeError)) Sample.profileOk
    (Ok (SignInData "supabase-user-1")).

(** A client id with a character above U+00FF (HIRAGANA LETTER A). *)
Definition wideClient : string :=
  Js.str [ascii_of_N 227; ascii_of_N 129; ascii_of_N 130].

Definition authorizeWide : Request := {|
  url := Sample.at_ "/authorize" [("client_id", wideClient)];
  cookieHeader := None;
  body := None
|}.

(** The world after the consent page was served from [Sample.world]. *)
Definition worldAfterPage : World :=
  snd (get_authorize Sample.env (Sample.authorizeRequest None) Sample.world).

(** The consent form of that page, posted by the browser that got it. *)
Definition consentSubmit : Request := {|
  url := Sample.at_ "/authorize" [];
  cookieHeader := Some ("__Host-csrf=" ++ Sample.token);
  body := Some [("csrf_token", FormString Sample.token);
                ("state",
                 FormString
                   "eyJvYXV0aFJlcUluZm8iOnsiY2xpZW50SWQiOiJhYmMiLCJzY29wZSI6WyJwcm9maWxlIl19fQ==")]
|}.

(** The state token the second [randomUUID] of [Sample.world] yields. *)
Definition secondToken : string := "01122334-4556-4778-899a-abbccddeef00".

(** A browser approved for [abc] that asks for the client [xyz]. *)
Definition approvedBrowser : Request :=
  Sample.authorizeRequest (Some (cookiePair Sample.approvalCookie)).

(** The callback of a browser that sends its other cookies too. *)
Definition callbackManyCookies : Request := {|
  url := Sample.at_ "/callback" [("code", "line-code"); ("state", Sample.token)];
  cookieHeader :=
    Some ((cookiePair Sample.approvalCookie ++ "; __Host-csrf=" ++ secondToken)
          ++ "; " ++ cookiePair (bindStateToSession Sample.token));
  body := None
|}.

(** The profile and the scope of the sample deployment. *)
Definition profile : LineProfileBody :=
  {| profile_userId := "U4af4980629"; profile_displayName := "Yongtae"; pictureUrl := None |}.

Definition scope : option Json := Some (JArr [JStr "profile"]).

(** A browser whose approval cookie does not percent-decode. *)
Definition authorizeMalformed : Request :=
  Sample.authorizeRequest (Some "__Host-approved=%").

(** The consent form of [Sample.consentPost] from such a browser. *)
Definition consentPostBadApproval : Request := {|
  url := Sample.at_ "/authorize" [];
  cookieHeader := Some "__Host-csrf=csrf-token-1; __Host-approved=%80";
  body := Some [("csrf_token", FormString "csrf-token-1");
                ("state", FormString "eyJvYXV0aFJlcUluZm8iOnsiY2xpZW50SWQiOiJhYmMifX0=")]
|}.

(** The token another browser's session cookie is bound to. *)
Definition otherToken : string := "11111111-2222-4333-8444-555555555555".

End Scenario.

(* ===================================================================== *)
(** * Properties *)
(* ===================================================================== *)

(** ** Strings, cookies and hexadecimal text *)

Lemma chars_str (l : list ascii) : Js.chars (Js.str l) = l.
Proof. apply list_ascii_of_string_of_list_ascii. Qed.

Lemma str_chars (s : string) : Js.str (Js.chars s) = s.
Proof. apply string_of_list_ascii_of_string. Qed.

Lemma chars_app (s t : string) : Js.chars (s ++ t) = (Js.chars s ++ Js.chars t)%list.
Proof. induction s as [|a s IH]; simpl; [reflexivity | now rewrite <- IH]. Qed.

Lemma append_cons (a : ascii) (s t : string) : String a s ++ t = String a (s ++ t).
Proof. reflexivity. Qed.

Lemma append_empty_r (s : string) : s ++ "" = s.
Proof. induction s as [|a s IH]; [reflexivity | now rewrite append_cons, IH]. Qed.

Lemma append_assoc (s t u : string) : s ++ t ++ u = (s ++ t) ++ u.
Proof. induction s as [|a s IH]; [reflexivity | now rewrite !append_cons, IH]. Qed.

Lemma plain_app (s t : string) : plain s -> plain t -> plain (s ++ t).
Proof. unfold plain. rewrite chars_app. apply Forall_app_2. Qed.

Lemma plainChar_solid (a : ascii) : plainChar a = true -> solidChar a = true.
Proof. unfold plainChar. rewrite !andb_true_iff. tauto. Qed.

Lemma plainChar_neq (a : ascii) :
  plainChar a = true -> a <> ";"%char /\ a <> "="%char.
Proof.
  unfold plainChar. rewrite !andb_true_iff, !negb_true_iff.
  intros [[_ H1] H2]. split; intros ->; discriminate.
Qed.

(** *** [split] *)

Lemma split_without (sep : ascii) (s : string) :
  Forall (fun a => a <> sep) (Js.chars s) -> Js.split sep s = [s].
Proof.
  induction s as [|a s IH]; simpl; intros H; [reflexivity|].
  inversion H as [|? ? Ha Hs]; subst.
  destruct (Ascii.eqb_spec a sep) as [->|_]; [contradiction|].
  now rewrite (IH Hs).
Qed.

Lemma split_at (sep : ascii) (s t : string) :
  Forall (fun a => a <> sep) (Js.chars s) ->
  Js.split sep (s ++ String sep t) = s :: Js.split sep t.
Proof.
  induction s as [|a s IH]; simpl; intros H.
  - now rewrite Ascii.eqb_refl.
  - inversion H as [|? ? Ha Hs]; subst.
    destruct (Ascii.eqb_spec a sep) as [->|_]; [contradiction|].
    now rewrite (IH Hs).
Qed.

Lemma plain_without (s : string) :
  plain s ->
  Forall (fun a => a <> ";"%char) (Js.chars s) /\ Forall (fun a => a <> "="%char) (Js.chars s).
Proof.
  unfold plain. intros H.
  split; eapply Forall_impl; try exact H; intros a Ha; now apply plainChar_neq in Ha.
Qed.

(** *** [trim] *)

Lemma strip_head (w1 : ascii -> bool) (w2 : ascii -> ascii -> bool)
    (w3 : ascii -> ascii -> ascii -> bool) (a : ascii) (r : list ascii) :
  w1 a = false -> (forall b, w2 a b = false) -> (forall b c, w3 a b c = false) ->
  Js.strip w1 w2 w3 (a :: r) = a :: r.
Proof.
  intros H1 H2 H3. simpl. rewrite H1.
  destruct r as [|b r]; [reflexivity|]. rewrite H2.
  destruct r as [|c r]; [reflexivity|]. now rewrite H3.
Qed.

Lemma solidChar_not_space (a : ascii) :
  solidChar a = true ->
  Js.ws1 a = false
  /\ (forall b, Js.ws2 a b = false /\ Js.ws2 b a = false)
  /\ (forall b c, Js.ws3 a b c = false /\ Js.ws3 c b a = false).
Proof.
  unfold solidChar. cbv zeta. rewrite andb_true_iff.
  intros [Hlo Hhi]. apply N.leb_le in Hlo. apply N.leb_le in Hhi.
  unfold Js.ws1, Js.ws2, Js.ws3. cbv zeta.
  set (n := N_of_ascii a) in *.
  assert (E : forall k, (k < 33 \/ 126 < k)%N -> (n =? k)%N = false)
    by (intros k Hk; apply N.eqb_neq; lia).
  assert (L : forall k, (126 < k)%N -> (k <=? n)%N = false)
    by (intros k Hk; apply N.leb_gt; lia).
  assert (G : forall k, (k < 33)%N -> (n <=? k)%N = false)
    by (intros k Hk; apply N.leb_gt; lia).
  repeat split.
  - rewrite (G 13%N), (E 32%N) by lia. now rewrite andb_false_r.
  - now rewrite (E 194%N) by lia.
  - rewrite (E 160%N) by lia. apply andb_false_r.
  - now rewrite (E 225%N), (E 226%N), (E 227%N), (E 239%N) by lia.
  - rewrite (E 128%N), (E 159%N), (E 191%N), (E 168%N), (E 169%N), (E 175%N),
      (L 128%N) by lia.
    rewrite !andb_false_r. reflexivity.
Qed.

(** Such a string is its own trim. *)
Lemma trim_solidEnds (s : string) : solidEnds s -> Js.trim s = s.
Proof.
  unfold solidEnds, Js.trim, Js.trimEnd, Js.trimStart. intros [Hfirst Hlast].
  assert (Hs : Js.strip Js.ws1 Js.ws2 Js.ws3 (Js.chars s) = Js.chars s).
  { destruct (Js.chars s) as [|a r]; [reflexivity|].
    destruct (solidChar_not_space a Hfirst) as (H1 & H2 & H3).
    apply strip_head; [assumption | intros b; apply H2 | intros b c; apply H3]. }
  rewrite Hs.
  assert (Hr : Js.strip Js.ws1 (fun a b => Js.ws2 b a) (fun a b c => Js.ws3 c b a)
                 (rev (Js.chars s)) = rev (Js.chars s)).
  { destruct (rev (Js.chars s)) as [|a r]; [reflexivity|].
    destruct (solidChar_not_space a Hlast) as (H1 & H2 & H3).
    apply strip_head; [assumption | intros b; apply H2 | intros b c; apply H3]. }
  rewrite Hr, rev_involutive. apply str_chars.
Qed.

Lemma plain_solidEnds (s : string) : plain s -> solidEnds s.
Proof.
  unfold plain, solidEnds. intros H. split.
  - destruct (Js.chars s); [exact I|]. inversion H; subst. now apply plainChar_solid.
  - apply Forall_rev in H. destruct (rev (Js.chars s)); [exact I|].
    inversion H; subst. now apply plainChar_solid.
Qed.

(** A cookie pair [name=value] of plain text has solid ends. *)
Lemma pair_solidEnds (name value : string) :
  plain name -> name <> "" -> plain value -> solidEnds (name ++ "=" ++ value).
Proof.
  intros Hn Hne Hv. unfold solidEnds. rewrite !chars_app. split.
  - destruct name as [|a name]; [contradiction|]. simpl.
    inversion Hn; subst. now apply plainChar_solid.
  - rewrite !rev_app_distr. simpl.
    apply Forall_rev in Hv. fold (Js.chars value).
    destruct (rev (Js.chars value)) as [|b r]; simpl; [reflexivity|].
    inversion Hv; subst. now apply plainChar_solid.
Qed.

(** *** [parseCookies] on a header of one pair *)

Lemma parseCookies_single (name value : string) :
  plain name -> name <> "" -> name <> "__proto__" -> plain value ->
  parseCookies (name ++ "=" ++ value) = {[ name := value ]}.
Proof.
  intros Hn Hne Hproto Hv.
  destruct (plain_without name Hn) as [Hn1 Hn2].
  destruct (plain_without value Hv) as [Hv1 Hv2].
  unfold parseCookies.
  rewrite split_without.
  2:{ rewrite !chars_app. apply Forall_app_2; [exact Hn1|].
      apply Forall_app_2; [|exact Hv1]. repeat constructor. discriminate. }
  simpl fold_left. unfold parseCookies_step.
  rewrite (trim_solidEnds _ (pair_solidEnds name value Hn Hne Hv)).
  change (name ++ "=" ++ value) with (name ++ String "=" value).
  rewrite (split_at "=" name value Hn2), (split_without "=" value Hv2).
  destruct name as [|a name]; [contradiction|]. cbn [Js.falsy].
  rewrite (trim_solidEnds _ (plain_solidEnds _ Hn)).
  destruct (String.eqb_spec (String a name) "__proto__") as [E|_]; [contradiction|].
  unfold Js.join. cbn [String.concat].
  rewrite (trim_solidEnds _ (plain_solidEnds _ Hv)).
  reflexivity.
Qed.

(** ** The primitives on sample inputs *)

Example parseCookies_two :
  parseCookies "a=1; __Host-csrf=x=y ;b" !! "__Host-csrf" = Some "x=y".
Proof. vm_compute. reflexivity. Qed.

Example encodeURIComponent_sample :
  encodeURIComponent "[a b]|=;" = "%5Ba%20b%5D%7C%3D%3B".
Proof. vm_compute. reflexivity. Qed.

Example decodeURIComponent_sample :
  decodeURIComponent "%5Ba%20b%5d%E3%81%82" = Some (Js.str (Js.chars "[a b]" ++ [ascii_of_N 227; ascii_of_N 129; ascii_of_N 130])).
Proof. vm_compute. reflexivity. Qed.

Example decodeURIComponent_malformed :
  decodeURIComponent "%" = None /\ decodeURIComponent "%zz" = None
  /\ decodeURIComponent "%80" = None /\ decodeURIComponent "%C0%80" = None.
Proof. vm_compute. auto. Qed.

Example uuidFormat_sample :
  uuidFormat (uuidBytes (fun i => byte_of_N (N.of_nat (17 * i))))
  = "00112233-4455-4677-8899-aabbccddeeff".
Proof. vm_compute. reflexivity. Qed.

Example sha256_abc :
  hex (Reference.digest "abc")
  = "ba7816bf8f01cfea414140de5dae2223b00361a396177a9cb410ff61f20015ad".
Proof. vm_compute. reflexivity. Qed.

Example sha256_two_blocks :
  hex (Reference.digest "abcdbcdecdefdefgefghfghighijhijkijkljklmklmnlmnomnopnopq")
  = "248d6a61d20638b8e5c026930c3e6039a33ce45964ff2167f6ecedd419db06c1".
Proof. vm_compute. reflexivity. Qed.

Example hmac_rfc4231_2 :
  hex (Reference.hmac "Jefe" "what do ya want for nothing?")
  = "5bdcc146bf60754e6a042426089575c75a003f089d2739839dec58b964ec3843".
Proof. vm_compute. reflexivity. Qed.

Example btoa_sample : Reference.toBase64 "hello!" = Some "aGVsbG8h" /\ Reference.toBase64 "ab" = Some "YWI=".
Proof. vm_compute. auto. Qed.

Example atob_sample :
  Reference.fromBase64 "aGVsbG8h" = Some "hello!" /\ Reference.fromBase64 "YW I=" = Some "ab"
  /\ Reference.fromBase64 "YWI" = Some "ab" /\ Reference.fromBase64 "Y" = None /\ Reference.fromBase64 "Y=I=" = None.
Proof. vm_compute. repeat split. Qed.

Example stringify_sample :
  Reference.parse (Reference.stringify
    (JObj [("clientId", JStr "abc"); ("scope", JArr [JStr "a"; JNum (-12)%Z; JNull; JBool true])]))
  = Some (JObj [("clientId", JStr "abc"); ("scope", JArr [JStr "a"; JNum (-12)%Z; JNull; JBool true])]).
Proof. vm_compute. reflexivity. Qed.

Example stringify_text :
  Reference.stringify (JObj [("a", JArr [JNum 10%Z; JStr "x"])])
  = Js.str (Js.chars "{" ++ [Reference.quote] ++ Js.chars "a" ++ [Reference.quote]
            ++ Js.chars ":[10," ++ [Reference.quote] ++ Js.chars "x" ++ [Reference.quote]
            ++ Js.chars "]}")%list.
Proof. vm_compute. reflexivity. Qed.

Example parse_rejects :
  Reference.parse "" = None /\ Reference.parse "{" = None /\ Reference.parse "[1,]" = None
  /\ Reference.parse "nul" = None /\ Reference.parse "1 2" = None.
Proof. vm_compute. repeat split. Qed.

Example trim_sample :
  Js.trim (Js.str ([ascii_of_N 194; ascii_of_N 160] ++ Js.chars " a b" ++
                   [ascii_of_N 9; ascii_of_N 227; ascii_of_N 128; ascii_of_N 128]))
  = "a b".
Proof. vm_compute. reflexivity. Qed.

Example split_sample :
  Js.split ";" "a=1; b=2;" = ["a=1"; " b=2"; ""] /\ Js.split "=" "" = [""]
  /\ Js.split "=" "k=v=w" = ["k"; "v"; "w"].
Proof. vm_compute. repeat split. Qed.

Example lastIndexOf_sample :
  Js.lastIndexOf "|" "[1]|ab|cd" = Some 6 /\ Js.lastIndexOf "|" "abc" = None
  /\ Js.slice_to 6 "[1]|ab|cd" = "[1]|ab" /\ Js.slice_from 7 "[1]|ab|cd" = "cd".
Proof. vm_compute. repeat split. Qed.

Example parseCookies_last_wins :
  parseCookies "a=1; a=2" !! "a" = Some "2"
  /\ parseCookies "=x; b" !! "" = None
  /\ parseCookies "=x; b" !! "b" = Some ""
  /\ parseCookies "__proto__=x" !! "__proto__" = None.
Proof. vm_compute. repeat split. Qed.

Example cookiePair_sample :
  cookiePair "__Host-csrf=abc; HttpOnly; Secure; SameSite=Strict; Path=/" = "__Host-csrf=abc".
Proof. vm_compute. reflexivity. Qed.

Example validateCSRFToken_sample :
  let request cookie := {| url := {| protocol := "https:"; hostname := "h"; port := "";
                                     pathname := "/authorize"; searchParams := [] |};
                           cookieHeader := cookie; body := None |} in
  validateCSRFToken [("csrf_token", FormString "t")] (request (Some "__Host-csrf=t")) = Ok tt
  /\ validateCSRFToken [("csrf_token", FormString "t")] (request (Some "__Host-csrf=u"))
     = Throw (OAuthError 403 "CSRF token mismatch")
  /\ validateCSRFToken [("csrf_token", FormString "")] (request (Some "__Host-csrf="))
     = Throw (OAuthError 400 "Missing CSRF token")
  /\ validateCSRFToken [("csrf_token", FormFile)] (request (Some "__Host-csrf=t"))
     = Throw (OAuthError 400 "Missing CSRF token")
  /\ validateCSRFToken [] (request (Some "__Host-csrf=t"))
     = Throw (OAuthError 400 "Missing CSRF token").
Proof. vm_compute. repeat split. Qed.

Example formUrlEncode_sample :
  formUrlEncode "profile openid" = "profile+openid"
  /\ formUrlEncode "https://mcp.example.com/callback" = "https%3A%2F%2Fmcp.example.com%2Fcallback".
Proof. vm_compute. split; reflexivity. Qed.

(** *** Hexadecimal text *)

Lemma lowerHex_plain (a : ascii) : lowerHex a = true -> plainChar a = true.
Proof.
  destruct a as [[] [] [] [] [] [] [] []]; vm_compute; intros H;
    first [reflexivity | discriminate H].
Qed.

Lemma hexText_plain (s : string) : hexText s -> plain s.
Proof. intros H. eapply Forall_impl; [exact H | exact lowerHex_plain]. Qed.

(** Every byte prints as exactly two lower-case digits. *)
Lemma byte_two_digits (b : byte) :
  exists d1 d2, padStart2 (toString16 b) = String d1 (String d2 EmptyString)
                /\ lowerHex d1 = true /\ lowerHex d2 = true.
Proof.
  exists (hexDigit (Byte.to_N b / 16)), (hexDigit (Byte.to_N b mod 16)).
  destruct b; repeat split; vm_compute; reflexivity.
Qed.

Lemma concat_empty_cons (x : string) (xs : list string) :
  String.concat "" (x :: xs) = x ++ String.concat "" xs.
Proof.
  destruct xs as [|y ys]; cbn [String.concat].
  - symmetry. apply append_empty_r.
  - reflexivity.
Qed.

Lemma hex_cons (b : byte) (bytes : list byte) :
  hex (b :: bytes) = padStart2 (toString16 b) ++ hex bytes.
Proof. unfold hex, Js.join. cbn [map]. apply concat_empty_cons. Qed.

Lemma hex_hexText (bytes : list byte) : hexText (hex bytes).
Proof.
  induction bytes as [|b bytes IH].
  - constructor.
  - rewrite hex_cons. destruct (byte_two_digits b) as (d1 & d2 & -> & H1 & H2).
    unfold hexText. cbn. repeat constructor; assumption.
Qed.

Lemma hex_nonempty (bytes : list byte) : bytes <> [] -> hex bytes <> "".
Proof.
  destruct bytes as [|b bytes]; [contradiction|]. intros _.
  rewrite hex_cons. destruct (byte_two_digits b) as (d1 & d2 & -> & _). discriminate.
Qed.

Lemma hex_app (xs ys : list byte) : hex (xs ++ ys) = hex xs ++ hex ys.
Proof.
  induction xs as [|b xs IH]; [reflexivity|].
  cbn [app]. rewrite !hex_cons, IH. apply append_assoc.
Qed.

Lemma unhexHead_byte (b : byte) (s : string) :
  unhexHead (padStart2 (toString16 b) ++ s) = Some (b, s).
Proof. destruct b; reflexivity. Qed.

(** Padding every byte to two digits keeps the bytes apart. *)
Lemma hex_injective (xs ys : list byte) : hex xs = hex ys -> xs = ys.
Proof.
  revert ys. induction xs as [|x xs IH]; intros [|y ys] H.
  - reflexivity.
  - rewrite hex_cons in H. apply (f_equal unhexHead) in H.
    rewrite unhexHead_byte in H. discriminate H.
  - rewrite hex_cons in H. apply (f_equal unhexHead) in H.
    rewrite unhexHead_byte in H. discriminate H.
  - rewrite !hex_cons in H. apply (f_equal unhexHead) in H.
    rewrite !unhexHead_byte in H. injection H as -> H. f_equal. now apply IH.
Qed.

(** *** UUIDs *)

Lemma hexText_uuidText (s : string) : hexText s -> uuidText s.
Proof.
  intros H. eapply Forall_impl; [exact H|].
  intros a Ha. unfold uuidChar. now rewrite Ha.
Qed.

Lemma uuidText_app (s t : string) : uuidText s -> uuidText t -> uuidText (s ++ t).
Proof. unfold uuidText. rewrite chars_app. apply Forall_app_2. Qed.

Lemma uuidFormat_uuidText (bytes : list byte) : uuidText (uuidFormat bytes).
Proof.
  unfold uuidFormat.
  repeat (apply uuidText_app; [first [apply hexText_uuidText, hex_hexText
                                     | repeat constructor] |]).
  apply hexText_uuidText, hex_hexText.
Qed.

Lemma uuidBytes_length (random : nat -> byte) : length (uuidBytes random) = 16.
Proof. reflexivity. Qed.

Lemma uuidFormat_nonempty (random : nat -> byte) : uuidFormat (uuidBytes random) <> "".
Proof.
  unfold uuidFormat, uuidBytes. cbn [seq map take firstn].
  rewrite hex_cons. destruct (byte_two_digits (random 0)) as (d1 & d2 & E & _).
  cbn [Nat.eqb] in *. rewrite E. discriminate.
Qed.

(** The form encoding leaves a UUID as it is. *)
Lemma formUrlEncode_uuidText (s : string) : uuidText s -> formUrlEncode s = s.
Proof.
  unfold uuidText, formUrlEncode. intros H.
  rewrite <- (str_chars s) at 2. f_equal.
  induction H as [|a l Ha _ IH]; [reflexivity|].
  cbn [flat_map]. rewrite IH.
  assert (Hsafe : formUrlSafe a = true).
  { revert Ha. clear. destruct a as [[] [] [] [] [] [] [] []]; vm_compute; intros H;
      first [reflexivity | discriminate H]. }
  now rewrite Hsafe.
Qed.

(** ** The OAuth state store and the session binding *)

Section StateProperties.

Context {P : Platform}.

Lemma plain_session_name : plain "__Host-session".
Proof. unfold plain. simpl. repeat constructor. Qed.

Lemma sha256_hexText (data : string) : hexText (sha256 data).
Proof. apply hex_hexText. Qed.

Lemma sha256_nonempty (data : string) : sha256 data <> "".
Proof.
  apply hex_nonempty. intros E.
  pose proof (digest_SHA256_length data) as H. rewrite E in H. discriminate H.
Qed.

(** The browser keeps [__Host-session=<hash>] of the binding directive. *)
Lemma cookiePair_bindStateToSession (stateToken : string) :
  cookiePair (bindStateToSession stateToken) = "__Host-session=" ++ sha256 stateToken.
Proof.
  unfold cookiePair, bindStateToSession. cbv zeta.
  change ("__Host-session=" ++ sha256 stateToken
          ++ "; HttpOnly; Secure; SameSite=Lax; Path=/; Max-Age=600")
    with ("__Host-session=" ++ sha256 stateToken
          ++ String ";" " HttpOnly; Secure; SameSite=Lax; Path=/; Max-Age=600").
  rewrite append_assoc, split_at; [reflexivity|].
  rewrite chars_app. apply Forall_app_2.
  - simpl. repeat constructor; discriminate.
  - apply plain_without, hexText_plain, sha256_hexText.
Qed.

(** What [parseCookies] makes of that pair. *)
Lemma session_cookie_read (request : Request) (stateToken : string) :
  cookieHeader request = Some (cookiePair (bindStateToSession stateToken)) ->
  truthy_cookie (request_cookies request) "__Host-session" = Some (sha256 stateToken).
Proof.
  intros H. unfold request_cookies, truthy_cookie. rewrite H. cbn [from_option id].
  rewrite cookiePair_bindStateToSession.
  change ("__Host-session=" ++ sha256 stateToken)
    with ("__Host-session" ++ "=" ++ sha256 stateToken).
  rewrite parseCookies_single; try discriminate.
  - rewrite lookup_singleton_eq.
    pose proof (sha256_nonempty stateToken) as Hne.
    destruct (sha256 stateToken); [contradiction | reflexivity].
  - apply plain_session_name.
  - apply hexText_plain, sha256_hexText.
Qed.

Lemma truthy_string_Some (s : string) : s <> "" -> truthy_string (Some s) = Some s.
Proof. destruct s; [contradiction | reflexivity]. Qed.

(** With the cookie bound to the token of the query string, validation
    goes on to the store. *)
Lemma validateOAuthState_bound (request : Request) (stateToken : string) (w : World) :
  stateToken <> "" ->
  searchParams_get "state" (searchParams (url request)) = Some stateToken ->
  cookieHeader request = Some (cookiePair (bindStateToSession stateToken)) ->
  validateOAuthState request w = consume stateToken w.
Proof.
  intros Hne Hstate Hcookie. unfold validateOAuthState.
  rewrite Hstate, (truthy_string_Some _ Hne), (session_cookie_read _ _ Hcookie).
  now rewrite String.eqb_refl.
Qed.

(** With a cookie bound to a token of another hash, it stops before. *)
Lemma validateOAuthState_other (request : Request) (stateToken bound : string) (w : World) :
  stateToken <> "" ->
  searchParams_get "state" (searchParams (url request)) = Some stateToken ->
  cookieHeader request = Some (cookiePair (bindStateToSession bound)) ->
  sha256 bound <> sha256 stateToken ->
  validateOAuthState request w = (Throw (OAuthError 403 "Session binding mismatch"), w).
Proof.
  intros Hne Hstate Hcookie Hdiff. unfold validateOAuthState.
  rewrite Hstate, (truthy_string_Some _ Hne), (session_cookie_read _ _ Hcookie).
  apply String.eqb_neq in Hdiff. now rewrite Hdiff.
Qed.

(** The store phase when the record is absent or has expired. *)
Lemma consume_absent (stateToken : string) (w : World) :
  truthy_string (kv_peek ("oauth_state:" ++ stateToken) w) = None ->
  consume stateToken w
  = (Throw (OAuthError 400 "Invalid or expired state"),
     {| kv := kv w; now := now w; random := random w; randomCalls := randomCalls w;
        trace := trace w ++ [KvGet ("oauth_state:" ++ stateToken)] |}).
Proof.
  intros H. unfold consume, kv_get, bind, emit, throw. cbn.
  change (kv_peek ("oauth_state:" ++ stateToken)
            {| kv := kv w; now := now w; random := random w;
               randomCalls := randomCalls w;
               trace := trace w ++ [KvGet ("oauth_state:" ++ stateToken)] |})
    with (kv_peek ("oauth_state:" ++ stateToken) w).
  now rewrite H.
Qed.

(** The store phase when the record is there: it is deleted, then parsed. *)
Lemma consume_present (stateToken stored : string) (w : World) :
  kv_peek ("oauth_state:" ++ stateToken) w = Some stored -> stored <> "" ->
  consume stateToken w
  = (match JSON_parse stored with
     | Some oauthReqInfo => Ok (oauthReqInfo, clearCookie)
     | None => Throw (Raised SyntaxError)
     end,
     {| kv := delete ("oauth_state:" ++ stateToken) (kv w);
        now := now w; random := random w; randomCalls := randomCalls w;
        trace := (trace w ++ [KvGet ("oauth_state:" ++ stateToken)])
                 ++ [KvDelete ("oauth_state:" ++ stateToken)] |}).
Proof.
  intros H Hne. unfold consume, kv_get, kv_delete, set_kv, bind, emit, throw, lift, ret. cbn.
  change (kv_peek ("oauth_state:" ++ stateToken)
            {| kv := kv w; now := now w; random := random w;
               randomCalls := randomCalls w;
               trace := trace w ++ [KvGet ("oauth_state:" ++ stateToken)] |})
    with (kv_peek ("oauth_state:" ++ stateToken) w).
  rewrite H, (truthy_string_Some _ Hne). cbn.
  destruct (JSON_parse stored); reflexivity.
Qed.

(** What [createOAuthState] returns and leaves behind. *)
Lemma createOAuthState_run (oauthReqInfo : Json) (ttl : Z) (w : World) :
  let stateToken := uuidFormat (uuidBytes (random w (randomCalls w))) in
  createOAuthState oauthReqInfo ttl w
  = (Ok stateToken,
     {| kv := <[ "oauth_state:" ++ stateToken
                 := (JSON_stringify oauthReqInfo, (now w + ttl)%Z) ]> (kv w);
        now := now w; random := random w; randomCalls := S (randomCalls w);
        trace := trace w ++ [KvPut ("oauth_state:" ++ stateToken)
                               (JSON_stringify oauthReqInfo) ttl] |}).
Proof. reflexivity. Qed.

Lemma JSON_stringify_nonempty (v : Json) :
  JSON_parse (JSON_stringify v) = Some v -> JSON_stringify v <> "".
Proof. intros H E. rewrite E, JSON_parse_empty in H. discriminate H. Qed.

(** C4: the cookie [bindStateToSession] makes for a token holds the
    hexadecimal text of the SHA-256 digest of that token. A callback that
    presents the cookie made for the state token of its query string passes
    the session check, so that its outcome is the store's alone; a callback
    whose cookie was made for a different token, the digests of the two
    tokens not colliding, fails with the session-mismatch error, the world
    untouched. *)
Theorem session_binding_verifies (request : Request) (stateToken bound : string)
    (w : World) :
  stateToken <> "" ->
  searchParams_get "state" (searchParams (url request)) = Some stateToken ->
  cookieHeader request = Some (cookiePair (bindStateToSession bound)) ->
  truthy_cookie (request_cookies request) "__Host-session"
  = Some (hex (digest_SHA256 bound))
  /\ (bound = stateToken ->
      fst (validateOAuthState request w)
      = match truthy_string (kv_peek ("oauth_state:" ++ stateToken) w) with
        | None => Throw (OAuthError 400 "Invalid or expired state")
        | Some stored =>
            match JSON_parse stored with
            | Some oauthReqInfo => Ok (oauthReqInfo, clearCookie)
            | None => Throw (Raised SyntaxError)
            end
        end)
  /\ (bound <> stateToken ->
      (digest_SHA256 bound = digest_SHA256 stateToken -> bound = stateToken) ->
      validateOAuthState request w
      = (Throw (OAuthError 403 "Session binding mismatch"), w)).
Proof.
  intros Hne Hstate Hcookie. split; [|split].
  - now apply session_cookie_read.
  - intros ->. rewrite (validateOAuthState_bound _ _ _ Hne Hstate Hcookie).
    destruct (truthy_string (kv_peek ("oauth_state:" ++ stateToken) w)) as [stored|] eqn:E.
    + destruct (kv_peek ("oauth_state:" ++ stateToken) w) as [stored'|] eqn:E'; [|discriminate].
      assert (stored' = stored /\ stored <> "") as [-> Hs].
      { destruct stored'; [discriminate|]. cbn in E. injection E as <-. now split. }
      now rewrite (consume_present _ _ _ E' Hs).
    + now rewrite (consume_absent _ _ E).
  - intros Hother Hcollision.
    apply (validateOAuthState_other request stateToken bound w Hne Hstate Hcookie).
    intros E. apply Hother, Hcollision. exact (hex_injective _ _ E).
Qed.

(** C2: the pending authorization saved by [createOAuthState] comes back
    equal from the first [validateOAuthState] that presents the returned
    token with its session cookie before the TTL has run out, and the
    record is gone for the second, which fails with the state-not-found
    error. *)
Theorem save_then_consume_once (oauthReqInfo : Json) (ttl elapsed after : Z) (w : World) :
  JSON_parse (JSON_stringify oauthReqInfo) = Some oauthReqInfo ->
  (elapsed < ttl)%Z ->
  exists stateToken,
    fst (createOAuthState oauthReqInfo ttl w) = Ok stateToken
    /\ forall request,
        searchParams_get "state" (searchParams (url request)) = Some stateToken ->
        cookieHeader request = Some (cookiePair (bindStateToSession stateToken)) ->
        let first :=
          validateOAuthState request (later elapsed (snd (createOAuthState oauthReqInfo ttl w))) in
        fst first = Ok (oauthReqInfo, clearCookie)
        /\ kv (snd first) !! ("oauth_state:" ++ stateToken) = None
        /\ fst (validateOAuthState request (later after (snd first)))
           = Throw (OAuthError 400 "Invalid or expired state").
Proof.
  intros Hjson Httl. rewrite createOAuthState_run. cbv zeta.
  set (stateToken := uuidFormat (uuidBytes (random w (randomCalls w)))).
  exists stateToken. split; [reflexivity|].
  intros request Hstate Hcookie. cbn [snd].
  assert (Hne : stateToken <> "") by apply uuidFormat_nonempty.
  rewrite (validateOAuthState_bound _ _ _ Hne Hstate Hcookie).
  rewrite (consume_present stateToken (JSON_stringify oauthReqInfo)).
  - rewrite Hjson. cbn [fst snd kv]. split; [reflexivity|]. split.
    + apply lookup_delete_eq.
    + rewrite (validateOAuthState_bound _ _ _ Hne Hstate Hcookie).
      rewrite consume_absent; [reflexivity|].
      unfold kv_peek, later. cbn [kv]. now rewrite lookup_delete_eq.
  - unfold kv_peek, later. cbn [kv now]. rewrite lookup_insert_eq.
    assert (E : (now w + elapsed <? now w + ttl)%Z = true) by (apply Z.ltb_lt; lia).
    now rewrite E.
  - now apply JSON_stringify_nonempty.
Qed.

(** C10: when [validateOAuthState] fails on the state parameter, on the
    session cookie or on the session hash, it has not touched the world (no
    read, no delete is on the trace, the store is as it was), so a pending
    authorization that was there is still handed to the session it is bound
    to. *)
Theorem early_failure_keeps_state (attempt owner : Request) (stateToken stored : string)
    (oauthReqInfo : Json) (w : World) :
  (fst (validateOAuthState attempt w) = Throw (OAuthError 400 "Missing state parameter")
   \/ fst (validateOAuthState attempt w) = Throw (OAuthError 400 "Missing session cookie")
   \/ fst (validateOAuthState attempt w) = Throw (OAuthError 403 "Session binding mismatch")) ->
  stateToken <> "" ->
  searchParams_get "state" (searchParams (url owner)) = Some stateToken ->
  cookieHeader owner = Some (cookiePair (bindStateToSession stateToken)) ->
  kv_peek ("oauth_state:" ++ stateToken) w = Some stored ->
  JSON_parse stored = Some oauthReqInfo ->
  snd (validateOAuthState attempt w) = w
  /\ fst (validateOAuthState owner (snd (validateOAuthState attempt w)))
     = Ok (oauthReqInfo, clearCookie).
Proof.
  intros Hfail Hne Hstate Hcookie Hpeek Hjson.
  assert (Hw : snd (validateOAuthState attempt w) = w).
  { revert Hfail. unfold validateOAuthState.
    destruct (truthy_string (searchParams_get "state" (searchParams (url attempt))))
      as [t|]; [|reflexivity].
    destruct (truthy_cookie (request_cookies attempt) "__Host-session") as [h|]; [|reflexivity].
    destruct (negb (String.eqb h (sha256 t))); [reflexivity|].
    unfold bind, kv_get, kv_delete, set_kv, emit, throw, lift, ret. cbn.
    destruct (truthy_string _) as [s|]; cbn.
    - destruct (JSON_parse s); cbn; intros [H|[H|H]]; discriminate H.
    - intros [H|[H|H]]; discriminate H. }
  split; [exact Hw|]. rewrite Hw.
  rewrite (validateOAuthState_bound _ _ _ Hne Hstate Hcookie).
  assert (Hs : stored <> "").
  { intros ->. rewrite JSON_parse_empty in Hjson. discriminate Hjson. }
  rewrite (consume_present _ _ _ Hpeek Hs), Hjson. reflexivity.
Qed.

End StateProperties.

(** ** [GET /callback] *)

Section CallbackProperties.

Context {P : Platform} (env : Env).

(** Whatever [validateOAuthState] returns, its clear-cookie directive is
    the fixed one. *)
Lemma validateOAuthState_clearCookie (request : Request) (w w' : World)
    (oauthReqInfo : Json) (directive : string) :
  validateOAuthState request w = (Ok (oauthReqInfo, directive), w') ->
  directive = clearCookie.
Proof.
  unfold validateOAuthState.
  repeat case_match; run; repeat case_match; cbn; intros Heq; congruence.
Qed.

(** The errors [validateOAuthState] raises of its own are 400 and 403. *)
Lemma validateOAuthState_error_status (request : Request) (w w' : World)
    (statusCode : Z) (message : string) :
  validateOAuthState request w = (Throw (OAuthError statusCode message), w') ->
  statusCode = 400%Z \/ statusCode = 403%Z.
Proof.
  unfold validateOAuthState.
  repeat case_match; run; repeat case_match; cbn; intros Heq; simplify_eq; auto.
Qed.

(** C1, as amended: [GET /callback] attaches the directive that clears
    [__Host-session] to the final 302 and to nothing else; every other
    response it returns (the errors of state validation, a missing code, a
    failed exchange or profile fetch, an account that is not linked) has no
    [Set-Cookie] header. *)
Theorem callback_clears_cookie_on_success_only (request : Request) (w : World) :
  match fst (callback env request w) with
  | Ok response =>
      getSetCookie response = if (status response =? 302)%Z then [clearCookie] else []
  | Throw _ => True
  end.
Proof.
  set (good := fun out : Result Response * World =>
         match fst out with
         | Ok response =>
             getSetCookie response
             = if (status response =? 302)%Z then [clearCookie] else []
         | Throw _ => True
         end).
  change (good (callback env request w)).
  unfold callback, try_catch, bind. cbn beta.
  destruct (validateOAuthState request w) as [[[oauthReqInfo directive]|e] w1] eqn:Hv.
  - pose proof (validateOAuthState_clearCookie _ _ _ _ _ Hv) as Hd. subst directive.
    clear Hv. run.
    repeat (case_match; run; simplify_eq); subst good; cbn; try exact I; try reflexivity.
  - destruct e as [statusCode message|e]; run; subst good; cbn; [|reflexivity].
    apply validateOAuthState_error_status in Hv as [-> | ->]; reflexivity.
Qed.

(** [validateOAuthState] adds reads and deletes of the store to the trace,
    nothing else. *)
Lemma validateOAuthState_trace (request : Request) (w : World) :
  exists events,
    trace (snd (validateOAuthState request w)) = (trace w ++ events)%list
    /\ noIssuance events = true.
Proof.
  unfold validateOAuthState.
  repeat case_match; run; repeat case_match; cbn;
    first [ exists []; split; [symmetry; apply app_nil_r | reflexivity]
          | eexists; split; [rewrite <- ?app_assoc; reflexivity | reflexivity] ].
Qed.

(** X15: tokens are issued on the way to the final 302 only: whenever
    [GET /callback] answers anything else, [completeAuthorization] has not
    been called. *)
Lemma callback_issues_on_success_only (request : Request) (w : World) :
  exists events,
    trace (snd (callback env request w)) = (trace w ++ events)%list
    /\ match fst (callback env request w) with
       | Ok response => status response <> 302%Z -> noIssuance events = true
       | Throw _ => True
       end.
Proof.
  set (good := fun out : Result Response * World =>
         exists events,
           trace (snd out) = (trace w ++ events)%list
           /\ match fst out with
              | Ok response => status response <> 302%Z -> noIssuance events = true
              | Throw _ => True
              end).
  change (good (callback env request w)).
  destruct (validateOAuthState_trace request w) as (before & Htrace & Hbefore).
  unfold callback, try_catch, bind. cbn beta.
  destruct (validateOAuthState request w) as [[[oauthReqInfo directive]|e] w1] eqn:Hv;
    cbn [snd] in Htrace.
  - clear Hv. run.
    repeat (case_match; run; simplify_eq); subst good; cbn; rewrite ?Htrace;
      eexists; (split; [rewrite <- ?app_assoc; reflexivity|]);
      try exact I; try (intros _; unfold noIssuance in *; rewrite ?forallb_app, Hbefore;
                        reflexivity);
      try (intros Hs; now contradiction Hs).
  - clear Hv. run. destruct e; subst good; cbn; rewrite Htrace;
      eexists; (split; [reflexivity|]); intros _; exact Hbefore.
Qed.


(** C9: on a callback that is in order up to the identity exchange (state
    validated, client id and code present, token exchanged, profile
    fetched), a sign-in that Supabase refuses gives the 403 with the fixed
    message that asks to register first, and the only calls made after the
    state validation are the two to LINE and the sign-in:
    [completeAuthorization] is not called. *)
Theorem account_not_linked (request : Request) (w w1 : World) (oauthReqInfo : Json)
    (directive code lineAccessToken message : string) (clientId : option Json)
    (tokenReply : HttpReply (option string)) (profileReply : HttpReply LineProfileBody)
    (profile : LineProfileBody) :
  let form := [("grant_type", "authorization_code"); ("code", code);
               ("redirect_uri", getCallbackUrl request);
               ("client_id", LINE_CHANNEL_ID env);
               ("client_secret", LINE_CHANNEL_SECRET env)] in
  let email := profile_userId profile ++ "@line.com" in
  let password := COMMON_PASSWORD_PREFIX env ++ Js.slice_to 6 (profile_userId profile) in
  validateOAuthState request w = (Ok (oauthReqInfo, directive), w1) ->
  get oauthReqInfo "clientId" = Ok clientId ->
  truthy clientId = true ->
  truthy_string (searchParams_get "code" (searchParams (url request))) = Some code ->
  line_token env form = Ok tokenReply ->
  reply_ok tokenReply = true ->
  reply_json tokenReply = Ok (Some lineAccessToken) ->
  lineAccessToken <> "" ->
  line_profile env lineAccessToken = Ok profileReply ->
  reply_ok profileReply = true ->
  reply_json profileReply = Ok profile ->
  signInWithPassword env (SUPABASE_URL env) (SUPABASE_ANON_KEY env) email password
  = Ok (SignInError message) ->
  let calls := [LineToken form; LineProfile lineAccessToken; SupabaseSignIn email password] in
  callback env request w
  = (Ok {| status := 403; headers := [];
           content := Text "Account not found. Please register via the app first." |},
     {| kv := kv w1; now := now w1; random := random w1; randomCalls := randomCalls w1;
        trace := trace w1 ++ calls |})
  /\ Forall (fun e => forall options, e <> CompleteAuthorization options) calls.
Proof.
  intros form email password Hv Hclient Htruthy Hcode Htoken Hok Hjson Hne
    Hprofile Hpok Hpjson Hsign calls.
  split; [|subst calls; repeat constructor; discriminate].
  destruct lineAccessToken as [|c rest]; [contradiction|].
  unfold callback, try_catch, bind. cbn beta. rewrite Hv. run.
  rewrite Hclient, Htruthy, Hcode. cbn.
  fold form. rewrite Htoken, Hok. cbn. rewrite Hjson. cbn.
  rewrite Hprofile, Hpok. cbn. rewrite Hpjson. cbn.
  fold email password. rewrite Hsign. cbn.
  unfold text_response. subst calls. rewrite <- !app_assoc. reflexivity.
Qed.

End CallbackProperties.


(** ** What the helpers can throw *)

Lemma raised_bind {A B : Type} (r : Result A) (k : A -> Result B) :
  raised r -> (forall a, raised (k a)) -> raised (Result_bind r k).
Proof. destruct r as [a|[s m|e]]; cbn; auto; intros []. Qed.

Lemma raised_orRaise {A : Type} (e : PlatformError) (o : option A) : raised (orRaise e o).
Proof. now destruct o. Qed.

Section Exceptions.

Context {P : Platform}.

(** *** No helper of the approval cache raises an [OAuthError] *)

Lemma get_raised (v : Json) (key : string) : raised (get v key).
Proof. now destruct v. Qed.

Lemma ToString_raised : forall v : Json, raised (ToString v).
Proof.
  fix IH 1. intros [| b | n | s | items | fields]; cbn; try exact I.
  - apply raised_bind; [|intros; exact I].
    induction items as [|x r IHr]; [exact I|].
    apply raised_bind; [|intros; apply raised_bind; [exact IHr | intros; exact I]].
    generalize (IH x). destruct x; intros Hx; first [exact I | exact Hx].
  - now destruct (field "toString" fields).
Qed.

Lemma includes_raised (approved x : Json) : raised (includes approved x).
Proof.
  destruct approved; cbn; try exact I.
  apply raised_bind; [apply ToString_raised | intros; exact I].
Qed.

Lemma push_raised (approved x : Json) : raised (push approved x).
Proof. now destruct approved. Qed.

Lemma signData_raised (data secret : string) : raised (signData data secret).
Proof. unfold signData, importKey. now destruct (Js.falsy secret). Qed.

Lemma getApprovedClientsFromCookie_raised (request : Request) (secret : string) :
  raised (getApprovedClientsFromCookie request secret).
Proof.
  unfold getApprovedClientsFromCookie.
  destruct (truthy_cookie _ _); [|exact I].
  apply raised_bind; [apply raised_orRaise|]. intros decoded.
  destruct (Js.lastIndexOf "|" decoded); [|exact I].
  apply raised_bind.
  - unfold verifySignature. apply raised_bind; [apply signData_raised | intros; exact I].
  - intros [|]; [|exact I]. now destruct (JSON_parse _).
Qed.

Lemma addApprovedClient_raised (request : Request) (clientId : Json) (secret : string) :
  raised (addApprovedClient request clientId secret).
Proof.
  unfold addApprovedClient.
  apply raised_bind; [apply getApprovedClientsFromCookie_raised|]. intros approved.
  apply raised_bind; [apply includes_raised|]. intros present.
  apply raised_bind; [destruct present; [exact I | apply push_raised]|]. intros approved'.
  apply raised_bind; [apply signData_raised | intros; exact I].
Qed.

Lemma validateCSRFToken_status (formData : FormData) (request : Request) (e : Exn) :
  validateCSRFToken formData request = Throw e ->
  e = OAuthError 400 "Missing CSRF token" \/ e = OAuthError 403 "CSRF token mismatch".
Proof.
  unfold validateCSRFToken. repeat case_match; intros Heq; simplify_eq; auto.
Qed.

End Exceptions.

(** ** [POST /authorize] and [GET /authorize] *)

(** Kept folded while the handlers are run symbolically. *)
Arguments uuidFormat : simpl never.
Arguments uuidBytes : simpl never.
Arguments Headers_entries : simpl never.
Arguments Object_fromEntries : simpl never.
Arguments bindStateToSession : simpl never.
Arguments getLineAuthorizeUrl : simpl never.
Arguments getCallbackUrl : simpl never.
Arguments truthy : simpl never.

Section AuthorizeProperties.

Context {P : Platform} (env : Env).

(** [POST /authorize] turns an [OAuthError] of the CSRF check into its
    response. *)
Lemma post_authorize_csrf_error (formData : FormData) (request : Request) (w : World)
    (statusCode : Z) (message : string) :
  body request = Some formData ->
  validateCSRFToken formData request = Throw (OAuthError statusCode message) ->
  post_authorize env request w = (Ok (text_response message statusCode), w).
Proof.
  intros Hbody Heq. unfold post_authorize, try_catch, bind, lift.
  rewrite Hbody. cbn. now rewrite Heq.
Qed.

(** C3, as amended: [validateCSRFToken] raises the missing-token error
    (400) exactly when no non-empty string is submitted as [csrf_token];
    with a token submitted it raises the mismatch error (403) exactly when
    the [__Host-csrf] cookie is not that token, which includes the cookie
    being absent; it returns exactly when the cookie equals the submitted
    token; and [POST /authorize] answers with the error's status and
    message. *)
Theorem csrf_validation_cases (formData : FormData) (request : Request) (w : World) :
  let submitted :=
    match formData_get "csrf_token" formData with
    | Some (FormString token) => truthy_string (Some token)
    | _ => None
    end in
  let cookie := request_cookies request !! "__Host-csrf" in
  (validateCSRFToken formData request = Throw (OAuthError 400 "Missing CSRF token")
   <-> submitted = None)
  /\ (validateCSRFToken formData request = Throw (OAuthError 403 "CSRF token mismatch")
      <-> exists token, submitted = Some token /\ cookie <> Some token)
  /\ (validateCSRFToken formData request = Ok tt
      <-> exists token, submitted = Some token /\ cookie = Some token)
  /\ (body request = Some formData ->
      forall statusCode message,
        validateCSRFToken formData request = Throw (OAuthError statusCode message) ->
        post_authorize env request w = (Ok (text_response message statusCode), w)).
Proof.
  cbv zeta. split; [|split; [|split]].
  4: { intros Hbody statusCode message Heq. now apply post_authorize_csrf_error with formData. }
  all: unfold validateCSRFToken, truthy_cookie;
    destruct (formData_get "csrf_token" formData) as [[[|c token]|]|];
    cbn [truthy_string Js.falsy];
    try (split; [intros H; first [discriminate H | reflexivity]
                | intros H; first [discriminate H | reflexivity
                                   | destruct H as (t & Ht & _); discriminate Ht]]).
  all: destruct (request_cookies request !! "__Host-csrf") as [[|k ks]|];
    cbn [Js.falsy];
    try destruct (String.eqb_spec (String k ks) (String c token)) as [E|E];
    try rewrite E.
  all: split;
    [ intros H; first [discriminate H | exists (String c token); split; congruence]
    | intros H; first [discriminate H | reflexivity
                       | destruct H as (t & Ht & Hc); congruence] ].
Qed.

(** The iteration of the two appended cookies, then [Object.fromEntries],
    leaves one [set-cookie] entry: the session cookie alone where the
    platform keeps cookies apart, both joined by a comma where it does not. *)
Lemma fromEntries_two_cookies (first second : string) :
  Object_fromEntries (Headers_entries [("set-cookie", first); ("set-cookie", second)] [])
  = [("set-cookie", if headers_getsetcookie then second else first ++ ", " ++ second)].
Proof.
  unfold Object_fromEntries, Headers_entries. cbn.
  destruct headers_getsetcookie; reflexivity.
Qed.

(** The state token travels unchanged in the authorize URL. *)
Lemma getLineAuthorizeUrl_state (channelId redirectUri : string) (random : nat -> byte) :
  getLineAuthorizeUrl channelId redirectUri (uuidFormat (uuidBytes random))
  = "https://access.line.me/oauth2/v2.1/authorize?response_type=code&client_id="
    ++ formUrlEncode channelId ++ "&redirect_uri=" ++ formUrlEncode redirectUri
    ++ "&state=" ++ uuidFormat (uuidBytes random) ++ "&scope=profile+openid".
Proof.
  unfold getLineAuthorizeUrl.
  now rewrite (formUrlEncode_uuidText _ (uuidFormat_uuidText _)).
Qed.

(** [GET /authorize] for a request with a client id, by what
    [isClientApproved] returns. When it returns true, the pending
    authorization is stored under a fresh state token and the answer is a
    302 to the LINE authorize URL with the session-binding cookie of that
    token, no consent page. When it returns false, nothing is written to
    the store or done outside, whatever follows; and with the client looked
    up and the state encoded, the answer is the 200 consent page with a
    fresh CSRF token in the form and in the [__Host-csrf] cookie, and the
    encoded pending authorization. *)
Lemma authorize_branches (request : Request) (oauthReqInfo clientId : Json) (w : World) :
  parseAuthRequest env request = Ok oauthReqInfo ->
  get oauthReqInfo "clientId" = Ok (Some clientId) ->
  truthy (Some clientId) = true ->
  let fresh := uuidFormat (uuidBytes (random w (randomCalls w))) in
  (isClientApproved request clientId (COOKIE_ENCRYPTION_KEY env) = Ok true ->
   get_authorize env request w
   = (Ok {| status := 302;
            headers := [("set-cookie", bindStateToSession fresh);
                        ("location",
                         getLineAuthorizeUrl (LINE_CHANNEL_ID env) (getCallbackUrl request) fresh)];
            content := NoBody |},
      {| kv := <[ "oauth_state:" ++ fresh
                  := (JSON_stringify oauthReqInfo, (now w + 600)%Z) ]> (kv w);
         now := now w; random := random w; randomCalls := S (randomCalls w);
         trace := trace w ++ [KvPut ("oauth_state:" ++ fresh)
                                (JSON_stringify oauthReqInfo) 600] |}))
  /\ (isClientApproved request clientId (COOKIE_ENCRYPTION_KEY env) = Ok false ->
      kv (snd (get_authorize env request w)) = kv w
      /\ trace (snd (get_authorize env request w)) = trace w
      /\ forall client encodedState,
          lookupClient env clientId = Ok client ->
          btoa (JSON_stringify (JObj [("oauthReqInfo", oauthReqInfo)])) = Some encodedState ->
          exists page,
            fst (get_authorize env request w)
            = Ok {| status := 200;
                    headers := [("content-type", "text/html; charset=utf-8");
                                ("set-cookie",
                                 "__Host-csrf=" ++ fresh
                                 ++ "; HttpOnly; Secure; SameSite=Strict; Path=/")];
                    content := Html page |}
            /\ dialog_csrf_token page = fresh
            /\ dialog_state page = encodedState).
Proof.
  intros Hparse Hclient Htruthy fresh. split.
  - intros Happroved. unfold get_authorize, bind, lift.
    rewrite Hparse, Hclient. cbn. unfold truthy_value.
    rewrite Htruthy, Happroved. clear Htruthy.
    reflexivity.
  - intros Happroved. unfold get_authorize, bind, lift.
    rewrite Hparse, Hclient. cbn. unfold truthy_value.
    rewrite Htruthy, Happroved. clear Htruthy.
    run. fold fresh. split; [|split].
    + destruct (lookupClient env clientId); [|reflexivity].
      destruct (renderApprovalDialog _ _ _ _ _); reflexivity.
    + destruct (lookupClient env clientId); [|reflexivity].
      destruct (renderApprovalDialog _ _ _ _ _); reflexivity.
    + intros client encodedState Hlookup Hbtoa. rewrite Hlookup.
      unfold renderApprovalDialog. rewrite Hbtoa. cbn.
      eexists. split; [reflexivity|]. split; reflexivity.
Qed.

(** C5, at the failing input: with the cookie [__Host-approved=%] the
    approval list is not read as empty; [decodeURIComponent] raises
    [URIError] outside the [try], and [isClientApproved] and
    [addApprovedClient] raise it in turn, whatever the client id and the
    secret. *)
Theorem malformed_approval_cookie_throws (u : URL) (form : option FormData)
    (clientId : Json) (secret : string) :
  let request := {| url := u; cookieHeader := Some "__Host-approved=%"; body := form |} in
  isClientApproved request clientId secret = Throw (Raised URIError)
  /\ addApprovedClient request clientId secret = Throw (Raised URIError).
Proof. split; reflexivity. Qed.

End AuthorizeProperties.


(** ** The approval cookie *)

(** *** Percent-encoding round trip *)

Lemma uriTokens_encoded_char (a : ascii) (rest : list ascii) :
  uriTokens ((if uriUnreserved a then [a] else percent a) ++ rest)
  = cons (uriTokenOf a) <$> uriTokens rest.
Proof. destruct a as [[] [] [] [] [] [] [] []]; reflexivity. Qed.

Lemma uriTokens_encoded (s : list ascii) :
  uriTokens (flat_map (fun a => if uriUnreserved a then [a] else percent a) s)
  = Some (map uriTokenOf s).
Proof.
  induction s as [|a s IH]; [reflexivity|].
  cbn [flat_map map]. now rewrite uriTokens_encoded_char, IH.
Qed.

Lemma uriUnreserved_ascii (a : ascii) :
  uriUnreserved a = true -> (N_of_ascii a <? 128)%N = true.
Proof.
  destruct a as [[] [] [] [] [] [] [] []]; vm_compute; intros H;
    first [reflexivity | discriminate H].
Qed.

Lemma uriTokenOf_high (a : ascii) :
  (N_of_ascii a <? 128)%N = false -> uriTokenOf a = Esc (N_of_ascii a).
Proof.
  intros H. unfold uriTokenOf. destruct (uriUnreserved a) eqn:E; [|reflexivity].
  apply uriUnreserved_ascii in E. congruence.
Qed.

Lemma utf8Cont_high (b : N) : utf8Cont b = true -> (b <? 128)%N = false.
Proof.
  unfold utf8Cont. rewrite andb_true_iff, N.leb_le. intros [H _]. apply N.ltb_ge. lia.
Qed.

Lemma utf8Second_high (lead b : N) : utf8Second lead b = true -> (b <? 128)%N = false.
Proof.
  unfold utf8Second, utf8Cont.
  repeat case_match; rewrite andb_true_iff, !N.leb_le; intros [Hlo _]; apply N.ltb_ge; lia.
Qed.

(** Decoding the tokens of well-formed UTF-8 gives the bytes back. *)
Lemma uriDecodeTokens_encoded (n : nat) :
  forall (s : list ascii) (ts : list UriToken),
    length s <= n -> utf8Valid s = true ->
    uriDecodeTokens (map uriTokenOf s ++ ts) = app s <$> uriDecodeTokens ts.
Proof.
  induction n as [|n IH]; intros s ts Hlen Hvalid.
  { destruct s; [|cbn in Hlen; lia]. cbn. now destruct (uriDecodeTokens ts). }
  destruct s as [|a r]; [cbn; now destruct (uriDecodeTokens ts)|].
  cbn [length] in Hlen. cbn [utf8Valid] in Hvalid. cbv zeta in Hvalid.
  cbn [map app]. unfold uriTokenOf at 1.
  destruct (uriUnreserved a) eqn:Hu.
  { rewrite (uriUnreserved_ascii a Hu) in Hvalid.
    cbn [uriDecodeTokens]. rewrite IH by (assumption || lia).
    now destruct (uriDecodeTokens ts). }
  cbn [uriDecodeTokens].
  destruct (N_of_ascii a <? 128)%N eqn:Hascii.
  { rewrite IH by (assumption || lia). rewrite ascii_N_embedding.
    now destruct (uriDecodeTokens ts). }
  destruct ((194 <=? N_of_ascii a) && (N_of_ascii a <=? 223))%N.
  { destruct r as [|c r2]; [discriminate|].
    apply andb_true_iff in Hvalid as [Hc Hrest].
    cbn [map app]. rewrite (uriTokenOf_high c (utf8Cont_high _ Hc)), Hc.
    cbn [length] in Hlen. rewrite IH by (assumption || lia).
    rewrite !ascii_N_embedding. now destruct (uriDecodeTokens ts). }
  destruct ((224 <=? N_of_ascii a) && (N_of_ascii a <=? 239))%N.
  { destruct r as [|c [|d r3]]; try discriminate.
    apply andb_true_iff in Hvalid as [Hcd Hrest].
    apply andb_true_iff in Hcd as [Hc Hd].
    cbn [map app].
    rewrite (uriTokenOf_high c (utf8Second_high _ _ Hc)),
      (uriTokenOf_high d (utf8Cont_high _ Hd)), Hc, Hd.
    cbn [length andb] in *. rewrite IH by (assumption || lia).
    rewrite !ascii_N_embedding. now destruct (uriDecodeTokens ts). }
  destruct ((240 <=? N_of_ascii a) && (N_of_ascii a <=? 244))%N; [|discriminate].
  destruct r as [|c [|d [|e r4]]]; try discriminate.
  apply andb_true_iff in Hvalid as [Hcde Hrest].
  apply andb_true_iff in Hcde as [Hcd He].
  apply andb_true_iff in Hcd as [Hc Hd].
  cbn [map app].
  rewrite (uriTokenOf_high c (utf8Second_high _ _ Hc)),
    (uriTokenOf_high d (utf8Cont_high _ Hd)),
    (uriTokenOf_high e (utf8Cont_high _ He)), Hc, Hd, He.
  cbn [length andb] in *. rewrite IH by (assumption || lia).
  rewrite !ascii_N_embedding. now destruct (uriDecodeTokens ts).
Qed.

(** [decodeURIComponent(encodeURIComponent(s))] is [s], here for a text
    given in two well-formed parts. *)
Lemma decode_encodeURIComponent (s t : string) :
  utf8Valid (Js.chars s) = true -> utf8Valid (Js.chars t) = true ->
  decodeURIComponent (encodeURIComponent (s ++ t)) = Some (s ++ t).
Proof.
  intros Hs Ht. unfold decodeURIComponent, encodeURIComponent.
  rewrite chars_str, uriTokens_encoded, chars_app, map_app.
  rewrite (uriDecodeTokens_encoded (length (Js.chars s))) by (assumption || lia).
  rewrite <- (app_nil_r (map uriTokenOf (Js.chars t))).
  rewrite (uriDecodeTokens_encoded (length (Js.chars t))) by (assumption || lia).
  cbn. rewrite app_nil_r, <- chars_app. now rewrite str_chars.
Qed.

Lemma encoded_char_plain (a : ascii) :
  Forall (fun c => plainChar c = true) (if uriUnreserved a then [a] else percent a).
Proof.
  destruct a as [[] [] [] [] [] [] [] []];
    match goal with
    | |- Forall ?p ?l => let l' := eval vm_compute in l in change (Forall p l')
    end;
    repeat constructor.
Qed.

Lemma encodeURIComponent_plain (s : string) : plain (encodeURIComponent s).
Proof.
  unfold plain, encodeURIComponent. rewrite chars_str.
  induction (Js.chars s) as [|a l IH]; [constructor|].
  cbn [flat_map]. apply Forall_app_2; [apply encoded_char_plain | exact IH].
Qed.

Lemma encodeURIComponent_nonempty (s : string) : s <> "" -> encodeURIComponent s <> "".
Proof.
  destruct s as [|a s]; [contradiction|]. intros _ E.
  apply (f_equal Js.chars) in E. unfold encodeURIComponent in E.
  rewrite chars_str in E. cbn [Js.chars list_ascii_of_string flat_map] in E.
  destruct a as [[] [] [] [] [] [] [] []]; discriminate E.
Qed.

(** Text of ASCII characters is well-formed UTF-8. *)
Lemma utf8Valid_ascii (s : list ascii) :
  Forall (fun a => (N_of_ascii a <? 128)%N = true) s -> utf8Valid s = true.
Proof. induction 1 as [|a l Ha _ IH]; [reflexivity|]. cbn. now rewrite Ha. Qed.

Lemma plainChar_ascii (a : ascii) : plainChar a = true -> (N_of_ascii a <? 128)%N = true.
Proof.
  destruct a as [[] [] [] [] [] [] [] []]; vm_compute; intros H;
    first [reflexivity | discriminate H].
Qed.

Lemma plain_utf8Valid (s : string) : plain s -> utf8Valid (Js.chars s) = true.
Proof.
  intros H. apply utf8Valid_ascii. eapply Forall_impl; [exact H|]. exact plainChar_ascii.
Qed.

(** *** Splitting [data|signature] *)

Lemma lastIndexOf_without (c : ascii) (s : string) :
  Forall (fun a => a <> c) (Js.chars s) -> Js.lastIndexOf c s = None.
Proof.
  induction s as [|a s IH]; [reflexivity|]. cbn. intros H.
  inversion H as [|? ? Ha Hs]; subst. rewrite (IH Hs).
  now destruct (Ascii.eqb_spec a c).
Qed.

Lemma lastIndexOf_at (c : ascii) (s t : string) :
  Forall (fun a => a <> c) (Js.chars t) ->
  Js.lastIndexOf c (s ++ String c t) = Some (String.length s).
Proof.
  intros Ht. induction s as [|a s IH].
  - change ("" ++ String c t) with (String c t). cbn [Js.lastIndexOf String.length].
    now rewrite (lastIndexOf_without c t Ht), Ascii.eqb_refl.
  - rewrite append_cons. cbn [Js.lastIndexOf String.length]. now rewrite IH.
Qed.

Lemma substring_whole (s : string) : String.substring 0 (String.length s) s = s.
Proof. induction s as [|a s IH]; [reflexivity|]. cbn. now rewrite IH. Qed.

Lemma slice_to_at (s t : string) : Js.slice_to (String.length s) (s ++ t) = s.
Proof.
  unfold Js.slice_to. induction s as [|a s IH].
  - cbn. now destruct t.
  - rewrite append_cons. cbn. now rewrite IH.
Qed.

Lemma length_append (s t : string) :
  String.length (s ++ t) = String.length s + String.length t.
Proof. induction s as [|a s IH]; [reflexivity|]. rewrite append_cons. cbn. now rewrite IH. Qed.

Lemma slice_from_at (c : ascii) (s t : string) :
  Js.slice_from (String.length s + 1) (s ++ String c t) = t.
Proof.
  unfold Js.slice_from. rewrite length_append. cbn [String.length].
  replace (String.length s + S (String.length t) - (String.length s + 1))
    with (String.length t) by lia.
  induction s as [|a s IH].
  - cbn. apply substring_whole.
  - rewrite append_cons. cbn [String.length Nat.add String.substring]. exact IH.
Qed.

Section ApprovalProperties.

Context {P : Platform}.

Lemma plain_approved_name : plain "__Host-approved".
Proof. unfold plain. simpl. repeat constructor. Qed.

(** The browser keeps [__Host-approved=<encoded value>] of the directive. *)
Lemma cookiePair_approved (value : string) :
  cookiePair ("__Host-approved=" ++ encodeURIComponent value
              ++ "; HttpOnly; Secure; SameSite=Lax; Path=/; Max-Age=31536000")
  = "__Host-approved=" ++ encodeURIComponent value.
Proof.
  unfold cookiePair.
  change ("__Host-approved=" ++ encodeURIComponent value
          ++ "; HttpOnly; Secure; SameSite=Lax; Path=/; Max-Age=31536000")
    with ("__Host-approved=" ++ encodeURIComponent value
          ++ String ";" " HttpOnly; Secure; SameSite=Lax; Path=/; Max-Age=31536000").
  rewrite append_assoc, split_at; [reflexivity|].
  rewrite chars_app. apply Forall_app_2.
  - simpl. repeat constructor; discriminate.
  - apply plain_without, encodeURIComponent_plain.
Qed.

(** Reading back the cookie that holds [data|signature]. *)
Lemma approved_cookie_read (request : Request) (data secret : string) :
  secret <> "" ->
  utf8Valid (Js.chars data) = true ->
  cookieHeader request
  = Some ("__Host-approved="
          ++ encodeURIComponent (data ++ "|" ++ hex (sign_HMAC_SHA256 secret data))) ->
  getApprovedClientsFromCookie request secret
  = Ok (match JSON_parse data with
        | Some approved => approved
        | None => JArr []
        end).
Proof.
  intros Hsecret Hvalid Hcookie.
  set (signature := hex (sign_HMAC_SHA256 secret data)) in *.
  assert (Hsig : hexText signature) by apply hex_hexText.
  unfold getApprovedClientsFromCookie, request_cookies, truthy_cookie.
  rewrite Hcookie. cbn [from_option id].
  change ("__Host-approved=" ++ encodeURIComponent (data ++ "|" ++ signature))
    with ("__Host-approved" ++ "=" ++ encodeURIComponent (data ++ "|" ++ signature)).
  rewrite parseCookies_single;
    [| apply plain_approved_name | discriminate | discriminate
     | apply encodeURIComponent_plain].
  rewrite lookup_singleton_eq.
  assert (Hfalsy : Js.falsy (encodeURIComponent (data ++ "|" ++ signature)) = false).
  { assert (Hne : encodeURIComponent (data ++ "|" ++ signature) <> "")
      by (apply encodeURIComponent_nonempty; now destruct data).
    now destruct (encodeURIComponent (data ++ "|" ++ signature)). }
  rewrite Hfalsy.
  rewrite decode_encodeURIComponent;
    [| assumption | apply (plain_utf8Valid ("|" ++ signature))].
  2:{ unfold plain. cbn. constructor; [reflexivity | apply hexText_plain, Hsig]. }
  cbn [orRaise Result_bind].
  change (data ++ "|" ++ signature) with (data ++ String "|" signature).
  assert (Hbar : Forall (fun a => a <> "|"%char) (Js.chars signature)).
  { eapply Forall_impl; [exact Hsig|]. intros a Ha ->. discriminate Ha. }
  rewrite (lastIndexOf_at "|" data signature Hbar), slice_to_at, slice_from_at.
  unfold verifySignature, signData, importKey.
  destruct secret as [|c rest]; [contradiction|]. cbn [Js.falsy Result_bind].
  fold signature. rewrite String.eqb_refl. now destruct (JSON_parse data).
Qed.

(** The first half of C5 where the code keeps it: once [addApprovedClient]
    has signed the list with a string client id appended, a request that
    presents the cookie is approved for that client. *)
Lemma approve_then_approved (request : Request) (clientId secret : string)
    (items : list Json) :
  let approved :=
    if existsb (sameValueZero (JStr clientId)) items then items
    else (items ++ [JStr clientId])%list in
  secret <> "" ->
  getApprovedClientsFromCookie request secret = Ok (JArr items) ->
  JSON_parse (JSON_stringify (JArr approved)) = Some (JArr approved) ->
  utf8Valid (Js.chars (JSON_stringify (JArr approved))) = true ->
  exists directive,
    addApprovedClient request (JStr clientId) secret = Ok directive
    /\ forall next,
        cookieHeader next = Some (cookiePair directive) ->
        isClientApproved next (JStr clientId) secret = Ok true.
Proof.
  intros approved Hsecret Hprior Hjson Hvalid.
  unfold addApprovedClient. rewrite Hprior. cbn [Result_bind includes push].
  fold approved.
  assert (Happ : (if existsb (sameValueZero (JStr clientId)) items
                  then Ok (JArr items)
                  else Ok (JArr (items ++ [JStr clientId])))
                 = Ok (JArr approved) :> Result Json).
  { subst approved. now destruct (existsb _ items). }
  rewrite Happ. cbn [Result_bind]. unfold signData, importKey.
  destruct secret as [|c rest] eqn:Es; [contradiction|]. cbn [Js.falsy Result_bind].
  rewrite <- Es in *. eexists. split; [reflexivity|].
  intros next Hnext. rewrite cookiePair_approved in Hnext.
  unfold isClientApproved.
  rewrite (approved_cookie_read next _ secret Hsecret Hvalid Hnext), Hjson.
  cbn [Result_bind includes]. f_equal. subst approved.
  destruct (existsb (sameValueZero (JStr clientId)) items) eqn:E; [exact E|].
  rewrite existsb_app. cbn. now rewrite String.eqb_refl, orb_true_r.
Qed.

(** The second half of C5 where the code keeps it: a cookie whose
    signature is not the MAC of its data under the secret counts as no
    approvals. *)
Lemma forged_signature_not_approved (request : Request) (clientId : Json)
    (raw decoded secret : string) (pipeIdx : nat) :
  truthy_cookie (request_cookies request) "__Host-approved" = Some raw ->
  decodeURIComponent raw = Some decoded ->
  Js.lastIndexOf "|" decoded = Some pipeIdx ->
  secret <> "" ->
  hex (sign_HMAC_SHA256 secret (Js.slice_to pipeIdx decoded))
  <> Js.slice_from (pipeIdx + 1) decoded ->
  getApprovedClientsFromCookie request secret = Ok (JArr [])
  /\ isClientApproved request clientId secret = Ok false.
Proof.
  intros Hraw Hdecoded Hpipe Hsecret Hmac.
  assert (Hread : getApprovedClientsFromCookie request secret = Ok (JArr [])).
  { unfold getApprovedClientsFromCookie. rewrite Hraw, Hdecoded. cbn [orRaise Result_bind].
    rewrite Hpipe. unfold verifySignature, signData, importKey.
    destruct secret as [|c rest]; [contradiction|]. cbn [Js.falsy Result_bind].
    apply String.eqb_neq in Hmac. now rewrite Hmac. }
  split; [exact Hread|]. unfold isClientApproved. now rewrite Hread.
Qed.

(** Likewise a signed value that is not JSON, a value with no [|], and no
    cookie at all. *)
Lemma unparsable_list_not_approved (request : Request) (clientId : Json)
    (raw decoded secret : string) :
  truthy_cookie (request_cookies request) "__Host-approved" = Some raw ->
  decodeURIComponent raw = Some decoded ->
  secret <> "" ->
  match Js.lastIndexOf "|" decoded with
  | Some pipeIdx => JSON_parse (Js.slice_to pipeIdx decoded) = None
  | None => True
  end ->
  isClientApproved request clientId secret = Ok false.
Proof.
  intros Hraw Hdecoded Hsecret Hjson.
  unfold isClientApproved, getApprovedClientsFromCookie.
  rewrite Hraw, Hdecoded. cbn [orRaise Result_bind].
  destruct (Js.lastIndexOf "|" decoded) as [pipeIdx|]; [|reflexivity].
  unfold verifySignature, signData, importKey.
  destruct secret as [|c rest]; [contradiction|]. cbn [Js.falsy Result_bind].
  rewrite Hjson. now destruct (String.eqb _ _).
Qed.

Lemma no_cookie_not_approved (request : Request) (clientId : Json) (secret : string) :
  truthy_cookie (request_cookies request) "__Host-approved" = None ->
  isClientApproved request clientId secret = Ok false.
Proof.
  intros Hraw. unfold isClientApproved, getApprovedClientsFromCookie. now rewrite Hraw.
Qed.

End ApprovalProperties.

(** ** Escaping, digests and the cookie header *)

(** *** [sanitizeText] *)

Lemma replaceAll_app (c : ascii) (by_ s t : string) :
  Js.replaceAll c by_ (s ++ t) = Js.replaceAll c by_ s ++ Js.replaceAll c by_ t.
Proof.
  induction s as [|a s IH]; [reflexivity|].
  rewrite append_cons. cbn [Js.replaceAll]. rewrite IH.
  destruct (Ascii.eqb a c); [apply append_assoc | reflexivity].
Qed.

Lemma sanitizeText_app (s t : string) :
  sanitizeText (s ++ t) = sanitizeText s ++ sanitizeText t.
Proof. unfold sanitizeText. now rewrite !replaceAll_app. Qed.

Lemma sanitizeText_char (a : ascii) : sanitizeText (String a "") = htmlEscape a.
Proof. destruct a as [[] [] [] [] [] [] [] []]; reflexivity. Qed.

(** The five replacements in a row come to one pass that escapes each
    character once: an ampersand written by a later replacement is not
    escaped again, [&] being replaced first. *)
Lemma sanitizeText_cons (a : ascii) (s : string) :
  sanitizeText (String a s) = htmlEscape a ++ sanitizeText s.
Proof.
  change (String a s) with (String a "" ++ s).
  now rewrite sanitizeText_app, sanitizeText_char.
Qed.

Lemma htmlEscape_escaped (a : ascii) : escaped (htmlEscape a).
Proof.
  unfold escaped.
  destruct a as [[] [] [] [] [] [] [] []];
    match goal with
    | |- Forall ?p ?l => let l' := eval vm_compute in l in change (Forall p l')
    end; repeat constructor.
Qed.

Lemma htmlEscape_safe (a : ascii) :
  markup a = false -> a <> "&"%char -> htmlEscape a = String a "".
Proof.
  destruct a as [[] [] [] [] [] [] [] []]; vm_compute; intros Hm Ha;
    first [reflexivity | discriminate Hm | now contradiction Ha].
Qed.

Lemma htmlUnescapeHead_escape (a : ascii) (s : string) :
  htmlUnescapeHead (htmlEscape a ++ s) = Some (a, s).
Proof. destruct a as [[] [] [] [] [] [] [] []]; reflexivity. Qed.

Lemma sanitizeText_escaped (text : string) : escaped (sanitizeText text).
Proof.
  unfold escaped. induction text as [|a s IH]; [constructor|].
  rewrite sanitizeText_cons, chars_app.
  apply Forall_app_2; [apply htmlEscape_escaped | exact IH].
Qed.

(** X4: whatever the text, the output of [sanitizeText] holds none of
    [<], [>], the double quote and the single quote; and a text that holds
    none of them and no [&] comes out unchanged. *)
Theorem sanitizeText_escapes_markup (text : string) :
  escaped (sanitizeText text)
  /\ (escaped text -> without "&" text -> sanitizeText text = text).
Proof.
  split; [apply sanitizeText_escaped|].
  unfold escaped, without. induction text as [|a s IH]; [reflexivity|].
  cbn [Js.chars list_ascii_of_string]. intros Hm Ha.
  inversion Hm as [|? ? Hm1 Hm2]; inversion Ha as [|? ? Ha1 Ha2]; subst.
  rewrite sanitizeText_cons, (htmlEscape_safe a Hm1 Ha1), (IH Hm2 Ha2). reflexivity.
Qed.

Lemma sanitizeText_inj (s t : string) : sanitizeText s = sanitizeText t -> s = t.
Proof.
  revert t. induction s as [|a s IH]; intros [|b t] H.
  - reflexivity.
  - rewrite sanitizeText_cons in H. apply (f_equal htmlUnescapeHead) in H.
    rewrite htmlUnescapeHead_escape in H. discriminate H.
  - rewrite sanitizeText_cons in H. apply (f_equal htmlUnescapeHead) in H.
    rewrite htmlUnescapeHead_escape in H. discriminate H.
  - rewrite !sanitizeText_cons in H. apply (f_equal htmlUnescapeHead) in H.
    rewrite !htmlUnescapeHead_escape in H. injection H as -> H. f_equal. now apply IH.
Qed.

(** X5: [sanitizeText] loses nothing: two different texts have different
    outputs, so that a text that already holds an entity is not shown as
    the character the entity stands for. *)
Theorem sanitizeText_keeps_texts_apart (s t : string) :
  s <> t -> sanitizeText s <> sanitizeText t.
Proof. intros Hne Heq. apply Hne. now apply sanitizeText_inj. Qed.

(** *** Hexadecimal digests *)

Lemma hex_length (bytes : list byte) : String.length (hex bytes) = 2 * length bytes.
Proof.
  induction bytes as [|b bytes IH]; [reflexivity|].
  rewrite hex_cons, length_append, IH.
  destruct (byte_two_digits b) as (d1 & d2 & -> & _). cbn [String.length length]. lia.
Qed.

Section DigestProperties.

Context {P : Platform}.

(** X2: [sha256] returns sixty-four lower-case hexadecimal digits, and
    two inputs get the same text only when their digests are the same
    bytes. *)
Theorem sha256_is_hex_of_digest (data other : string) :
  String.length (sha256 data) = 64
  /\ hexText (sha256 data)
  /\ (sha256 data = sha256 other <-> digest_SHA256 data = digest_SHA256 other).
Proof.
  split; [|split].
  - unfold sha256. rewrite hex_length, digest_SHA256_length. reflexivity.
  - apply hex_hexText.
  - split; [apply hex_injective | intros H; unfold sha256; now rewrite H].
Qed.

(** X3: a signature that [verifySignature] accepts for some data is the
    one [signData] makes for it, and it is accepted for other data only
    when the two have the same MAC under the secret. *)
Theorem signature_names_one_mac (data other signature secret : string) :
  verifySignature data signature secret = Ok true ->
  signData data secret = Ok signature
  /\ (verifySignature other signature secret = Ok true
      <-> sign_HMAC_SHA256 secret other = sign_HMAC_SHA256 secret data).
Proof.
  unfold verifySignature, signData, importKey.
  destruct (Js.falsy secret); cbn [Result_bind]; [discriminate|].
  intros H. injection H as H. apply String.eqb_eq in H. subst signature.
  split; [reflexivity|]. split.
  - intros H. injection H as H. apply String.eqb_eq in H. now apply hex_injective.
  - intros ->. now rewrite String.eqb_refl.
Qed.

End DigestProperties.

(** *** [parseCookies] on a header of several pairs *)

Lemma split_nonempty (sep : ascii) (s : string) : Js.split sep s <> [].
Proof.
  destruct s as [|a s]; cbn; [discriminate|].
  destruct (Ascii.eqb a sep); [discriminate|]. now destruct (Js.split sep s).
Qed.

Lemma split_app (sep : ascii) (s t : string) :
  Js.split sep (s ++ String sep t) = (Js.split sep s ++ Js.split sep t)%list.
Proof.
  induction s as [|a s IH].
  - change ("" ++ String sep t) with (String sep t). cbn [Js.split app].
    now rewrite Ascii.eqb_refl.
  - rewrite append_cons. cbn [Js.split]. rewrite IH.
    destruct (Ascii.eqb a sep); [reflexivity|].
    pose proof (split_nonempty sep s) as Hne.
    destruct (Js.split sep s) as [|h tl]; [contradiction | reflexivity].
Qed.

(** [s.split(sep).join(sep)] is [s]. *)
Lemma join_split (sep : ascii) (s : string) :
  Js.join (String sep "") (Js.split sep s) = s.
Proof.
  unfold Js.join. induction s as [|a s IH]; [reflexivity|].
  cbn [Js.split]. pose proof (split_nonempty sep s) as Hs.
  destruct (Js.split sep s) as [|h tl]; [contradiction|].
  destruct (Ascii.eqb_spec a sep) as [->|Hne].
  - change (String.concat (String sep "") ("" :: h :: tl))
      with (String sep (String.concat (String sep "") (h :: tl))).
    now rewrite IH.
  - destruct tl as [|h2 tl].
    + cbn [String.concat] in *. now rewrite IH.
    + change (String.concat (String sep "") (String a h :: h2 :: tl))
        with (String a (String.concat (String sep "") (h :: h2 :: tl))).
      now rewrite IH.
Qed.

Lemma trim_space (s : string) : Js.trim (String " " s) = Js.trim s.
Proof. reflexivity. Qed.

Lemma pair_solid (name value : string) :
  plain name -> name <> "" -> solidEnds value -> solidEnds (name ++ "=" ++ value).
Proof.
  intros Hn Hne [_ Hv]. unfold solidEnds. rewrite !chars_app. split.
  - destruct name as [|a name]; [contradiction|]. simpl.
    inversion Hn; subst. now apply plainChar_solid.
  - rewrite !rev_app_distr. simpl.
    fold (Js.chars value).
    destruct (rev (Js.chars value)) as [|b r]; simpl; [reflexivity|]. exact Hv.
Qed.

(** One pair [name=value]; the value may hold [=] signs. *)
Lemma parseCookies_step_pair (cookies : gmap string string) (name value : string) :
  plain name -> name <> "" -> name <> "__proto__" -> solidEnds value ->
  parseCookies_step cookies (name ++ "=" ++ value) = <[ name := value ]> cookies.
Proof.
  intros Hn Hne Hproto Hv.
  destruct (plain_without name Hn) as [_ Hn2].
  unfold parseCookies_step.
  rewrite (trim_solidEnds _ (pair_solid name value Hn Hne Hv)).
  change (name ++ "=" ++ value) with (name ++ String "=" value).
  rewrite (split_at "=" name value Hn2).
  destruct name as [|a name]; [contradiction|]. cbn [Js.falsy].
  rewrite (trim_solidEnds _ (plain_solidEnds _ Hn)).
  destruct (String.eqb_spec (String a name) "__proto__") as [E|_]; [contradiction|].
  now rewrite join_split, (trim_solidEnds _ Hv).
Qed.

(** The loop takes the pairs of the header one after the other. *)
Lemma parseCookies_app (header pair : string) :
  without ";" pair ->
  parseCookies (header ++ ";" ++ pair) = parseCookies_step (parseCookies header) pair.
Proof.
  intros Hp. unfold parseCookies.
  change (header ++ ";" ++ pair) with (header ++ String ";" pair).
  rewrite split_app, fold_left_app, (split_without ";" pair Hp). reflexivity.
Qed.

Lemma parseCookies_append_pair (header name value : string) :
  plain name -> name <> "" -> name <> "__proto__" ->
  without ";" value -> solidEnds value ->
  parseCookies (header ++ "; " ++ name ++ "=" ++ value)
  = <[ name := value ]> (parseCookies header).
Proof.
  intros Hn Hne Hproto Hsemi Hv.
  change (header ++ "; " ++ name ++ "=" ++ value)
    with (header ++ ";" ++ String " " (name ++ "=" ++ value)).
  rewrite parseCookies_app.
  - unfold parseCookies_step at 1. rewrite trim_space.
    exact (parseCookies_step_pair (parseCookies header) name value Hn Hne Hproto Hv).
  - unfold without. cbn [Js.chars list_ascii_of_string]. constructor; [discriminate|].
    fold (Js.chars (name ++ "=" ++ value)). rewrite !chars_app.
    apply Forall_app_2; [apply plain_without, Hn|].
    apply Forall_app_2; [repeat constructor; discriminate | exact Hsemi].
Qed.

(** X1: a pair [name=value] written after a header, whatever the header
    holds, gives its value to the name (the last pair of a name wins, and a
    value keeps its [=] signs) and leaves every other cookie as the header
    alone gives it. *)
Theorem parseCookies_last_pair_wins (header name value : string) :
  plain name -> name <> "" -> name <> "__proto__" ->
  without ";" value -> solidEnds value ->
  parseCookies (header ++ "; " ++ name ++ "=" ++ value) !! name = Some value
  /\ forall other,
      other <> name ->
      parseCookies (header ++ "; " ++ name ++ "=" ++ value) !! other
      = parseCookies header !! other.
Proof.
  intros Hn Hne Hproto Hsemi Hv.
  rewrite (parseCookies_append_pair header name value Hn Hne Hproto Hsemi Hv). split.
  - apply lookup_insert_eq.
  - intros other Hother. now apply lookup_insert_ne.
Qed.

(** *** The authorize URL and the callback URL *)

Lemma formUrlEncode_char (a : ascii) :
  Forall (fun c => formUrlChar c = true)
    (if formUrlSafe a then [a] else if Ascii.eqb a " " then ["+"%char] else percent a).
Proof.
  destruct a as [[] [] [] [] [] [] [] []];
    match goal with
    | |- Forall ?p ?l => let l' := eval vm_compute in l in change (Forall p l')
    end;
    repeat constructor.
Qed.

Lemma formUrlEncode_chars (s : string) :
  Forall (fun c => formUrlChar c = true) (Js.chars (formUrlEncode s)).
Proof.
  unfold formUrlEncode. rewrite chars_str.
  induction (Js.chars s) as [|a l IH]; [constructor|].
  cbn [flat_map]. apply Forall_app_2; [apply formUrlEncode_char | exact IH].
Qed.

Lemma formUrlChar_neq (a : ascii) :
  formUrlChar a = true -> a <> "&"%char /\ a <> "="%char.
Proof.
  destruct a as [[] [] [] [] [] [] [] []]; vm_compute; intros H;
    first [discriminate H | split; discriminate].
Qed.

Lemma formUrlEncode_without_amp (s : string) : without "&" (formUrlEncode s).
Proof.
  eapply Forall_impl; [apply formUrlEncode_chars|].
  intros a Ha. now apply formUrlChar_neq in Ha.
Qed.

Lemma without_app (c : ascii) (s t : string) :
  without c s -> without c t -> without c (s ++ t).
Proof. unfold without. rewrite chars_app. apply Forall_app_2. Qed.

Ltac literal_without := unfold without; cbn; repeat constructor; discriminate.

(** X8: whatever the channel id, the redirect URI and the state hold, the
    authorize URL has the five query parameters of the source and no
    other: cut at [&], it gives the endpoint with [response_type=code] and
    then [client_id], [redirect_uri], [state] and [scope], each value
    written with letters, digits, [* - . _ + %] only. *)
Theorem authorize_url_parameters (channelId redirectUri state : string) :
  Js.split "&" (getLineAuthorizeUrl channelId redirectUri state)
  = ["https://access.line.me/oauth2/v2.1/authorize?response_type=code";
     "client_id=" ++ formUrlEncode channelId;
     "redirect_uri=" ++ formUrlEncode redirectUri;
     "state=" ++ formUrlEncode state;
     "scope=profile+openid"]
  /\ Forall (fun c => formUrlChar c = true)
       (Js.chars (formUrlEncode channelId ++ formUrlEncode redirectUri
                  ++ formUrlEncode state)).
Proof.
  split.
  2:{ rewrite !chars_app. repeat apply Forall_app_2; apply formUrlEncode_chars. }
  unfold getLineAuthorizeUrl.
  change ("https://access.line.me/oauth2/v2.1/authorize" ++ "?response_type=code"
          ++ "&client_id=" ++ formUrlEncode channelId
          ++ "&redirect_uri=" ++ formUrlEncode redirectUri
          ++ "&state=" ++ formUrlEncode state ++ "&scope=" ++ formUrlEncode "profile openid")
    with ("https://access.line.me/oauth2/v2.1/authorize?response_type=code"
          ++ String "&" ("client_id=" ++ formUrlEncode channelId
          ++ String "&" ("redirect_uri=" ++ formUrlEncode redirectUri
          ++ String "&" ("state=" ++ formUrlEncode state
          ++ String "&" "scope=profile+openid")))).
  rewrite split_at by literal_without.
  rewrite (append_assoc "client_id="), split_at
    by (apply without_app; [literal_without | apply formUrlEncode_without_amp]).
  rewrite (append_assoc "redirect_uri="), split_at
    by (apply without_app; [literal_without | apply formUrlEncode_without_amp]).
  rewrite (append_assoc "state="), split_at
    by (apply without_app; [literal_without | apply formUrlEncode_without_amp]).
  reflexivity.
Qed.

(** X9: two requests to the same host and port that is not local have
    the same callback URL, an https one, whatever scheme, path and query
    each arrived with: the redirect URI sent to LINE from [/authorize] is
    the one sent again from [/callback] behind a proxy that ends TLS. *)
Theorem callback_url_is_https_behind_proxy (first second : Request) :
  hostname (url first) = hostname (url second) ->
  port (url first) = port (url second) ->
  hostname (url first) <> "localhost" ->
  hostname (url first) <> "127.0.0.1" ->
  getCallbackUrl first = getCallbackUrl second
  /\ exists authority, getCallbackUrl first = "https://" ++ authority ++ "/callback".
Proof.
  intros Hhost Hport Hlocal Hloop. unfold getCallbackUrl. cbv zeta.
  rewrite <- Hhost, <- Hport.
  apply String.eqb_neq in Hlocal. apply String.eqb_neq in Hloop.
  rewrite Hlocal, Hloop. cbn [orb]. split; [reflexivity|].
  eexists. rewrite (append_assoc (hostname _)). reflexivity.
Qed.

(** *** The CSRF token *)

Lemma uuidChar_plain (a : ascii) : uuidChar a = true -> plainChar a = true.
Proof.
  destruct a as [[] [] [] [] [] [] [] []]; vm_compute; intros H;
    first [reflexivity | discriminate H].
Qed.

Lemma uuidText_plain (s : string) : uuidText s -> plain s.
Proof. intros H. eapply Forall_impl; [exact H | exact uuidChar_plain]. Qed.

Section CsrfProperties.

Context {P : Platform}.

Lemma generateCSRFProtection_run (w : World) :
  let token := uuidFormat (uuidBytes (random w (randomCalls w))) in
  generateCSRFProtection w
  = (Ok (token, "__Host-csrf=" ++ token ++ "; HttpOnly; Secure; SameSite=Strict; Path=/"),
     {| kv := kv w; now := now w; random := random w; randomCalls := S (randomCalls w);
        trace := trace w |}).
Proof. reflexivity. Qed.

(** The browser keeps [__Host-csrf=<token>] of the directive. *)
Lemma cookiePair_csrf (token : string) :
  plain token ->
  cookiePair ("__Host-csrf=" ++ token ++ "; HttpOnly; Secure; SameSite=Strict; Path=/")
  = "__Host-csrf=" ++ token.
Proof.
  intros Ht. unfold cookiePair.
  change ("__Host-csrf=" ++ token ++ "; HttpOnly; Secure; SameSite=Strict; Path=/")
    with ("__Host-csrf=" ++ token ++ String ";" " HttpOnly; Secure; SameSite=Strict; Path=/").
  rewrite append_assoc, split_at; [reflexivity|].
  rewrite chars_app. apply Forall_app_2.
  - simpl. repeat constructor; discriminate.
  - apply plain_without, Ht.
Qed.

Lemma plain_csrf_name : plain "__Host-csrf".
Proof. unfold plain. simpl. repeat constructor. Qed.

Lemma csrf_cookie_read (request : Request) (token : string) :
  plain token ->
  cookieHeader request
  = Some (cookiePair ("__Host-csrf=" ++ token
                      ++ "; HttpOnly; Secure; SameSite=Strict; Path=/")) ->
  request_cookies request = {[ "__Host-csrf" := token ]}.
Proof.
  intros Ht H. unfold request_cookies. rewrite H. cbn [from_option id].
  rewrite (cookiePair_csrf _ Ht).
  change ("__Host-csrf=" ++ token) with ("__Host-csrf" ++ "=" ++ token).
  apply parseCookies_single; try discriminate; try assumption. apply plain_csrf_name.
Qed.

(** X7: with the cookie of [generateCSRFProtection] sent back by the
    browser, [validateCSRFToken] accepts a form exactly when its
    [csrf_token] field is the token that was generated with the cookie. *)
Theorem csrf_token_round_trip (request : Request) (formData : FormData)
    (submitted token setCookie : string) (w : World) :
  fst (generateCSRFProtection w) = Ok (token, setCookie) ->
  cookieHeader request = Some (cookiePair setCookie) ->
  formData_get "csrf_token" formData = Some (FormString submitted) ->
  (validateCSRFToken formData request = Ok tt <-> submitted = token).
Proof.
  rewrite generateCSRFProtection_run. cbn [fst]. intros Hgen Hcookie Hform.
  injection Hgen as <- <-.
  set (token := uuidFormat (uuidBytes (random w (randomCalls w)))) in *.
  assert (Hplain : plain token) by apply uuidText_plain, uuidFormat_uuidText.
  assert (Hne : token <> "") by apply uuidFormat_nonempty.
  pose proof (csrf_cookie_read request token Hplain Hcookie) as Hread.
  unfold validateCSRFToken, truthy_cookie. rewrite Hform, Hread, lookup_singleton_eq.
  destruct submitted as [|c rest]; cbn [Js.falsy].
  { split; [discriminate | intros E; now rewrite <- E in Hne]. }
  destruct token as [|t ts] eqn:Et; [contradiction|]. cbn [Js.falsy].
  destruct (String.eqb_spec (String t ts) (String c rest)) as [E|E].
  - split; [intros _; now symmetry | reflexivity].
  - split; [discriminate | intros E'; now symmetry in E'].
Qed.

End CsrfProperties.

(** ** Where the consent form and the consent page go wrong *)

Lemma append_longer (s t : string) : t <> "" -> s ++ t <> s.
Proof.
  intros Ht E. apply (f_equal String.length) in E. rewrite length_append in E.
  destruct t; [contradiction|]. cbn [String.length] in E. lia.
Qed.

Section ConsentProperties.

Context {P : Platform} (env : Env).

(** The CSRF check with the same non-empty token in the form and in the
    cookie. *)
Lemma validateCSRFToken_match (formData : FormData) (request : Request) (token : string) :
  formData_get "csrf_token" formData = Some (FormString token) ->
  token <> "" ->
  request_cookies request !! "__Host-csrf" = Some token ->
  validateCSRFToken formData request = Ok tt.
Proof.
  intros Hform Hne Hcookie. unfold validateCSRFToken, truthy_cookie.
  rewrite Hform, Hcookie. destruct token; [contradiction|]. cbn [Js.falsy].
  now rewrite String.eqb_refl.
Qed.

(** The directive [addApprovedClient] returns names the approval cookie. *)
Lemma addApprovedClient_directive (request : Request) (clientId : Json)
    (secret directive : string) :
  addApprovedClient request clientId secret = Ok directive ->
  exists rest, directive = String "_" (String "_" (String "H" (String "o" (String "s"
                 (String "t" (String "-" (String "a" rest))))))).
Proof.
  unfold addApprovedClient.
  destruct (getApprovedClientsFromCookie request secret) as [approved|]; [|discriminate].
  cbn [Result_bind].
  destruct (includes approved clientId) as [present|]; [|discriminate]. cbn [Result_bind].
  destruct (if present then Ok approved else push approved clientId) as [list|];
    [|discriminate].
  cbn [Result_bind]. destruct (signData _ secret) as [signature|]; [|discriminate].
  cbn [Result_bind]. intros H. injection H as <-. eexists. reflexivity.
Qed.

Lemma bindStateToSession_directive (stateToken : string) :
  exists rest, bindStateToSession stateToken
               = String "_" (String "_" (String "H" (String "o" (String "s"
                   (String "t" (String "-" (String "s" rest))))))).
Proof. eexists. reflexivity. Qed.

(** C7, at the failing input and at every request like it: a
    [POST /authorize] whose form and cookie hold the same CSRF token and
    whose [state] field decodes to a pending authorization with a client
    id. When [addApprovedClient] returns the approval cookie, the answer is
    the 302 to the LINE authorize URL with the fresh state token, under
    which the pending authorization is stored, but it has one [Set-Cookie]
    header, not the two the handler appended: [Object.fromEntries] keeps
    one [set-cookie] key, so the header is the session cookie alone, or
    the two directives glued by a comma where the platform joins them, and
    the approval cookie is not among the [Set-Cookie] headers. When
    [addApprovedClient] throws (an approval cookie that does not
    percent-decode), the answer is a 500 and nothing is stored. *)
Theorem consent_post_sends_one_cookie (request : Request) (formData : FormData)
    (token encodedState text : string) (state oauthReqInfo clientId : Json) (w : World) :
  body request = Some formData ->
  formData_get "csrf_token" formData = Some (FormString token) ->
  token <> "" ->
  request_cookies request !! "__Host-csrf" = Some token ->
  formData_get "state" formData = Some (FormString encodedState) ->
  encodedState <> "" ->
  atob encodedState = Some text ->
  JSON_parse text = Some state ->
  get state "oauthReqInfo" = Ok (Some oauthReqInfo) ->
  truthy (Some oauthReqInfo) = true ->
  get oauthReqInfo "clientId" = Ok (Some clientId) ->
  truthy (Some clientId) = true ->
  let stateToken := uuidFormat (uuidBytes (random w (randomCalls w))) in
  match addApprovedClient request clientId (COOKIE_ENCRYPTION_KEY env) with
  | Ok approvedClientCookie =>
      exists response,
        fst (post_authorize env request w) = Ok response
        /\ status response = 302%Z
        /\ location response
           = Some ("https://access.line.me/oauth2/v2.1/authorize?response_type=code&client_id="
                   ++ formUrlEncode (LINE_CHANNEL_ID env)
                   ++ "&redirect_uri=" ++ formUrlEncode (getCallbackUrl request)
                   ++ "&state=" ++ stateToken ++ "&scope=profile+openid")
        /\ kv (snd (post_authorize env request w)) !! ("oauth_state:" ++ stateToken)
           = Some (JSON_stringify oauthReqInfo, (now w + 600)%Z)
        /\ getSetCookie response
           = [if headers_getsetcookie then bindStateToSession stateToken
              else approvedClientCookie ++ ", " ++ bindStateToSession stateToken]
        /\ ~ In approvedClientCookie (getSetCookie response)
  | Throw e =>
      exists message,
        post_authorize env request w
        = (Ok (text_response ("Internal server error: " ++ message) 500), w)
  end.
Proof.
  intros Hbody Hform Htoken Hcookie Hstate Hne Hatob Hjson Hinfo Tinfo Hclient Tclient
    stateToken.
  pose proof (validateCSRFToken_match formData request token Hform Htoken Hcookie) as Hcsrf.
  pose proof (addApprovedClient_raised request clientId (COOKIE_ENCRYPTION_KEY env)) as Hraised.
  destruct encodedState as [|c rest]; [contradiction|].
  destruct (addApprovedClient request clientId (COOKIE_ENCRYPTION_KEY env))
    as [approvedClientCookie|[statusCode message|e]] eqn:Happroved; [| contradiction |].
  - destruct (addApprovedClient_directive _ _ _ _ Happroved) as (tail & Hshape).
    destruct (bindStateToSession_directive stateToken) as (tail' & Hsession).
    unfold post_authorize, try_catch, bind, lift.
    rewrite Hbody. cbn. rewrite Hcsrf, Hstate. cbn.
    rewrite Hatob. cbn. rewrite Hjson, Hinfo. cbn.
    unfold truthy_value. rewrite Tinfo, Hclient. cbn. rewrite Tclient, Happroved.
    clear Tinfo Tclient.
    run. fold stateToken. rewrite fromEntries_two_cookies.
    eexists. split; [reflexivity|].
    unfold redirectToLine, location, getSetCookie. cbn.
    split; [reflexivity|]. split.
    { subst stateToken. now rewrite getLineAuthorizeUrl_state. }
    split; [apply lookup_insert_eq|]. split; [reflexivity|].
    intros [E|[]]. destruct headers_getsetcookie.
    + rewrite Hsession, Hshape in E. discriminate E.
    + revert E. apply append_longer. discriminate.
  - exists (error_message e).
    unfold post_authorize, try_catch, bind, lift.
    rewrite Hbody. cbn. rewrite Hcsrf, Hstate. cbn.
    rewrite Hatob. cbn. rewrite Hjson, Hinfo. cbn.
    unfold truthy_value. rewrite Tinfo, Hclient. cbn. rewrite Tclient, Happroved.
    reflexivity.
Qed.

(** C8, at the failing inputs: [GET /authorize] for a request with a
    client id, where the claim has the consent page. With the cookie
    [__Host-approved=%] the handler throws [URIError] out of
    [isClientApproved], before either branch. With no cookie at all, so
    that the client is not approved, and the client looked up, it throws
    [InvalidCharacterError] when [btoa] refuses the serialized request (a
    character above U+00FF in it, the client id for one). The handler has
    no [try]: no response is returned, and nothing has been stored. *)
Theorem authorize_throws_instead_of_consent (request : Request)
    (oauthReqInfo clientId : Json) (client : option ClientInfo) (w : World) :
  parseAuthRequest env request = Ok oauthReqInfo ->
  get oauthReqInfo "clientId" = Ok (Some clientId) ->
  truthy (Some clientId) = true ->
  (cookieHeader request = Some "__Host-approved=%" ->
   get_authorize env request w = (Throw (Raised URIError), w))
  /\ (cookieHeader request = None ->
      lookupClient env clientId = Ok client ->
      btoa (JSON_stringify (JObj [("oauthReqInfo", oauthReqInfo)])) = None ->
      fst (get_authorize env request w) = Throw (Raised InvalidCharacterError)
      /\ kv (snd (get_authorize env request w)) = kv w
      /\ trace (snd (get_authorize env request w)) = trace w).
Proof.
  intros Hparse Hclient Htruthy. split.
  - intros Hcookie. unfold get_authorize, bind, lift.
    rewrite Hparse, Hclient. cbn. unfold truthy_value. rewrite Htruthy.
    unfold isClientApproved, getApprovedClientsFromCookie, request_cookies.
    rewrite Hcookie. reflexivity.
  - intros Hcookie Hlookup Hbtoa. unfold get_authorize, bind, lift.
    rewrite Hparse, Hclient. cbn. unfold truthy_value. rewrite Htruthy.
    unfold isClientApproved, getApprovedClientsFromCookie, request_cookies.
    rewrite Hcookie. cbn. run. rewrite Hlookup.
    unfold renderApprovalDialog. rewrite Hbtoa. repeat split.
Qed.

End ConsentProperties.

(** ** The handlers on every request *)

Section HandlerProperties.

Context {P : Platform}.

Context (env : Env).

(** *** [POST /authorize] *)

Lemma post_authorize_cases (request : Request) (w : World) :
  post_outcome w (post_authorize env request w).
Proof.
  unfold post_authorize, try_catch, bind, lift.
  destruct (body request) as [formData|]; cbn; [|unfold post_outcome; cbn; auto 6].
  destruct (validateCSRFToken formData request) as [[]|e] eqn:Hcsrf; cbn.
  2:{ apply validateCSRFToken_status in Hcsrf as [-> | ->]; unfold post_outcome; cbn; auto 6. }
  destruct (formData_get "state" formData) as [[encodedState|]|];
    [|unfold post_outcome; cbn; auto 6 ..].
  destruct (Js.falsy encodedState); [unfold post_outcome; cbn; auto 6|].
  destruct (atob encodedState ≫= JSON_parse) as [state|]; [|unfold post_outcome; cbn; auto 6].
  pose proof (get_raised state "oauthReqInfo") as Hget.
  destruct (get state "oauthReqInfo") as [oauthReqInfo|[s m|e]]; cbn;
    [|contradiction|unfold post_outcome; cbn; auto 6].
  destruct (truthy_value oauthReqInfo) as [info|]; [|unfold post_outcome; cbn; auto 6].
  pose proof (get_raised info "clientId") as Hget2.
  destruct (get info "clientId") as [clientId|[s m|e]]; cbn;
    [|contradiction|unfold post_outcome; cbn; auto 6].
  destruct (truthy_value clientId) as [cid|]; [|unfold post_outcome; cbn; auto 6].
  pose proof (addApprovedClient_raised request cid (COOKIE_ENCRYPTION_KEY env)) as Hadd.
  destruct (addApprovedClient request cid (COOKIE_ENCRYPTION_KEY env)) as [c|[s m|e]]; cbn;
    [|contradiction|unfold post_outcome; cbn; auto 6].
  unfold post_outcome. cbn. split; [auto|]. intros H. now contradiction H.
Qed.

(** X10: [POST /authorize] answers every request: nothing that is thrown
    under its [try] leaves it, and the status of the answer is 302, 400,
    403 or 500. *)
Theorem post_authorize_always_answers (request : Request) (w : World) :
  exists response,
    fst (post_authorize env request w) = Ok response
    /\ (status response = 302%Z \/ status response = 400%Z
        \/ status response = 403%Z \/ status response = 500%Z).
Proof.
  pose proof (post_authorize_cases request w) as H. unfold post_outcome in H.
  destruct (fst (post_authorize env request w)) as [response|]; [|contradiction].
  exists response. split; [reflexivity | apply H].
Qed.

(** X11: a [POST /authorize] that is answered by anything but the 302
    has changed nothing: no state is stored, no UUID drawn, nothing called. *)
Theorem post_authorize_refusal_changes_nothing (request : Request) (w : World)
    (response : Response) :
  fst (post_authorize env request w) = Ok response ->
  status response <> 302%Z ->
  snd (post_authorize env request w) = w.
Proof.
  pose proof (post_authorize_cases request w) as H. unfold post_outcome in H.
  intros Hr Hs. rewrite Hr in H. now apply H.
Qed.

(** *** [GET /authorize] *)

(** X12: [GET /authorize] either answers with the 302 to LINE, having
    written one record to the store, or leaves the store and the trace as
    they were; in the second case an answer is the 200 consent page or the
    400, and an exception may leave the handler, which has no [try]. *)
Theorem get_authorize_writes_only_to_redirect (request : Request) (w : World) :
  let out := get_authorize env request w in
  (exists response key value,
      fst out = Ok response /\ status response = 302%Z
      /\ kv (snd out) = <[ key := value ]> (kv w))
  \/ (kv (snd out) = kv w /\ trace (snd out) = trace w
      /\ match fst out with
         | Ok response => status response = 200%Z \/ status response = 400%Z
         | Throw _ => True
         end).
Proof.
  cbv zeta. unfold get_authorize, bind, lift.
  destruct (parseAuthRequest env request) as [oauthReqInfo|e]; cbn; [|right; auto].
  destruct (get oauthReqInfo "clientId") as [clientId|e]; cbn; [|right; auto].
  destruct (truthy_value clientId) as [cid|]; cbn; [|right; auto].
  destruct (isClientApproved request cid (COOKIE_ENCRYPTION_KEY env)) as [[|]|e]; cbn;
    [| |right; auto].
  - left. run. eexists _, _, _. repeat split.
  - right. run. destruct (lookupClient env cid) as [client|e]; cbn; [|auto].
    unfold renderApprovalDialog.
    destruct (btoa _); cbn; auto.
Qed.

(** X6: the consent page [renderApprovalDialog] returns is a 200 that
    sets the one cookie it was given, and the three texts it shows (server
    name, description, client name) hold no [<], [>] or quote; with no
    client record the name shown is "Unknown Client". *)
Theorem approval_dialog_is_escaped (client : option ClientInfo) (csrfToken : string)
    (server : ServerInfo) (setCookie : string) (oauthReqInfo : Json) (response : Response) :
  renderApprovalDialog client csrfToken server setCookie oauthReqInfo = Ok response ->
  status response = 200%Z
  /\ getSetCookie response = [setCookie]
  /\ exists page,
      content response = Html page
      /\ escaped (dialog_name page)
      /\ escaped (dialog_description page)
      /\ escaped (dialog_client page)
      /\ (client = None -> dialog_client page = "Unknown Client").
Proof.
  unfold renderApprovalDialog. destruct (btoa _); cbn; [|discriminate].
  intros H. injection H as <-. cbn. split; [reflexivity|]. split; [reflexivity|].
  eexists. split; [reflexivity|]. cbn.
  repeat split; try apply sanitizeText_escaped.
  intros ->. reflexivity.
Qed.

(** *** From the consent page to the consent form *)

Lemma get_Some_object (v : Json) (key : string) (x : Json) :
  get v key = Ok (Some x) -> truthy (Some v) = true.
Proof. destruct v; cbn; try discriminate; reflexivity. Qed.

(** The consent page of [GET /authorize] for a client that is not approved. *)
Lemma get_authorize_dialog (request : Request) (oauthReqInfo clientId : Json)
    (client : option ClientInfo) (encodedState : string) (w : World) :
  parseAuthRequest env request = Ok oauthReqInfo ->
  get oauthReqInfo "clientId" = Ok (Some clientId) ->
  truthy (Some clientId) = true ->
  isClientApproved request clientId (COOKIE_ENCRYPTION_KEY env) = Ok false ->
  lookupClient env clientId = Ok client ->
  btoa (JSON_stringify (JObj [("oauthReqInfo", oauthReqInfo)])) = Some encodedState ->
  let fresh := uuidFormat (uuidBytes (random w (randomCalls w))) in
  exists page,
    fst (get_authorize env request w)
    = Ok {| status := 200;
            headers := [("content-type", "text/html; charset=utf-8");
                        ("set-cookie",
                         "__Host-csrf=" ++ fresh
                         ++ "; HttpOnly; Secure; SameSite=Strict; Path=/")];
            content := Html page |}
    /\ dialog_csrf_token page = fresh
    /\ dialog_state page = encodedState.
Proof.
  intros Hparse Hclient Htruthy Happroved Hlookup Hbtoa fresh.
  unfold get_authorize, bind, lift.
  rewrite Hparse, Hclient. cbn. unfold truthy_value.
  rewrite Htruthy, Happroved. clear Htruthy.
  run. fold fresh. rewrite Hlookup.
  unfold renderApprovalDialog. rewrite Hbtoa. cbn.
  eexists. split; [reflexivity|]. split; reflexivity.
Qed.

(** [addApprovedClient] for a browser that sends no approval cookie. *)
Lemma addApprovedClient_first (request : Request) (clientId : Json) (secret : string) :
  truthy_cookie (request_cookies request) "__Host-approved" = None ->
  secret <> "" ->
  exists directive, addApprovedClient request clientId secret = Ok directive.
Proof.
  intros Hnone Hsecret. unfold addApprovedClient, getApprovedClientsFromCookie.
  rewrite Hnone. cbn. unfold signData, importKey.
  destruct secret; [contradiction|]. cbn. eauto.
Qed.

(** X14: the consent page and the consent form fit together. When
    [GET /authorize] shows the page, a [POST /authorize] that sends back
    the page's cookie and its two hidden fields passes the CSRF check,
    recovers the pending authorization the page was made for, stores it
    under a fresh state token and answers with the 302 to LINE; this where
    [atob] and [JSON.parse] undo [btoa] and [JSON.stringify] on the encoded
    state and the cookie secret is not empty. *)
Theorem consent_form_round_trip (request : Request) (oauthReqInfo clientId : Json)
    (client : option ClientInfo) (encodedState : string) (w : World) :
  parseAuthRequest env request = Ok oauthReqInfo ->
  get oauthReqInfo "clientId" = Ok (Some clientId) ->
  truthy (Some clientId) = true ->
  isClientApproved request clientId (COOKIE_ENCRYPTION_KEY env) = Ok false ->
  lookupClient env clientId = Ok client ->
  btoa (JSON_stringify (JObj [("oauthReqInfo", oauthReqInfo)])) = Some encodedState ->
  encodedState <> "" ->
  (atob encodedState ≫= JSON_parse) = Some (JObj [("oauthReqInfo", oauthReqInfo)]) ->
  COOKIE_ENCRYPTION_KEY env <> "" ->
  exists page setCookie,
    fst (get_authorize env request w)
    = Ok {| status := 200;
            headers := [("content-type", "text/html; charset=utf-8");
                        ("set-cookie", setCookie)];
            content := Html page |}
    /\ forall (submit : Request) (w' : World),
        cookieHeader submit = Some (cookiePair setCookie) ->
        body submit = Some [("csrf_token", FormString (dialog_csrf_token page));
                            ("state", FormString (dialog_state page))] ->
        let stateToken := uuidFormat (uuidBytes (random w' (randomCalls w'))) in
        exists response,
          fst (post_authorize env submit w') = Ok response
          /\ status response = 302%Z
          /\ location response
             = Some (getLineAuthorizeUrl (LINE_CHANNEL_ID env) (getCallbackUrl submit)
                       stateToken)
          /\ kv (snd (post_authorize env submit w')) !! ("oauth_state:" ++ stateToken)
             = Some (JSON_stringify oauthReqInfo, (now w' + 600)%Z).
Proof.
  intros Hparse Hclient Htruthy Happroved Hlookup Hbtoa Hne Hdecode Hkey.
  destruct (get_authorize_dialog request oauthReqInfo clientId client encodedState w
              Hparse Hclient Htruthy Happroved Hlookup Hbtoa) as (page & Hpage & Hcsrf & Hstate).
  eexists page, _. split; [exact Hpage|].
  intros submit w' Hcookie Hbody stateToken.
  rewrite Hcsrf, Hstate in Hbody.
  set (fresh := uuidFormat (uuidBytes (random w (randomCalls w)))) in *.
  assert (Hplain : plain fresh) by apply uuidText_plain, uuidFormat_uuidText.
  assert (Hfresh : fresh <> "") by apply uuidFormat_nonempty.
  pose proof (csrf_cookie_read submit fresh Hplain Hcookie) as Hread.
  assert (Hvalid : validateCSRFToken [("csrf_token", FormString fresh);
                                      ("state", FormString encodedState)] submit = Ok tt).
  { unfold validateCSRFToken, truthy_cookie. cbn [formData_get String.eqb Ascii.eqb Bool.eqb].
    rewrite Hread, lookup_singleton_eq. destruct fresh; [contradiction|]. cbn [Js.falsy].
    now rewrite String.eqb_refl. }
  assert (Hnone : truthy_cookie (request_cookies submit) "__Host-approved" = None).
  { unfold truthy_cookie. now rewrite Hread. }
  destruct (addApprovedClient_first submit clientId _ Hnone Hkey) as (directive & Hadd).
  destruct encodedState as [|c rest]; [contradiction|].
  unfold post_authorize, try_catch, bind, lift.
  rewrite Hbody. cbn [orRaise]. rewrite Hvalid.
  cbn [formData_get String.eqb Ascii.eqb Bool.eqb Js.falsy].
  rewrite Hdecode. cbn [get field String.eqb Ascii.eqb Bool.eqb].
  unfold truthy_value. rewrite (get_Some_object _ _ _ Hclient), Hclient, Htruthy, Hadd.
  clear Htruthy. run. fold stateToken. rewrite fromEntries_two_cookies.
  eexists. split; [reflexivity|].
  unfold redirectToLine, location. cbn.
  split; [reflexivity|]. split; [reflexivity|]. apply lookup_insert_eq.
Qed.

(** *** [validateOAuthState] and [GET /callback] on the store *)

(** X16: a state token presented when its TTL has run out is refused as
    invalid or expired, although the session cookie is the right one; the
    handler deletes nothing then. *)
Theorem state_expires (oauthReqInfo : Json) (ttl elapsed : Z) (request : Request)
    (stateToken : string) (w : World) :
  fst (createOAuthState oauthReqInfo ttl w) = Ok stateToken ->
  searchParams_get "state" (searchParams (url request)) = Some stateToken ->
  cookieHeader request = Some (cookiePair (bindStateToSession stateToken)) ->
  (ttl <= elapsed)%Z ->
  let expired := later elapsed (snd (createOAuthState oauthReqInfo ttl w)) in
  fst (validateOAuthState request expired) = Throw (OAuthError 400 "Invalid or expired state")
  /\ kv (snd (validateOAuthState request expired)) = kv expired.
Proof.
  rewrite createOAuthState_run. cbv zeta. cbn [fst snd].
  intros Htoken Hstate Hcookie Httl. injection Htoken as <-.
  set (stateToken := uuidFormat (uuidBytes (random w (randomCalls w)))) in *.
  assert (Hne : stateToken <> "") by apply uuidFormat_nonempty.
  rewrite (validateOAuthState_bound _ _ _ Hne Hstate Hcookie).
  rewrite consume_absent; [split; reflexivity|].
  unfold kv_peek, later. cbn [kv now]. rewrite lookup_insert_eq.
  assert (E : (now w + elapsed <? now w + ttl)%Z = false) by (apply Z.ltb_ge; lia).
  now rewrite E.
Qed.

(** X26: the session cookie is found whatever other cookies the browser
    sends before it: such a request is validated as the one that sends the
    session cookie alone. *)
Theorem session_cookie_found_among_others (request : Request) (others stateToken : string)
    (w : World) :
  cookieHeader request
  = Some (others ++ "; " ++ cookiePair (bindStateToSession stateToken)) ->
  truthy_cookie (request_cookies request) "__Host-session" = Some (sha256 stateToken)
  /\ validateOAuthState request w
     = validateOAuthState
         {| url := url request;
            cookieHeader := Some (cookiePair (bindStateToSession stateToken));
            body := body request |} w.
Proof.
  intros Hcookie.
  assert (Hread : truthy_cookie (request_cookies request) "__Host-session"
                  = Some (sha256 stateToken)).
  { unfold truthy_cookie, request_cookies. rewrite Hcookie. cbn [from_option id].
    rewrite cookiePair_bindStateToSession.
    change ("__Host-session=" ++ sha256 stateToken)
      with ("__Host-session" ++ "=" ++ sha256 stateToken).
    rewrite parseCookies_append_pair.
    - rewrite lookup_insert_eq.
      pose proof (sha256_nonempty stateToken) as Hne.
      destruct (sha256 stateToken); [contradiction | reflexivity].
    - apply plain_session_name.
    - discriminate.
    - discriminate.
    - apply plain_without, hexText_plain, sha256_hexText.
    - apply plain_solidEnds, hexText_plain, sha256_hexText. }
  split; [exact Hread|].
  unfold validateOAuthState. rewrite Hread.
  rewrite (session_cookie_read _ stateToken); reflexivity.
Qed.




(** *** [GET /callback] past the state validation *)

Lemma callback_success_run (request : Request) (w w1 : World) (oauthReqInfo : Json)
    (code lineAccessToken supabaseUserId redirectTo : string)
    (clientId scope : option Json) (profile : LineProfileBody) :
  validateOAuthState request w = (Ok (oauthReqInfo, clearCookie), w1) ->
  get oauthReqInfo "clientId" = Ok clientId ->
  truthy clientId = true ->
  get oauthReqInfo "scope" = Ok scope ->
  truthy_string (searchParams_get "code" (searchParams (url request))) = Some code ->
  servicesAnswer env request code oauthReqInfo scope profile lineAccessToken supabaseUserId
    redirectTo ->
  callback env request w
  = (Ok {| status := 302;
           headers := [("location", redirectTo); ("set-cookie", clearCookie)];
           content := NoBody |},
     {| kv := kv w1; now := now w1; random := random w1; randomCalls := randomCalls w1;
        trace := trace w1
                 ++ [LineToken (tokenForm env request code);
                     LineProfile lineAccessToken;
                     SupabaseSignIn (lineEmail (profile_userId profile))
                       (linePassword env (profile_userId profile));
                     CompleteAuthorization
                       (issuance oauthReqInfo scope profile supabaseUserId)] |}).
Proof.
  intros Hv Hclient Htruthy Hscope Hcode
    [(tokenReply & Htoken & Hok & Hjson) Hne (profileReply & Hprofile & Hpok & Hpjson)
       Hsign Hcomplete].
  destruct lineAccessToken as [|c rest]; [contradiction|].
  unfold tokenForm, lineEmail, linePassword, issuance in *.
  unfold callback, try_catch, bind. cbn beta. rewrite Hv. run.
  rewrite Hclient, Htruthy, Hcode. cbn.
  rewrite Htoken, Hok. cbn. rewrite Hjson. cbn.
  rewrite Hprofile, Hpok. cbn. rewrite Hpjson. cbn.
  rewrite Hsign. cbn. rewrite Hscope. cbn. rewrite Hcomplete. cbn.
  rewrite <- !app_assoc. reflexivity.
Qed.


(** [fetchLineToken] leaves the store alone. *)
Lemma fetchLineToken_store (code channelId channelSecret redirectUri : string) (w : World) :
  kv (snd (fetchLineToken env code channelId channelSecret redirectUri w)) = kv w.
Proof.
  unfold fetchLineToken, bind, emit, lift, ret. cbn.
  destruct (line_token env _) as [reply|e]; cbn; [|reflexivity].
  destruct (reply_ok reply); cbn; [|reflexivity].
  destruct (reply_json reply) as [[[|c token]|]|e]; reflexivity.
Qed.

(** X20: [fetchLineToken] makes one call, to the token endpoint with the
    five fields of the form, and does not touch the store. It returns a
    token only when LINE answered ok with a non-empty [access_token]; when
    LINE answered not ok, or without a token or with an empty one, it
    returns a 500 response with no header; it throws exactly when the
    fetch throws or the body of an ok answer is not JSON. *)
Theorem fetchLineToken_outcome (code channelId channelSecret redirectUri : string)
    (w : World) :
  let form := [("grant_type", "authorization_code"); ("code", code);
               ("redirect_uri", redirectUri); ("client_id", channelId);
               ("client_secret", channelSecret)] in
  let out := fetchLineToken env code channelId channelSecret redirectUri w in
  kv (snd out) = kv w
  /\ trace (snd out) = (trace w ++ [LineToken form])%list
  /\ match fst out with
     | Ok (inl token) =>
         token <> ""
         /\ exists reply, line_token env form = Ok reply
                          /\ reply_ok reply = true /\ reply_json reply = Ok (Some token)
     | Ok (inr response) =>
         status response = 500%Z /\ headers response = []
         /\ exists reply, line_token env form = Ok reply
                          /\ (reply_ok reply = false
                              \/ reply_json reply = Ok None \/ reply_json reply = Ok (Some ""))
     | Throw e =>
         line_token env form = Throw e
         \/ exists reply, line_token env form = Ok reply
                          /\ reply_ok reply = true /\ reply_json reply = Throw e
     end.
Proof.
  cbv zeta. unfold fetchLineToken, bind, emit, lift, ret. cbn.
  destruct (line_token env _) as [reply|e] eqn:Hcall; cbn; [|auto].
  destruct (reply_ok reply) eqn:Hok; cbn.
  2:{ repeat split. eauto. }
  destruct (reply_json reply) as [[[|c token]|]|e] eqn:Hjson; cbn.
  - repeat split. exists reply. auto.
  - repeat split; [discriminate | eauto].
  - repeat split. exists reply. auto.
  - repeat split. right. eauto.
Qed.

(** X19: [GET /callback] has no [try] past the state validation: when the
    token exchange throws (the fetch fails, or LINE answers ok with a body
    that is not JSON), the exception leaves the handler, and the state
    record has been consumed all the same. *)
Theorem callback_rethrows_after_validation (request : Request) (w w1 : World)
    (oauthReqInfo : Json) (directive code : string) (clientId : option Json) (e : Exn) :
  validateOAuthState request w = (Ok (oauthReqInfo, directive), w1) ->
  get oauthReqInfo "clientId" = Ok clientId ->
  truthy clientId = true ->
  truthy_string (searchParams_get "code" (searchParams (url request))) = Some code ->
  fst (fetchLineToken env code (LINE_CHANNEL_ID env) (LINE_CHANNEL_SECRET env)
         (getCallbackUrl request) w1) = Throw e ->
  fst (callback env request w) = Throw e
  /\ kv (snd (callback env request w)) = kv w1.
Proof.
  intros Hv Hclient Htruthy Hcode Hthrow.
  unfold callback, try_catch, bind. cbn beta. rewrite Hv.
  unfold lift, ret. cbn -[fetchLineToken]. rewrite Hclient. cbn -[fetchLineToken].
  rewrite Htruthy, Hcode. cbn -[fetchLineToken].
  pose proof (fetchLineToken_store code (LINE_CHANNEL_ID env) (LINE_CHANNEL_SECRET env)
                (getCallbackUrl request) w1) as Hkv.
  destruct (fetchLineToken env code _ _ _ w1) as [r w2]. cbn [fst snd] in *.
  subst r. split; [reflexivity | exact Hkv].
Qed.

(** *** From [GET /authorize] to [GET /callback] *)

Lemma get_authorize_approved (request : Request) (oauthReqInfo clientId : Json) (w : World) :
  parseAuthRequest env request = Ok oauthReqInfo ->
  get oauthReqInfo "clientId" = Ok (Some clientId) ->
  truthy (Some clientId) = true ->
  isClientApproved request clientId (COOKIE_ENCRYPTION_KEY env) = Ok true ->
  let fresh := uuidFormat (uuidBytes (random w (randomCalls w))) in
  get_authorize env request w
  = (Ok (redirectToLine request fresh (LINE_CHANNEL_ID env)
           [("set-cookie", bindStateToSession fresh)]),
     snd (createOAuthState oauthReqInfo 600 w)).
Proof.
  intros Hparse Hclient Htruthy Happroved fresh.
  unfold get_authorize, bind, lift.
  rewrite Hparse, Hclient. cbn. unfold truthy_value.
  rewrite Htruthy, Happroved. reflexivity.
Qed.

(** X21: the two handlers fit together. For an approved client,
    [GET /authorize] answers with a 302 whose Location carries a fresh state
    token and whose cookie binds the session to it; when, within the 600
    seconds, the browser comes back to [/callback] with that cookie, that
    state and a code, and every service answers, the callback ends in the
    302 to the client, [completeAuthorization] having been given the very
    request that [/authorize] had parsed (where JSON text parses back to
    it), and the record is gone. *)
Theorem approved_flow_reaches_completion (authorize redirected : Request)
    (oauthReqInfo clientId : Json) (scope : option Json) (elapsed : Z)
    (code lineAccessToken supabaseUserId redirectTo : string) (profile : LineProfileBody)
    (w : World) :
  let stateToken := uuidFormat (uuidBytes (random w (randomCalls w))) in
  parseAuthRequest env authorize = Ok oauthReqInfo ->
  get oauthReqInfo "clientId" = Ok (Some clientId) ->
  truthy (Some clientId) = true ->
  get oauthReqInfo "scope" = Ok scope ->
  isClientApproved authorize clientId (COOKIE_ENCRYPTION_KEY env) = Ok true ->
  JSON_parse (JSON_stringify oauthReqInfo) = Some oauthReqInfo ->
  (elapsed < 600)%Z ->
  cookieHeader redirected = Some (cookiePair (bindStateToSession stateToken)) ->
  searchParams_get "state" (searchParams (url redirected)) = Some stateToken ->
  truthy_string (searchParams_get "code" (searchParams (url redirected))) = Some code ->
  servicesAnswer env redirected code oauthReqInfo scope profile lineAccessToken
    supabaseUserId redirectTo ->
  let first := get_authorize env authorize w in
  let final := callback env redirected (later elapsed (snd first)) in
  fst first
  = Ok {| status := 302;
          headers := [("set-cookie", bindStateToSession stateToken);
                      ("location",
                       getLineAuthorizeUrl (LINE_CHANNEL_ID env) (getCallbackUrl authorize)
                         stateToken)];
          content := NoBody |}
  /\ fst final
     = Ok {| status := 302;
             headers := [("location", redirectTo); ("set-cookie", clearCookie)];
             content := NoBody |}
  /\ In (CompleteAuthorization (issuance oauthReqInfo scope profile supabaseUserId))
       (trace (snd final))
  /\ kv (snd final) !! ("oauth_state:" ++ stateToken) = None.
Proof.
  intros stateToken Hparse Hclient Htruthy Hscope Happroved Hjson Helapsed Hcookie Hstate
    Hcode Hanswer. cbv zeta.
  rewrite (get_authorize_approved authorize oauthReqInfo clientId w
             Hparse Hclient Htruthy Happroved).
  fold stateToken. cbn [fst snd]. split; [reflexivity|].
  assert (Hne : stateToken <> "") by apply uuidFormat_nonempty.
  set (w1 := later elapsed _).
  assert (Hv := validateOAuthState_bound _ _ w1 Hne Hstate Hcookie).
  rewrite (consume_present stateToken (JSON_stringify oauthReqInfo)) in Hv.
  2:{ unfold kv_peek, w1, later. rewrite createOAuthState_run. cbv zeta.
      cbn [kv now snd]. fold stateToken. rewrite lookup_insert_eq.
      assert (E : (now w + elapsed <? now w + 600)%Z = true) by (apply Z.ltb_lt; lia).
      now rewrite E. }
  2:{ now apply JSON_stringify_nonempty. }
  rewrite Hjson in Hv.
  rewrite (callback_success_run redirected w1 _ oauthReqInfo code lineAccessToken
             supabaseUserId redirectTo (Some clientId) scope profile Hv Hclient Htruthy Hscope
             Hcode Hanswer).
  cbn [fst snd kv trace]. split; [reflexivity|]. split.
  - apply in_or_app. right. cbn. auto.
  - apply lookup_delete_eq.
Qed.

End HandlerProperties.

(** ** The approval cookie over several consents *)

Section ApprovalCacheProperties.

Context {P : Platform}.

(** Reading a cookie that holds [data|signature], whatever bytes the
    signature is the hexadecimal text of. *)
Lemma approved_cookie_verify (request : Request) (data secret : string) (mac : list byte) :
  secret <> "" ->
  utf8Valid (Js.chars data) = true ->
  cookieHeader request
  = Some ("__Host-approved=" ++ encodeURIComponent (data ++ "|" ++ hex mac)) ->
  getApprovedClientsFromCookie request secret
  = Ok (if String.eqb (hex (sign_HMAC_SHA256 secret data)) (hex mac)
        then match JSON_parse data with
             | Some approved => approved
             | None => JArr []
             end
        else JArr []).
Proof.
  intros Hsecret Hvalid Hcookie.
  set (signature := hex mac) in *.
  assert (Hsig : hexText signature) by apply hex_hexText.
  unfold getApprovedClientsFromCookie, request_cookies, truthy_cookie.
  rewrite Hcookie. cbn [from_option id].
  change ("__Host-approved=" ++ encodeURIComponent (data ++ "|" ++ signature))
    with ("__Host-approved" ++ "=" ++ encodeURIComponent (data ++ "|" ++ signature)).
  rewrite parseCookies_single;
    [| apply plain_approved_name | discriminate | discriminate
     | apply encodeURIComponent_plain].
  rewrite lookup_singleton_eq.
  assert (Hfalsy : Js.falsy (encodeURIComponent (data ++ "|" ++ signature)) = false).
  { assert (Hne : encodeURIComponent (data ++ "|" ++ signature) <> "")
      by (apply encodeURIComponent_nonempty; now destruct data).
    now destruct (encodeURIComponent (data ++ "|" ++ signature)). }
  rewrite Hfalsy.
  rewrite decode_encodeURIComponent;
    [| assumption | apply (plain_utf8Valid ("|" ++ signature))].
  2:{ unfold plain. cbn. constructor; [reflexivity | apply hexText_plain, Hsig]. }
  cbn [orRaise Result_bind].
  change (data ++ "|" ++ signature) with (data ++ String "|" signature).
  assert (Hbar : Forall (fun a => a <> "|"%char) (Js.chars signature)).
  { eapply Forall_impl; [exact Hsig|]. intros a Ha ->. discriminate Ha. }
  rewrite (lastIndexOf_at "|" data signature Hbar), slice_to_at, slice_from_at.
  unfold verifySignature, signData, importKey.
  destruct secret as [|c rest]; [contradiction|]. cbn [Js.falsy Result_bind].
  destruct (String.eqb _ signature); [|reflexivity]. now destruct (JSON_parse data).
Qed.

(** X22: approvals add up. When the request carries a valid list of
    approved clients and [addApprovedClient] approves one more, a request
    that presents the new cookie reads the list with that client in it
    (appended unless it was there), is approved for it, and is approved for
    every client the old cookie approved. *)
Theorem approvals_accumulate (request : Request) (clientId secret : string)
    (items : list Json) :
  let approved :=
    if existsb (sameValueZero (JStr clientId)) items then items
    else (items ++ [JStr clientId])%list in
  secret <> "" ->
  getApprovedClientsFromCookie request secret = Ok (JArr items) ->
  JSON_parse (JSON_stringify (JArr approved)) = Some (JArr approved) ->
  utf8Valid (Js.chars (JSON_stringify (JArr approved))) = true ->
  exists directive,
    addApprovedClient request (JStr clientId) secret = Ok directive
    /\ forall next,
        cookieHeader next = Some (cookiePair directive) ->
        getApprovedClientsFromCookie next secret = Ok (JArr approved)
        /\ isClientApproved next (JStr clientId) secret = Ok true
        /\ forall earlier,
            isClientApproved request earlier secret = Ok true ->
            isClientApproved next earlier secret = Ok true.
Proof.
  intros approved Hsecret Hprior Hjson Hvalid.
  unfold addApprovedClient. rewrite Hprior. cbn [Result_bind includes push].
  fold approved.
  assert (Happ : (if existsb (sameValueZero (JStr clientId)) items
                  then Ok (JArr items)
                  else Ok (JArr (items ++ [JStr clientId])))
                 = Ok (JArr approved) :> Result Json).
  { subst approved. now destruct (existsb _ items). }
  rewrite Happ. cbn [Result_bind]. unfold signData, importKey.
  destruct secret as [|c rest] eqn:Es; [contradiction|]. cbn [Js.falsy Result_bind].
  rewrite <- Es in *. eexists. split; [reflexivity|].
  intros next Hnext. rewrite cookiePair_approved in Hnext.
  assert (Hread : getApprovedClientsFromCookie next secret = Ok (JArr approved)).
  { rewrite (approved_cookie_verify next _ secret _ Hsecret Hvalid Hnext).
    now rewrite String.eqb_refl, Hjson. }
  split; [exact Hread|]. unfold isClientApproved. rewrite Hread, Hprior.
  cbn [Result_bind includes]. split.
  - f_equal. subst approved.
    destruct (existsb (sameValueZero (JStr clientId)) items) eqn:E; [exact E|].
    rewrite existsb_app. cbn. now rewrite String.eqb_refl, orb_true_r.
  - intros earlier H. injection H as H. f_equal. subst approved.
    destruct (existsb (sameValueZero earlier) items) eqn:E; [|discriminate H].
    destruct (existsb (sameValueZero (JStr clientId)) items); [exact E|].
    rewrite existsb_app. now rewrite E.
Qed.


Context (env : Env).

(** X13: a browser that sends back the cookie [addApprovedClient] issued
    for a client skips the consent page: [GET /authorize] for that client
    stores the pending authorization under a fresh state token and answers
    with the 302 to LINE that sets the session-binding cookie of the token;
    this where the signed list is JSON text that parses back. *)
Theorem approved_cookie_skips_consent (prior request : Request) (clientId : string)
    (items : list Json) (oauthReqInfo : Json) (w : World) :
  let secret := COOKIE_ENCRYPTION_KEY env in
  let approved :=
    if existsb (sameValueZero (JStr clientId)) items then items
    else (items ++ [JStr clientId])%list in
  let fresh := uuidFormat (uuidBytes (random w (randomCalls w))) in
  secret <> "" ->
  getApprovedClientsFromCookie prior secret = Ok (JArr items) ->
  JSON_parse (JSON_stringify (JArr approved)) = Some (JArr approved) ->
  utf8Valid (Js.chars (JSON_stringify (JArr approved))) = true ->
  clientId <> "" ->
  parseAuthRequest env request = Ok oauthReqInfo ->
  get oauthReqInfo "clientId" = Ok (Some (JStr clientId)) ->
  exists directive,
    addApprovedClient prior (JStr clientId) secret = Ok directive
    /\ (cookieHeader request = Some (cookiePair directive) ->
        get_authorize env request w
        = (Ok {| status := 302;
                 headers :=
                   [("set-cookie", bindStateToSession fresh);
                    ("location",
                     "https://access.line.me/oauth2/v2.1/authorize?response_type=code&client_id="
                     ++ formUrlEncode (LINE_CHANNEL_ID env)
                     ++ "&redirect_uri=" ++ formUrlEncode (getCallbackUrl request)
                     ++ "&state=" ++ fresh ++ "&scope=profile+openid")];
                 content := NoBody |},
           snd (createOAuthState oauthReqInfo 600 w))).
Proof.
  intros secret approved fresh Hsecret Hprior Hjson Hvalid Hne Hparse Hclient.
  destruct (approve_then_approved prior clientId secret items Hsecret Hprior Hjson Hvalid)
    as (directive & Hadd & Hnext).
  exists directive. split; [exact Hadd|]. intros Hcookie.
  assert (Htruthy : truthy (Some (JStr clientId)) = true)
    by (destruct clientId; [contradiction | reflexivity]).
  rewrite (get_authorize_approved env request oauthReqInfo (JStr clientId) w
             Hparse Hclient Htruthy (Hnext request Hcookie)).
  unfold redirectToLine. cbn [assign String.eqb Ascii.eqb Bool.eqb].
  subst fresh. now rewrite getLineAuthorizeUrl_state.
Qed.

End ApprovalCacheProperties.

(** ** The tools of the agent *)

Arguments stringifyIndented : simpl never.

Section ToolProperties.

Context {P : Platform} (env : Env).

(** X24: [MyMCP.init] registers one tool, [hello]. A call of it signs in
    to Supabase once, with the email and the password derived from the
    LINE user id of the token's props, and touches nothing else. It
    answers with the greeting that names the Supabase user id of the
    props when the sign-in succeeds, with the auth error text when
    Supabase refuses, and throws only when the sign-in call throws. *)
Theorem hello_outcome (props : Props) (w : World) :
  exists tool,
    MyMCP_init env props = [tool]
    /\ tool_name tool = "hello"
    /\ kv (snd (tool_handler tool w)) = kv w
    /\ trace (snd (tool_handler tool w))
       = (trace w ++ [SupabaseSignIn (lineEmail (lineUserId props))
                        (linePassword env (lineUserId props))])%list
    /\ fst (tool_handler tool w)
       = match signInWithPassword env (SUPABASE_URL env) (SUPABASE_ANON_KEY env)
                 (lineEmail (lineUserId props)) (linePassword env (lineUserId props)) with
         | Ok (SignInData _) => Ok (greeting (supabaseUserId props))
         | Ok (SignInError _) => Ok authError
         | Throw e => Throw e
         end.
Proof.
  eexists. split; [reflexivity|]. split; [reflexivity|].
  unfold lineEmail, linePassword.
  cbn [tool_handler registerHello]. unfold hello, createAuthenticatedClient. run.
  destruct (signInWithPassword env _ _ _ _) as [[message|user]|e]; cbn; repeat split.
Qed.

(** X25: the development agent tests the production tools. When the
    sign-in of [MyMCPDev.init] succeeds, the tools it registers are those
    [MyMCP.init] registers for a token of that LINE user and the Supabase
    id the sign-in returned; when Supabase refuses, the one tool registered
    is [error]; and [init] throws only when the sign-in call throws. *)
Theorem dev_agent_registers_production_tool (DEV_LINE_USER_ID : string) (w : World) :
  match fst (MyMCPDev_init env DEV_LINE_USER_ID w) with
  | Ok tools =>
      match signInWithPassword env (SUPABASE_URL env) (SUPABASE_ANON_KEY env)
              (lineEmail DEV_LINE_USER_ID) (linePassword env DEV_LINE_USER_ID) with
      | Ok (SignInData supabaseUserId) =>
          forall displayName,
            tools = MyMCP_init env {| lineUserId := DEV_LINE_USER_ID;
                                      supabaseUserId := supabaseUserId;
                                      displayName := displayName |}
      | _ => map tool_name tools = ["error"]
      end
  | Throw e =>
      signInWithPassword env (SUPABASE_URL env) (SUPABASE_ANON_KEY env)
        (lineEmail DEV_LINE_USER_ID) (linePassword env DEV_LINE_USER_ID) = Throw e
  end.
Proof.
  unfold MyMCPDev_init, lineEmail, linePassword. run.
  destruct (signInWithPassword env _ _ _ _) as [[message|user]|e]; cbn; reflexivity.
Qed.

End ToolProperties.

(** ** The theorems on the sample requests *)

Section Samples.

#[local] Existing Instance Reference.platform.

Example getCallbackUrl_sample :
  getCallbackUrl {| url := {| protocol := "http:"; hostname := "localhost"; port := "8788";
                              pathname := "/authorize"; searchParams := [] |};
                    cookieHeader := None; body := None |}
  = "http://localhost:8788/callback"
  /\ getCallbackUrl {| url := {| protocol := "http:"; hostname := "tunnel.example"; port := "";
                                 pathname := "/authorize"; searchParams := [("a", "b")] |};
                       cookieHeader := None; body := None |}
     = "https://tunnel.example/callback".
Proof. vm_compute. split; reflexivity. Qed.

Example includes_sample :
  includes (JArr [JStr "abc"; JNum 5%Z]) (JStr "abc") = Ok true
  /\ includes (JArr [JStr "abc"; JArr []]) (JArr []) = Ok false
  /\ includes (JStr "xabcx") (JStr "abc") = Ok true
  /\ includes (JStr "1,,2") (JArr [JNum 1%Z; JNull; JNum 2%Z]) = Ok true
  /\ includes (JObj [("includes", JBool true)]) (JStr "abc") = Throw (Raised TypeError)
  /\ push (JStr "abc") (JStr "d") = Throw (Raised TypeError).
Proof. vm_compute. repeat split. Qed.

Example flipped_signature_not_approved :
  let cookie := "__Host-approved=%5B%22abc%22%5D%7C"
                ++ hex (Reference.hmac "0123456789abcdef" (Reference.stringify (JArr [JStr "abc"]))) in
  let flipped := Js.slice_to (String.length cookie - 1) cookie
                 ++ (if String.eqb (Js.slice_from (String.length cookie - 1) cookie) "0"
                     then "1" else "0") in
  isClientApproved (Sample.authorizeRequest (Some cookie)) (JStr "abc") "0123456789abcdef"
  = Ok true
  /\ isClientApproved (Sample.authorizeRequest (Some flipped)) (JStr "abc") "0123456789abcdef"
     = Ok false
  /\ isClientApproved (Sample.authorizeRequest (Some "__Host-approved=%5B%22abc%22%5D"))
       (JStr "abc") "0123456789abcdef" = Ok false
  /\ isClientApproved (Sample.authorizeRequest (Some "__Host-approved=%"))
       (JStr "abc") "0123456789abcdef" = Throw (Raised URIError).
Proof. vm_compute. repeat split. Qed.

Example signature_byte_replaced_by_percent :
  let cookie := "__Host-approved=%5B%22abc%22%5D%7C"
                ++ hex (Reference.hmac "0123456789abcdef" (Reference.stringify (JArr [JStr "abc"]))) in
  let damaged := Js.slice_to (String.length cookie - 1) cookie ++ "%" in
  isClientApproved (Sample.authorizeRequest (Some damaged)) (JStr "abc") "0123456789abcdef"
  = Throw (Raised URIError).
Proof. vm_compute. reflexivity. Qed.

Example authorize_malformed_cookie_uncaught :
  fst (get_authorize Sample.env (Sample.authorizeRequest (Some "__Host-approved=%")) Sample.world)
  = Throw (Raised URIError).
Proof. vm_compute. reflexivity. Qed.

Example approvalCookie_value :
  Sample.approvalCookie
  = "__Host-approved=%5B%22abc%22%5D%7C"
    ++ hex (Reference.hmac "0123456789abcdef" (Reference.stringify (JArr [JStr "abc"])))
    ++ "; HttpOnly; Secure; SameSite=Lax; Path=/; Max-Age=31536000".
Proof. vm_compute. reflexivity. Qed.

Example approved_browser_skips_consent :
  isClientApproved (Sample.authorizeRequest (Some (cookiePair Sample.approvalCookie)))
    (JStr "abc") "0123456789abcdef" = Ok true
  /\ isClientApproved (Sample.authorizeRequest (Some (cookiePair Sample.approvalCookie)))
       (JStr "abd") "0123456789abcdef" = Ok false
  /\ isClientApproved (Sample.authorizeRequest (Some (cookiePair Sample.approvalCookie)))
       (JStr "abc") "another-secret" = Ok false
  /\ isClientApproved (Sample.authorizeRequest None) (JStr "abc") "0123456789abcdef" = Ok false.
Proof. vm_compute. repeat split. Qed.

(** C1 as the specification states it fails here: the callback of a
    browser whose cookie is bound to another token gets the 403, and that
    response has no [Set-Cookie] header to clear [__Host-session]. *)
Lemma callback_mismatch_keeps_cookie :
  fst (callback Sample.env Sample.callbackOtherSession Sample.worldPending)
  = Ok {| status := 403; headers := []; content := Text "Session binding mismatch" |}
  /\ getSetCookie {| status := 403; headers := [];
                    content := Text "Session binding mismatch" |} = [].
Proof. vm_compute. split; reflexivity. Qed.

(** C2 on the sample: saved at time 1000 for 600 seconds, consumed 30
    seconds later, asked for again 5 seconds after that. *)
Lemma save_then_consume_once_witness :
  JSON_parse (JSON_stringify Sample.pending) = Some Sample.pending
  /\ (30 < 600)%Z
  /\ exists stateToken,
      fst (createOAuthState Sample.pending 600 Sample.world) = Ok stateToken
      /\ forall request,
          searchParams_get "state" (searchParams (url request)) = Some stateToken ->
          cookieHeader request = Some (cookiePair (bindStateToSession stateToken)) ->
          let first :=
            validateOAuthState request
              (later 30 (snd (createOAuthState Sample.pending 600 Sample.world))) in
          fst first = Ok (Sample.pending, clearCookie)
          /\ kv (snd first) !! ("oauth_state:" ++ stateToken) = None
          /\ fst (validateOAuthState request (later 5 (snd first)))
             = Throw (OAuthError 400 "Invalid or expired state").
Proof.
  split; [vm_compute; reflexivity|]. split; [lia|].
  apply (save_then_consume_once Sample.pending 600 30 5 Sample.world);
    [vm_compute; reflexivity | lia].
Defined.

(** C3 as the specification states it fails here: the token is submitted
    and the cookie is absent, and the error is the mismatch (403), not the
    missing-token error. *)
Lemma csrf_cookie_absent_is_mismatch :
  request_cookies Sample.consentPostNoCookie !! "__Host-csrf" = None
  /\ validateCSRFToken [("csrf_token", FormString "csrf-token-1")] Sample.consentPostNoCookie
     = Throw (OAuthError 403 "CSRF token mismatch")
  /\ fst (post_authorize Sample.env Sample.consentPostNoCookie Sample.world)
     = Ok {| status := 403; headers := []; content := Text "CSRF token mismatch" |}.
Proof. vm_compute. repeat split. Qed.

(** C4 on the sample callbacks: the one whose cookie is bound to its own
    token passes, the one whose cookie is bound to another token gets the
    403. *)
Lemma session_binding_verifies_witness :
  truthy_cookie (request_cookies Sample.callbackRequest) "__Host-session"
  = Some (hex (digest_SHA256 Sample.token))
  /\ fst (validateOAuthState Sample.callbackRequest Sample.worldPending)
     = Ok (Sample.pending, clearCookie)
  /\ Scenario.otherToken <> Sample.token
  /\ digest_SHA256 Scenario.otherToken <> digest_SHA256 Sample.token
  /\ validateOAuthState Sample.callbackOtherSession Sample.worldPending
     = (Throw (OAuthError 403 "Session binding mismatch"), Sample.worldPending).
Proof.
  destruct (session_binding_verifies Sample.callbackRequest Sample.token Sample.token
              Sample.worldPending) as (Hcookie & Hsame & _);
    [discriminate | reflexivity | reflexivity |].
  destruct (session_binding_verifies Sample.callbackOtherSession Sample.token
              Scenario.otherToken Sample.worldPending) as (_ & _ & Hother);
    [discriminate | reflexivity | reflexivity |].
  assert (Hdigest : digest_SHA256 Scenario.otherToken <> digest_SHA256 Sample.token)
    by (intros H; vm_compute in H; discriminate H).
  split; [exact Hcookie|]. split; [rewrite (Hsame eq_refl); vm_compute; reflexivity|].
  split; [discriminate|]. split; [exact Hdigest|].
  apply Hother; [discriminate | intros H; now contradiction Hdigest].
Defined.



(** The 302 of the sample consent form: one [Set-Cookie] header, the
    session cookie. *)
Example consent_post_sets_one_cookie :
  match fst (post_authorize Sample.env Sample.consentPost Sample.world) with
  | Ok response =>
      status response = 302%Z
      /\ getSetCookie response = [bindStateToSession Sample.token]
  | Throw _ => False
  end.
Proof. vm_compute. repeat split. Qed.

(** C7 on the sample consent form, which is in order: the 302 has the
    session cookie for its one [Set-Cookie] header and the approval cookie
    that [addApprovedClient] returned is not sent; and on the same form
    from a browser whose approval cookie does not percent-decode: a 500. *)
Lemma consent_post_sends_one_cookie_witness :
  addApprovedClient Sample.consentPost (JStr "abc") (COOKIE_ENCRYPTION_KEY Sample.env)
  = Ok Sample.approvalCookie
  /\ (exists response,
        fst (post_authorize Sample.env Sample.consentPost Sample.world) = Ok response
        /\ status response = 302%Z
        /\ getSetCookie response = [bindStateToSession Sample.token]
        /\ ~ In Sample.approvalCookie (getSetCookie response))
  /\ addApprovedClient Scenario.consentPostBadApproval (JStr "abc")
       (COOKIE_ENCRYPTION_KEY Sample.env) = Throw (Raised URIError)
  /\ (exists message,
        post_authorize Sample.env Scenario.consentPostBadApproval Sample.world
        = (Ok (text_response ("Internal server error: " ++ message) 500), Sample.world)).
Proof.
  assert (Hadd : addApprovedClient Sample.consentPost (JStr "abc")
                   (COOKIE_ENCRYPTION_KEY Sample.env) = Ok Sample.approvalCookie)
    by (vm_compute; reflexivity).
  split; [exact Hadd|]. split.
  - pose proof (consent_post_sends_one_cookie Sample.env Sample.consentPost
                  [("csrf_token", FormString "csrf-token-1");
                   ("state", FormString "eyJvYXV0aFJlcUluZm8iOnsiY2xpZW50SWQiOiJhYmMifX0=")]
                  "csrf-token-1" "eyJvYXV0aFJlcUluZm8iOnsiY2xpZW50SWQiOiJhYmMifX0="
                  (JSON_stringify Sample.consentState)
                  Sample.consentState (JObj [("clientId", JStr "abc")]) (JStr "abc")
                  Sample.world) as H.
    rewrite Hadd in H.
    destruct H as (response & Hresponse & Hstatus & _ & _ & Hcookies & Habsent);
      [reflexivity | reflexivity | discriminate | vm_compute; reflexivity | reflexivity
      | discriminate | vm_compute; reflexivity | vm_compute; reflexivity | reflexivity
      | reflexivity | reflexivity | reflexivity |].
    exists response. repeat split; assumption.
  - assert (Hbad : addApprovedClient Scenario.consentPostBadApproval (JStr "abc")
                     (COOKIE_ENCRYPTION_KEY Sample.env) = Throw (Raised URIError))
      by (vm_compute; reflexivity).
    split; [exact Hbad|].
    pose proof (consent_post_sends_one_cookie Sample.env Scenario.consentPostBadApproval
                  [("csrf_token", FormString "csrf-token-1");
                   ("state", FormString "eyJvYXV0aFJlcUluZm8iOnsiY2xpZW50SWQiOiJhYmMifX0=")]
                  "csrf-token-1" "eyJvYXV0aFJlcUluZm8iOnsiY2xpZW50SWQiOiJhYmMifX0="
                  (JSON_stringify Sample.consentState)
                  Sample.consentState (JObj [("clientId", JStr "abc")]) (JStr "abc")
                  Sample.world) as H.
    rewrite Hbad in H.
    apply H;
      first [reflexivity | discriminate | vm_compute; reflexivity].
Defined.

(** [GET /authorize] on a browser with no approval cookie: the consent
    page, nothing stored. *)
Lemma authorize_consent_page_sample :
  parseAuthRequest Sample.env (Sample.authorizeRequest None) = Ok Sample.pending
  /\ get Sample.pending "clientId" = Ok (Some (JStr "abc"))
  /\ truthy (Some (JStr "abc")) = true
  /\ isClientApproved (Sample.authorizeRequest None) (JStr "abc")
       (COOKIE_ENCRYPTION_KEY Sample.env) = Ok false
  /\ kv (snd (get_authorize Sample.env (Sample.authorizeRequest None) Sample.world))
     = kv Sample.world
  /\ trace (snd (get_authorize Sample.env (Sample.authorizeRequest None) Sample.world))
     = trace Sample.world
  /\ exists page,
      fst (get_authorize Sample.env (Sample.authorizeRequest None) Sample.world)
      = Ok {| status := 200;
              headers := [("content-type", "text/html; charset=utf-8");
                          ("set-cookie",
                           "__Host-csrf=" ++ Sample.token
                           ++ "; HttpOnly; Secure; SameSite=Strict; Path=/")];
              content := Html page |}
      /\ dialog_csrf_token page = Sample.token
      /\ dialog_state page
         = "eyJvYXV0aFJlcUluZm8iOnsiY2xpZW50SWQiOiJhYmMiLCJzY29wZSI6WyJwcm9maWxlIl19fQ==".
Proof.
  split; [reflexivity|]. split; [reflexivity|]. split; [reflexivity|].
  split; [vm_compute; reflexivity|].
  destruct (authorize_branches Sample.env (Sample.authorizeRequest None) Sample.pending
              (JStr "abc") Sample.world) as (_ & Hconsent);
    [reflexivity | reflexivity | reflexivity |].
  destruct Hconsent as (Hkv & Htrace & Hpage); [vm_compute; reflexivity|].
  split; [exact Hkv|]. split; [exact Htrace|].
  apply (Hpage (Some {| clientName := Some "Claude Desktop"; clientId := Some "abc" |}));
    [reflexivity | vm_compute; reflexivity].
Defined.

(** C8 on the two failing requests: the browser whose approval cookie is
    [__Host-approved=%], and the client id with a character above U+00FF
    from a browser with no cookie. *)
Lemma authorize_throws_instead_of_consent_witness :
  get_authorize Sample.env Scenario.authorizeMalformed Sample.world
  = (Throw (Raised URIError), Sample.world)
  /\ btoa (JSON_stringify
             (JObj [("oauthReqInfo",
                     JObj [("clientId", JStr Scenario.wideClient);
                           ("scope", JArr [JStr "profile"])])])) = None
  /\ fst (get_authorize Sample.env Scenario.authorizeWide Sample.world)
     = Throw (Raised InvalidCharacterError)
  /\ kv (snd (get_authorize Sample.env Scenario.authorizeWide Sample.world))
     = kv Sample.world.
Proof.
  destruct (authorize_throws_instead_of_consent Sample.env Scenario.authorizeMalformed
              Sample.pending (JStr "abc") None Sample.world) as (Hmalformed & _);
    [reflexivity | reflexivity | reflexivity |].
  destruct (authorize_throws_instead_of_consent Sample.env Scenario.authorizeWide
              (JObj [("clientId", JStr Scenario.wideClient); ("scope", JArr [JStr "profile"])])
              (JStr Scenario.wideClient)
              (Some {| clientName := Some "Claude Desktop"; clientId := Some "abc" |})
              Sample.world) as (_ & Hwide);
    [reflexivity | reflexivity | reflexivity |].
  assert (Hbtoa : btoa (JSON_stringify
                          (JObj [("oauthReqInfo",
                                  JObj [("clientId", JStr Scenario.wideClient);
                                        ("scope", JArr [JStr "profile"])])])) = None)
    by (vm_compute; reflexivity).
  destruct (Hwide eq_refl eq_refl Hbtoa) as (Hthrow & Hkv & _).
  split; [exact (Hmalformed eq_refl)|]. split; [exact Hbtoa|]. split; assumption.
Defined.

Example authorize_approved_browser :
  fst (get_authorize Sample.env
         (Sample.authorizeRequest (Some (cookiePair Sample.approvalCookie))) Sample.world)
  = Ok {| status := 302;
          headers := [("set-cookie", bindStateToSession Sample.token);
                      ("location",
                       getLineAuthorizeUrl "1650000000" "https://mcp.example.com/callback"
                         Sample.token)];
          content := NoBody |}.
Proof. vm_compute. reflexivity. Qed.

(** C9 on the deployment whose Supabase refuses the sign-in. *)
Lemma account_not_linked_witness :
  validateOAuthState Sample.callbackRequest Sample.worldPending
  = (Ok (Sample.pending, clearCookie),
     snd (validateOAuthState Sample.callbackRequest Sample.worldPending))
  /\ signInWithPassword Sample.envNotLinked "https://project.supabase.co" "anon-key"
       "U4af4980629@line.com" "prefix-U4af49"
     = Ok (SignInError "Invalid login credentials")
  /\ fst (callback Sample.envNotLinked Sample.callbackRequest Sample.worldPending)
     = Ok {| status := 403; headers := [];
             content := Text "Account not found. Please register via the app first." |}
  /\ Forall (fun e => forall options, e <> CompleteAuthorization options)
       (trace (snd (callback Sample.envNotLinked Sample.callbackRequest Sample.worldPending))).
Proof.
  assert (Hv : validateOAuthState Sample.callbackRequest Sample.worldPending
               = (Ok (Sample.pending, clearCookie),
                  snd (validateOAuthState Sample.callbackRequest Sample.worldPending))).
  { assert (Hfst : fst (validateOAuthState Sample.callbackRequest Sample.worldPending)
                   = Ok (Sample.pending, clearCookie)) by (vm_compute; reflexivity).
    destruct (validateOAuthState Sample.callbackRequest Sample.worldPending) as [r w1].
    cbn [fst snd] in *. now rewrite Hfst. }
  split; [exact Hv|]. split; [reflexivity|].
  destruct (account_not_linked Sample.envNotLinked Sample.callbackRequest Sample.worldPending
              (snd (validateOAuthState Sample.callbackRequest Sample.worldPending))
              Sample.pending clearCookie "line-code" "line-access-token"
              "Invalid login credentials" (Some (JStr "abc"))
              {| reply_ok := true; reply_text := ""; reply_json := Ok (Some "line-access-token") |}
              {| reply_ok := true; reply_text := "";
                 reply_json := Ok {| profile_userId := "U4af4980629";
                                     profile_displayName := "Yongtae";
                                     pictureUrl := None |} |}
              {| profile_userId := "U4af4980629"; profile_displayName := "Yongtae";
                 pictureUrl := None |}) as (Hrun & Hcalls);
    [exact Hv | reflexivity | reflexivity | reflexivity | reflexivity | reflexivity
    | reflexivity | discriminate | reflexivity | reflexivity | reflexivity | reflexivity |].
  rewrite Hrun. cbn [fst snd trace]. split; [reflexivity|].
  apply Forall_app_2; [|exact Hcalls].
  assert (Ht : trace (snd (validateOAuthState Sample.callbackRequest Sample.worldPending))
               = [KvPut ("oauth_state:" ++ Sample.token) (JSON_stringify Sample.pending) 600;
                  KvGet ("oauth_state:" ++ Sample.token);
                  KvDelete ("oauth_state:" ++ Sample.token)]) by (vm_compute; reflexivity).
  rewrite Ht. repeat constructor; discriminate.
Defined.

(** C10 on the sample: the callback of another session fails and the
    owner's callback still gets the pending authorization. *)
Lemma early_failure_keeps_state_witness :
  fst (validateOAuthState Sample.callbackOtherSession Sample.worldPending)
  = Throw (OAuthError 403 "Session binding mismatch")
  /\ kv_peek ("oauth_state:" ++ Sample.token) Sample.worldPending
     = Some (JSON_stringify Sample.pending)
  /\ snd (validateOAuthState Sample.callbackOtherSession Sample.worldPending)
     = Sample.worldPending
  /\ fst (validateOAuthState Sample.callbackRequest
            (snd (validateOAuthState Sample.callbackOtherSession Sample.worldPending)))
     = Ok (Sample.pending, clearCookie).
Proof.
  split; [vm_compute; reflexivity|]. split; [vm_compute; reflexivity|].
  apply (early_failure_keeps_state Sample.callbackOtherSession Sample.callbackRequest
           Sample.token (JSON_stringify Sample.pending) Sample.pending Sample.worldPending);
    [right; right; vm_compute; reflexivity | discriminate | reflexivity | reflexivity
    | vm_compute; reflexivity | vm_compute; reflexivity].
Defined.

End Samples.


(** ** More theorems on sample requests *)

Section MoreSamples.

#[local] Existing Instance Reference.platform.

(** The second UUID of the sample random source. *)
Example secondToken_value :
  fst (createOAuthState Sample.pending 600 Scenario.worldAfterPage) = Ok Scenario.secondToken.
Proof. vm_compute. reflexivity. Qed.

(** X1 on a header of three pairs, two of them of one name. *)
Lemma parseCookies_last_pair_wins_witness :
  parseCookies "a=1; __Host-csrf=old; __Host-csrf=x=y" !! "__Host-csrf" = Some "x=y"
  /\ parseCookies "a=1; __Host-csrf=old; __Host-csrf=x=y" !! "a"
     = parseCookies "a=1; __Host-csrf=old" !! "a".
Proof.
  destruct (parseCookies_last_pair_wins "a=1; __Host-csrf=old" "__Host-csrf" "x=y")
    as [Hname Hother].
  - unfold plain. cbn. repeat constructor.
  - discriminate.
  - discriminate.
  - unfold without. cbn. repeat constructor; discriminate.
  - split; reflexivity.
  - split; [exact Hname | apply Hother; discriminate].
Defined.

(** X3 on a signature made under the sample secret. *)
Lemma signature_names_one_mac_witness :
  signData "[1]" "0123456789abcdef" = Ok (hex (Reference.hmac "0123456789abcdef" "[1]")).
Proof.
  apply (signature_names_one_mac "[1]" "[2]" (hex (Reference.hmac "0123456789abcdef" "[1]"))
           "0123456789abcdef").
  vm_compute. reflexivity.
Defined.

(** X5 on an entity and the character it stands for. *)
Lemma sanitizeText_keeps_texts_apart_witness :
  "&lt;" <> "<" /\ sanitizeText "&lt;" <> sanitizeText "<".
Proof.
  split; [discriminate|].
  apply (sanitizeText_keeps_texts_apart "&lt;" "<"). discriminate.
Defined.

(** X6 on a client whose name is a tag. *)
Lemma approval_dialog_is_escaped_witness :
  exists response page,
    renderApprovalDialog (Some {| clientName := Some "<img src=x>"; clientId := Some "abc" |})
      "csrf-token-1"
      {| server_name := "My MCP Server"; server_description := "Tom & Jerry's";
         server_logo := None |}
      "__Host-csrf=csrf-token-1" Sample.pending = Ok response
    /\ content response = Html page
    /\ dialog_client page = "&lt;img src=x&gt;"
    /\ escaped (dialog_client page)
    /\ escaped (dialog_description page).
Proof.
  eexists. eexists. split; [vm_compute; reflexivity|].
  split; [reflexivity|]. split; [reflexivity|].
  match goal with
  | |- context [dialog_client ?p] =>
      destruct (approval_dialog_is_escaped
                  (Some {| clientName := Some "<img src=x>"; clientId := Some "abc" |})
                  "csrf-token-1"
                  {| server_name := "My MCP Server"; server_description := "Tom & Jerry's";
                     server_logo := None |}
                  "__Host-csrf=csrf-token-1" Sample.pending
                  {| status := 200;
                     headers := [("content-type", "text/html; charset=utf-8");
                                 ("set-cookie", "__Host-csrf=csrf-token-1")];
                     content := Html p |})
        as (_ & _ & page & Hpage & _ & Hd & Hc & _)
  end.
  - vm_compute. reflexivity.
  - injection Hpage as <-. split; assumption.
Defined.

(** X7 on the token and the cookie generated from [Sample.world]. *)
Lemma csrf_token_round_trip_witness :
  validateCSRFToken [("csrf_token", FormString Sample.token)] Scenario.consentSubmit = Ok tt.
Proof.
  apply (csrf_token_round_trip Scenario.consentSubmit [("csrf_token", FormString Sample.token)]
           Sample.token Sample.token
           ("__Host-csrf=" ++ Sample.token ++ "; HttpOnly; Secure; SameSite=Strict; Path=/")
           Sample.world);
    reflexivity.
Defined.

(** X9 on the two requests of a flow through a tunnel. *)
Lemma callback_url_is_https_behind_proxy_witness :
  getCallbackUrl {| url := {| protocol := "http:"; hostname := "tunnel.example"; port := "";
                              pathname := "/authorize"; searchParams := [("client_id", "abc")] |};
                    cookieHeader := None; body := None |}
  = getCallbackUrl {| url := {| protocol := "https:"; hostname := "tunnel.example"; port := "";
                                pathname := "/callback"; searchParams := [("code", "c")] |};
                      cookieHeader := None; body := None |}.
Proof.
  apply (callback_url_is_https_behind_proxy
           {| url := {| protocol := "http:"; hostname := "tunnel.example"; port := "";
                        pathname := "/authorize"; searchParams := [("client_id", "abc")] |};
              cookieHeader := None; body := None |}
           {| url := {| protocol := "https:"; hostname := "tunnel.example"; port := "";
                        pathname := "/callback"; searchParams := [("code", "c")] |};
              cookieHeader := None; body := None |});
    first [reflexivity | discriminate].
Defined.

(** X11 on the consent form posted without its cookie. *)
Lemma post_authorize_refusal_changes_nothing_witness :
  fst (post_authorize Sample.env Sample.consentPostNoCookie Sample.world)
  = Ok (text_response "CSRF token mismatch" 403)
  /\ snd (post_authorize Sample.env Sample.consentPostNoCookie Sample.world) = Sample.world.
Proof.
  assert (H : fst (post_authorize Sample.env Sample.consentPostNoCookie Sample.world)
              = Ok (text_response "CSRF token mismatch" 403)) by (vm_compute; reflexivity).
  split; [exact H|].
  apply (post_authorize_refusal_changes_nothing Sample.env Sample.consentPostNoCookie
           Sample.world (text_response "CSRF token mismatch" 403) H).
  discriminate.
Defined.

(** Every service of [Sample.env] answers. *)
Lemma sample_servicesAnswer (request : Request) :
  servicesAnswer Sample.env request "line-code" Sample.pending Scenario.scope
    Scenario.profile "line-access-token" "supabase-user-1"
    "https://client.example/cb?code=issued".
Proof.
  constructor.
  - eexists. repeat split.
  - discriminate.
  - eexists. repeat split.
  - reflexivity.
  - reflexivity.
Defined.

(** The sample callback is validated. *)
Lemma validateOAuthState_sample :
  validateOAuthState Sample.callbackRequest Sample.worldPending
  = (Ok (Sample.pending, clearCookie),
     snd (validateOAuthState Sample.callbackRequest Sample.worldPending)).
Proof.
  assert (Hfst : fst (validateOAuthState Sample.callbackRequest Sample.worldPending)
                 = Ok (Sample.pending, clearCookie)) by (vm_compute; reflexivity).
  destruct (validateOAuthState Sample.callbackRequest Sample.worldPending) as [r w1].
  cbn [fst snd] in *. now rewrite Hfst.
Defined.

(** X14 on the consent page served from [Sample.world] and its form. *)
Lemma consent_form_round_trip_witness :
  exists response,
    fst (post_authorize Sample.env Scenario.consentSubmit Scenario.worldAfterPage) = Ok response
    /\ status response = 302%Z
    /\ location response
       = Some (getLineAuthorizeUrl "1650000000" "https://mcp.example.com/callback"
                 Scenario.secondToken)
    /\ kv (snd (post_authorize Sample.env Scenario.consentSubmit Scenario.worldAfterPage))
         !! ("oauth_state:" ++ Scenario.secondToken)
       = Some (JSON_stringify Sample.pending, 1600%Z).
Proof.
  destruct (consent_form_round_trip Sample.env (Sample.authorizeRequest None) Sample.pending
              (JStr "abc")
              (Some {| clientName := Some "Claude Desktop"; clientId := Some "abc" |})
              "eyJvYXV0aFJlcUluZm8iOnsiY2xpZW50SWQiOiJhYmMiLCJzY29wZSI6WyJwcm9maWxlIl19fQ=="
              Sample.world)
    as (page & setCookie & Hpage & Hsubmit);
    [reflexivity | reflexivity | reflexivity | vm_compute; reflexivity | reflexivity
    | vm_compute; reflexivity | discriminate | vm_compute; reflexivity | discriminate |].
  assert (Hget : fst (get_authorize Sample.env (Sample.authorizeRequest None) Sample.world)
                 = Ok {| status := 200;
                         headers := [("content-type", "text/html; charset=utf-8");
                                     ("set-cookie",
                                      "__Host-csrf=" ++ Sample.token
                                      ++ "; HttpOnly; Secure; SameSite=Strict; Path=/")];
                         content :=
                           Html {| dialog_logo := None;
                                   dialog_name := "My MCP Server";
                                   dialog_description := "Your service description here";
                                   dialog_client := "Claude Desktop";
                                   dialog_csrf_token := Sample.token;
                                   dialog_state :=
                                     "eyJvYXV0aFJlcUluZm8iOnsiY2xpZW50SWQiOiJhYmMiLCJzY29wZSI6WyJwcm9maWxlIl19fQ==" |} |})
    by (vm_compute; reflexivity).
  rewrite Hget in Hpage. injection Hpage as Hcookie Hdialog. subst setCookie page.
  exact (Hsubmit Scenario.consentSubmit Scenario.worldAfterPage eq_refl eq_refl).
Defined.

(** X16 on the sample callback, 600 seconds after the state was saved. *)
Lemma state_expires_witness :
  fst (validateOAuthState Sample.callbackRequest (later 600 Sample.worldPending))
  = Throw (OAuthError 400 "Invalid or expired state")
  /\ kv (snd (validateOAuthState Sample.callbackRequest (later 600 Sample.worldPending)))
     = kv (later 600 Sample.worldPending).
Proof.
  apply (state_expires Sample.pending 600 600 Sample.callbackRequest Sample.token Sample.world);
    first [reflexivity | lia].
Defined.


(** X19 when the token endpoint cannot be reached. *)
Lemma callback_rethrows_after_validation_witness :
  fst (callback Scenario.envLineDown Sample.callbackRequest Sample.worldPending)
  = Throw (Raised TypeError)
  /\ kv (snd (callback Scenario.envLineDown Sample.callbackRequest Sample.worldPending))
     = kv (snd (validateOAuthState Sample.callbackRequest Sample.worldPending)).
Proof.
  apply (callback_rethrows_after_validation Scenario.envLineDown Sample.callbackRequest
           Sample.worldPending
           (snd (validateOAuthState Sample.callbackRequest Sample.worldPending))
           Sample.pending clearCookie "line-code" (Some (JStr "abc")) (Raised TypeError));
    [exact validateOAuthState_sample | reflexivity | reflexivity | reflexivity | reflexivity].
Defined.

(** X21 on the approved browser and the sample callback, 30 seconds later. *)
Lemma approved_flow_reaches_completion_witness :
  isClientApproved Scenario.approvedBrowser (JStr "abc") (COOKIE_ENCRYPTION_KEY Sample.env)
  = Ok true
  /\ fst (get_authorize Sample.env Scenario.approvedBrowser Sample.world)
     = Ok {| status := 302;
             headers := [("set-cookie", bindStateToSession Sample.token);
                         ("location",
                          getLineAuthorizeUrl "1650000000" "https://mcp.example.com/callback"
                            Sample.token)];
             content := NoBody |}
  /\ fst (callback Sample.env Sample.callbackRequest
            (later 30 (snd (get_authorize Sample.env Scenario.approvedBrowser Sample.world))))
     = Ok {| status := 302;
             headers := [("location", "https://client.example/cb?code=issued");
                         ("set-cookie", clearCookie)];
             content := NoBody |}.
Proof.
  assert (Happroved : isClientApproved Scenario.approvedBrowser (JStr "abc")
                        (COOKIE_ENCRYPTION_KEY Sample.env) = Ok true)
    by (vm_compute; reflexivity).
  split; [exact Happroved|].
  destruct (approved_flow_reaches_completion Sample.env Scenario.approvedBrowser
              Sample.callbackRequest Sample.pending (JStr "abc") Scenario.scope 30
              "line-code" "line-access-token" "supabase-user-1"
              "https://client.example/cb?code=issued" Scenario.profile Sample.world)
    as (Hfirst & Hfinal & _);
    [reflexivity | reflexivity | reflexivity | reflexivity | exact Happroved
    | vm_compute; reflexivity | lia | reflexivity | reflexivity | reflexivity
    | apply sample_servicesAnswer |].
  split; [exact Hfirst | exact Hfinal].
Defined.


(** X26 on a callback that sends three cookies. *)
Lemma session_cookie_found_among_others_witness :
  truthy_cookie (request_cookies Scenario.callbackManyCookies) "__Host-session"
  = Some (sha256 Sample.token)
  /\ validateOAuthState Scenario.callbackManyCookies Sample.worldPending
     = validateOAuthState Sample.callbackRequest Sample.worldPending.
Proof.
  apply (session_cookie_found_among_others Scenario.callbackManyCookies
           (cookiePair Sample.approvalCookie ++ "; __Host-csrf=" ++ Scenario.secondToken)
           Sample.token Sample.worldPending).
  reflexivity.
Defined.

(** X22 on a browser approved for [abc] that approves [xyz]. *)
Lemma approvals_accumulate_witness :
  exists directive,
    addApprovedClient Scenario.approvedBrowser (JStr "xyz") "0123456789abcdef" = Ok directive
    /\ forall next,
        cookieHeader next = Some (cookiePair directive) ->
        getApprovedClientsFromCookie next "0123456789abcdef"
        = Ok (JArr [JStr "abc"; JStr "xyz"])
        /\ isClientApproved next (JStr "xyz") "0123456789abcdef" = Ok true
        /\ isClientApproved next (JStr "abc") "0123456789abcdef" = Ok true.
Proof.
  assert (Hprior : getApprovedClientsFromCookie Scenario.approvedBrowser "0123456789abcdef"
                   = Ok (JArr [JStr "abc"])) by (vm_compute; reflexivity).
  destruct (approvals_accumulate Scenario.approvedBrowser "xyz" "0123456789abcdef"
              [JStr "abc"]) as (directive & Hadd & Hnext);
    [discriminate | exact Hprior | vm_compute; reflexivity | vm_compute; reflexivity |].
  exists directive. split; [exact Hadd|].
  intros next Hcookie. destruct (Hnext next Hcookie) as (Hread & Hnew & Hold).
  split; [exact Hread|]. split; [exact Hnew|].
  apply Hold. unfold isClientApproved. rewrite Hprior. reflexivity.
Defined.

(** X13 on the browser that sends back the sample approval cookie. *)
Lemma approved_cookie_skips_consent_witness :
  get_authorize Sample.env Scenario.approvedBrowser Sample.world
  = (Ok {| status := 302;
           headers :=
             [("set-cookie", bindStateToSession Sample.token);
              ("location",
               "https://access.line.me/oauth2/v2.1/authorize?response_type=code&client_id="
               ++ formUrlEncode "1650000000"
               ++ "&redirect_uri=" ++ formUrlEncode "https://mcp.example.com/callback"
               ++ "&state=" ++ Sample.token ++ "&scope=profile+openid")];
           content := NoBody |},
     snd (createOAuthState Sample.pending 600 Sample.world)).
Proof.
  assert (Hissued : addApprovedClient Sample.consentPost (JStr "abc")
                      (COOKIE_ENCRYPTION_KEY Sample.env) = Ok Sample.approvalCookie)
    by (vm_compute; reflexivity).
  destruct (approved_cookie_skips_consent Sample.env Sample.consentPost
              Scenario.approvedBrowser "abc" [] Sample.pending Sample.world)
    as (directive & Hadd & Hskip);
    [discriminate | vm_compute; reflexivity | vm_compute; reflexivity
    | vm_compute; reflexivity | discriminate | reflexivity | reflexivity |].
  rewrite Hissued in Hadd. injection Hadd as <-.
  exact (Hskip eq_refl).
Defined.

(** The indented text of an object of two properties. *)
Example stringifyIndented_sample :
  stringifyIndented [("a", "x"); ("b", "y")]
  = Js.str (Js.chars "{" ++ [ascii_of_N 10] ++ Js.chars "  " ++ [Reference.quote]
            ++ Js.chars "a" ++ [Reference.quote] ++ Js.chars ": " ++ [Reference.quote]
            ++ Js.chars "x" ++ [Reference.quote] ++ Js.chars "," ++ [ascii_of_N 10]
            ++ Js.chars "  " ++ [Reference.quote] ++ Js.chars "b" ++ [Reference.quote]
            ++ Js.chars ": " ++ [Reference.quote] ++ Js.chars "y" ++ [Reference.quote]
            ++ [ascii_of_N 10] ++ Js.chars "}")%list.
Proof. vm_compute. reflexivity. Qed.

(** The [hello] tool on the sample deployments. *)
Example hello_sample :
  match MyMCP_init Sample.env {| lineUserId := "U4af4980629";
                                 supabaseUserId := "supabase-user-1";
                                 displayName := "Yongtae" |} with
  | [tool] => fst (tool_handler tool Sample.world) = Ok (greeting "supabase-user-1")
  | _ => False
  end
  /\ match MyMCP_init Sample.envNotLinked {| lineUserId := "U4af4980629";
                                             supabaseUserId := "supabase-user-1";
                                             displayName := "Yongtae" |} with
     | [tool] => fst (tool_handler tool Sample.world) = Ok authError
     | _ => False
     end.
Proof. vm_compute. split; reflexivity. Qed.

End MoreSamples.
